(** * LinkTool: the link-preview block of src/index.js

    A shallow embedding of the [LinkTool] class: its data accessor, the
    EDIT/VIEW controller over the block's DOM nodes, and the fetch
    coordinator, followed by the properties of the specification.

    The class mutates [this] and the DOM and can throw, so its methods are
    written in a state-and-exception monad over the instance.  The
    asynchronous parts ([await] in [fetchLinkData], the timer behind
    [hideProgress]) are split at their suspension points: the code after a
    suspension point is a separate computation, run when the environment
    delivers the response or fires the timer. *)

From stdpp Require Import base gmap strings list functions pretty.
From Stdlib Require Import ZArith Ascii.

Set Warnings "-register-all".

Local Open Scope string_scope.
Local Open Scope list_scope.
Local Open Scope stdpp_scope.

(** ** JavaScript values

    The values that flow through the block are those of parsed JSON plus
    [undefined].  Numbers are the integer-valued ones (the response format
    documents [success] as 0 or 1); strings are sequences of code units
    below 256, one [ascii] each. *)

Inductive value :=
  | VUndef
  | VNull
  | VBool (b : bool)
  | VNum (n : Z)
  | VStr (s : string)
  | VArr (l : list value)
  | VObj (o : gmap string value).

(** An object literal or parsed JSON object. *)
Abbreviation obj := (gmap string value).

(** ToBoolean. *)
Definition truthy (v : value) : bool :=
  match v with
  | VUndef | VNull => false
  | VBool b => b
  | VNum n => negb (n =? 0)%Z
  | VStr s => negb (String.eqb s "")
  | VArr _ | VObj _ => true
  end.

(** [a || b] on values that are already evaluated. *)
Definition js_or (a b : value) : value := if truthy a then a else b.

(** [o.k] on an object literal: an absent key reads as [undefined]. *)
Definition field (o : obj) (k : string) : value := default VUndef (o !! k).

Inductive exn :=
  | TypeError
  | NotFoundError
  | SyntaxError
  | InvalidCharacterError
  | NetworkError.

(** [v.k] for the property names this program reads ([success], [meta],
    [link], [image], [title], [description], [url]).  Reading a property of
    [undefined] or [null] throws; primitives and arrays carry none of these
    names except [link] on strings, which the program never reads on a
    string ([response.link] is read only once [response.success] was
    truthy, which makes [response] an object). *)
Definition get_prop (v : value) (k : string) : exn + value :=
  match v with
  | VUndef | VNull => inl TypeError
  | VObj o => inr (field o k)
  | _ => inr VUndef
  end.

(** [Object.keys(v).length]. *)
Definition Object_keys_length (v : value) : exn + nat :=
  match v with
  | VUndef | VNull => inl TypeError
  | VObj o => inr (size o)
  | VArr l => inr (List.length l)
  | VStr s => inr (String.length s)
  | VBool _ | VNum _ => inr 0
  end.

(** White space and line terminators among the code units below 256:
    TAB, LF, VT, FF, CR, SPACE and NBSP. *)
Definition is_white_space (a : ascii) : bool :=
  let n := Ascii.nat_of_ascii a in
  (((9 <=? n) && (n <=? 13)) || (n =? 32) || (n =? 160))%nat.

Fixpoint trimStart (s : string) : string :=
  match s with
  | EmptyString => EmptyString
  | String a r => if is_white_space a then trimStart r else s
  end.

Fixpoint trimEnd (s : string) : string :=
  match s with
  | EmptyString => EmptyString
  | String a r =>
      match trimEnd r with
      | EmptyString => if is_white_space a then EmptyString else String a EmptyString
      | r' => String a r'
      end
  end.

(** [String.prototype.trim]. *)
Definition trim (s : string) : string := trimEnd (trimStart s).

(** ** The language runtime and the host

    [ToString], the [URL] constructor (through url-polyfill) and the CSS
    parser behind [style.backgroundImage] belong to the runtime, not to
    this repository; the block is verified against any runtime.
    [URL_hostname s] is [(new URL(s)).hostname], or [None] when the
    constructor throws.  [CSS_backgroundImage s] is what
    [el.style.backgroundImage] reads after [el.style.backgroundImage = s]
    for an [s] the parser accepts (its serialisation, which need not be
    [s]), and [None] for an [s] it rejects: the assignment then leaves the
    declaration as it was, and does not throw. *)

Class Runtime := {
  ToString : value -> string;
  ToString_VStr : forall s, ToString (VStr s) = s;
  URL_hostname : string -> option string;
  CSS_backgroundImage : string -> option string;
}.

(** A DOM class token is non-empty and free of ASCII white space. *)
Definition is_ascii_space (a : ascii) : bool :=
  let n := Ascii.nat_of_ascii a in
  ((n =? 9) || (n =? 10) || (n =? 12) || (n =? 13) || (n =? 32))%nat.

Fixpoint has_space (s : string) : bool :=
  match s with
  | EmptyString => false
  | String a r => is_ascii_space a || has_space r
  end.

Definition is_token (s : string) : bool :=
  negb (String.eqb s "") && negb (has_space s).

(** The part of the Editor.js API the block uses: two class names and the
    translation function.  The editor hands out well-formed class names. *)
Record Api := {
  styles_block : string;
  styles_input : string;
  i18n_t : string -> string;
  styles_block_ok : is_token styles_block = true;
  styles_input_ok : is_token styles_input = true;
}.

(** ** The instance *)

(** [LinkTool.STATE]: [EDIT] is 0 and [VIEW] is 1. *)
Inductive STATE := EDIT | VIEW.

#[global] Instance STATE_eq_dec : EqDecision STATE.
Proof. solve_decision. Defined.

(** The fields of [this.nodes] that hold elements. *)
Inductive node :=
  | wrapper | container | progress | button | input | inputHolder
  | linkContent | linkImage | linkTitle | linkDescription | linkText.

#[global] Instance node_eq_dec : EqDecision node.
Proof. solve_decision. Defined.

(** The elements behind [this.nodes]: [created n] is false while the field
    is still [null]; [localName n] is the element name it was created
    with; [listeners n] lists the event types a handler was registered
    for. *)
Record Dom := {
  created : node -> bool;
  localName : node -> string;
  classList : node -> list string;
  childNodes : node -> list node;
  textContent : node -> string;
  props : node -> gmap string string;
  listeners : node -> list string;
}.

Record LinkToolData := { link : value; meta : value }.

Record Config := { endpoint : value; headers : value }.

(** The argument of [ajax.get]. *)
Record Request := { req_url : value; req_headers : value; req_data_url : string }.

(** The argument of [api.notifier.show]. *)
Record Notification := { message : string; style : string }.

(** The function passed to [hideProgress().then]; it closes over
    [metaData]. *)
Inductive callback := ThenShowPreview (metaData : value).

(** The instance, together with the three collaborators it writes to: the
    notifier (the messages shown so far), the transport (the requests that
    have not settled) and the timer queue (the callbacks waiting for
    [setTimeout(resolve, 500)]). *)
Record LinkTool := {
  api : Api;
  readOnly : bool;
  config : Config;
  nodes : Dom;
  state : STATE;
  _data : LinkToolData;
  notifier : list Notification;
  ajax : list Request;
  timers : list callback;
}.

Definition with_nodes (f : Dom -> Dom) (t : LinkTool) : LinkTool :=
  {| api := api t; readOnly := readOnly t; config := config t;
     nodes := f (nodes t); state := state t; _data := _data t;
     notifier := notifier t; ajax := ajax t; timers := timers t |}.

Definition with_state (s : STATE) (t : LinkTool) : LinkTool :=
  {| api := api t; readOnly := readOnly t; config := config t;
     nodes := nodes t; state := s; _data := _data t;
     notifier := notifier t; ajax := ajax t; timers := timers t |}.

Definition with_data (d : LinkToolData) (t : LinkTool) : LinkTool :=
  {| api := api t; readOnly := readOnly t; config := config t;
     nodes := nodes t; state := state t; _data := d;
     notifier := notifier t; ajax := ajax t; timers := timers t |}.

Definition with_notifier (l : list Notification) (t : LinkTool) : LinkTool :=
  {| api := api t; readOnly := readOnly t; config := config t;
     nodes := nodes t; state := state t; _data := _data t;
     notifier := l; ajax := ajax t; timers := timers t |}.

Definition with_ajax (l : list Request) (t : LinkTool) : LinkTool :=
  {| api := api t; readOnly := readOnly t; config := config t;
     nodes := nodes t; state := state t; _data := _data t;
     notifier := notifier t; ajax := l; timers := timers t |}.

Definition with_timers (l : list callback) (t : LinkTool) : LinkTool :=
  {| api := api t; readOnly := readOnly t; config := config t;
     nodes := nodes t; state := state t; _data := _data t;
     notifier := notifier t; ajax := ajax t; timers := l |}.

(** ** The monad of methods

    A method takes the instance and returns either a result or the
    exception it threw, with the instance as the method left it: what was
    mutated before a throw stays mutated. *)

Definition M (A : Type) : Type := LinkTool -> (exn + A) * LinkTool.

Definition ret {A} (a : A) : M A := fun t => (inr a, t).

Definition bind {A B} (m : M A) (f : A -> M B) : M B := fun t =>
  match m t with
  | (inr a, t') => f a t'
  | (inl e, t') => (inl e, t')
  end.

Definition throw {A} (e : exn) : M A := fun t => (inl e, t).

(** [try { m } catch (e) { h e }]. *)
Definition try_catch {A} (m : M A) (h : exn -> M A) : M A := fun t =>
  match m t with
  | (inr a, t') => (inr a, t')
  | (inl e, t') => h e t'
  end.

Definition gets {A} (f : LinkTool -> A) : M A := fun t => (inr (f t), t).
Definition modify (f : LinkTool -> LinkTool) : M unit := fun t => (inr tt, f t).
Definition lift {A} (r : exn + A) : M A := fun t => (r, t).

(** Calling an [async] function: the body runs up to its first [await];
    an exception rejects the returned promise instead of reaching the
    caller. *)
Definition async (m : M unit) : M unit := fun t => (inr tt, snd (m t)).

(** The instance a computation leaves behind, and its outcome. *)
Definition exec {A} (m : M A) (t : LinkTool) : LinkTool := snd (m t).
Definition outcome {A} (m : M A) (t : LinkTool) : exn + A := fst (m t).

Declare Scope js_scope.
Delimit Scope js_scope with js.
Notation "x ← y ; z" := (bind y (fun x => z))
  (at level 20, y at level 100, z at level 200, only parsing) : js_scope.
Notation "x ;; z" := (bind x (fun _ => z))
  (at level 100, z at level 200, only parsing, right associativity) : js_scope.
Local Open Scope js_scope.

(** ** The DOM operations the block uses *)

Definition set_created (f : node -> bool) (d : Dom) : Dom :=
  {| created := f; localName := localName d; classList := classList d;
     childNodes := childNodes d; textContent := textContent d;
     props := props d; listeners := listeners d |}.

Definition set_localName (f : node -> string) (d : Dom) : Dom :=
  {| created := created d; localName := f; classList := classList d;
     childNodes := childNodes d; textContent := textContent d;
     props := props d; listeners := listeners d |}.

Definition set_classList (f : node -> list string) (d : Dom) : Dom :=
  {| created := created d; localName := localName d; classList := f;
     childNodes := childNodes d; textContent := textContent d;
     props := props d; listeners := listeners d |}.

Definition set_childNodes (f : node -> list node) (d : Dom) : Dom :=
  {| created := created d; localName := localName d; classList := classList d;
     childNodes := f; textContent := textContent d;
     props := props d; listeners := listeners d |}.

Definition set_textContent (f : node -> string) (d : Dom) : Dom :=
  {| created := created d; localName := localName d; classList := classList d;
     childNodes := childNodes d; textContent := f;
     props := props d; listeners := listeners d |}.

Definition set_props (f : node -> gmap string string) (d : Dom) : Dom :=
  {| created := created d; localName := localName d; classList := classList d;
     childNodes := childNodes d; textContent := textContent d;
     props := f; listeners := listeners d |}.

Definition set_listeners (f : node -> list string) (d : Dom) : Dom :=
  {| created := created d; localName := localName d; classList := classList d;
     childNodes := childNodes d; textContent := textContent d;
     props := props d; listeners := f |}.

(** Dereferencing [this.nodes.n]: a [null] field throws. *)
Definition deref (n : node) : M unit := fun t =>
  if created (nodes t) n then (inr tt, t) else (inl TypeError, t).

(** [DOMTokenList.add] validates its tokens in order before adding any. *)
Fixpoint check_tokens (tokens : list string) : option exn :=
  match tokens with
  | [] => None
  | tok :: rest =>
      if String.eqb tok "" then Some SyntaxError
      else if has_space tok then Some InvalidCharacterError
      else check_tokens rest
  end.

Definition add_token (l : list string) (tok : string) : list string :=
  if decide (tok ∈ l) then l else l ++ [tok].

Definition add_tokens (tokens l : list string) : list string :=
  fold_left add_token tokens l.

Definition remove_token (tok : string) (l : list string) : list string :=
  filter (λ x, x ≠ tok) l.

(** The effect of each operation on the elements, once its receiver and
    arguments are known to exist. *)

Definition dom_classList_add (n : node) (tokens : list string) (d : Dom) : Dom :=
  set_classList (<[n := add_tokens tokens (classList d n)]> (classList d)) d.

Definition dom_classList_remove (n : node) (tok : string) (d : Dom) : Dom :=
  set_classList (<[n := remove_token tok (classList d n)]> (classList d)) d.

(** Take [c] out of whatever parent holds it. *)
Definition detach (c : node) (d : Dom) : Dom :=
  set_childNodes (fun p => filter (λ x, x ≠ c) (childNodes d p)) d.

Definition dom_appendChild (p c : node) (d : Dom) : Dom :=
  let d' := detach c d in
  set_childNodes (<[p := childNodes d' p ++ [c]]> (childNodes d')) d'.

Definition dom_removeChild (p c : node) (d : Dom) : Dom :=
  set_childNodes (<[p := filter (λ x, x ≠ c) (childNodes d p)]> (childNodes d)) d.

Fixpoint insert_before (new ref : node) (l : list node) : list node :=
  match l with
  | [] => []
  | x :: r => if decide (x = ref) then new :: x :: r else x :: insert_before new ref r
  end.

Definition dom_insertBefore (p new ref : node) (d : Dom) : Dom :=
  let d' := detach new d in
  set_childNodes (<[p := insert_before new ref (childNodes d' p)]> (childNodes d')) d'.

Definition dom_put_textContent (n : node) (s : string) (d : Dom) : Dom :=
  set_textContent (<[n := s]> (textContent d)) d.

Definition dom_put_prop (n : node) (k v : string) (d : Dom) : Dom :=
  set_props (<[n := <[k := v]> (props d n)]> (props d)) d.

Definition dom_addEventListener (n : node) (type : string) (d : Dom) : Dom :=
  set_listeners (<[n := listeners d n ++ [type]]> (listeners d)) d.

(** [this.nodes.n.classList.add(...tokens)]. *)
Definition classList_add (n : node) (tokens : list string) : M unit :=
  deref n ;;
  match check_tokens tokens with
  | Some e => throw e
  | None => modify (with_nodes (dom_classList_add n tokens))
  end.

(** [this.nodes.n.classList.remove(tok)]. *)
Definition classList_remove (n : node) (tok : string) : M unit :=
  deref n ;;
  match check_tokens [tok] with
  | Some e => throw e
  | None => modify (with_nodes (dom_classList_remove n tok))
  end.

(** [this.nodes.p.appendChild(this.nodes.c)]: [c] leaves its old parent
    and becomes the last child of [p].  (The pairs the block appends never
    make a node its own ancestor.) *)
Definition appendChild (p c : node) : M unit :=
  deref p ;; deref c ;; modify (with_nodes (dom_appendChild p c)).

(** [this.nodes.p.removeChild(this.nodes.c)] throws when [c] is not a
    child of [p]. *)
Definition removeChild (p c : node) : M unit :=
  deref p ;; deref c ;;
  d ← gets nodes ;
  if decide (c ∈ childNodes d p)
  then modify (with_nodes (dom_removeChild p c))
  else throw NotFoundError.

(** [this.nodes.c.remove()]. *)
Definition remove (c : node) : M unit :=
  deref c ;; modify (with_nodes (detach c)).

(** [this.nodes.p.insertBefore(this.nodes.new, this.nodes.ref)] throws
    when [ref] is not a child of [p]. *)
Definition insertBefore (p new ref : node) : M unit :=
  deref p ;; deref new ;; deref ref ;;
  d ← gets nodes ;
  if decide (ref ∈ childNodes d p)
  then modify (with_nodes (dom_insertBefore p new ref))
  else throw NotFoundError.

(** [this.nodes.n.textContent]. *)
Definition get_textContent (n : node) : M string :=
  deref n ;; gets (fun t => textContent (nodes t) n).

(** [this.nodes.n.textContent = s]. *)
Definition put_textContent (n : node) (s : string) : M unit :=
  deref n ;; modify (with_nodes (dom_put_textContent n s)).

(** Attributes and reflected properties of an element, by name: [href],
    [style.backgroundImage], [innerHTML], [dataset.placeholder], and the
    ones [make] receives.  [put_prop] stores the text as it is; a setter
    that parses its text first goes through the runtime, see
    [put_backgroundImage]. *)
Definition put_prop (n : node) (k v : string) : M unit :=
  deref n ;; modify (with_nodes (dom_put_prop n k v)).

(** [this.nodes.n.addEventListener(type, ...)]; the handler is the one the
    source registers for that type. *)
Definition addEventListener (n : node) (type : string) : M unit :=
  deref n ;; modify (with_nodes (dom_addEventListener n type)).

(** The result of [make]: an element not yet stored in [this.nodes]. *)
Record Element := {
  el_localName : string;
  el_classList : list string;
  el_props : gmap string string;
}.

(** The first argument of [make]: the element names the block creates.
    [document.createElement] throws [InvalidCharacterError] on a string
    that is no element name; it accepts each of these six, the only ones
    [make] is called with. *)
Inductive tag := tag_div | tag_label | tag_button | tag_a | tag_p | tag_span.

Definition tag_name (tg : tag) : string :=
  match tg with
  | tag_div => "div"
  | tag_label => "label"
  | tag_button => "button"
  | tag_a => "a"
  | tag_p => "p"
  | tag_span => "span"
  end.

(** The second argument of [make]. *)
Inductive classNames :=
  | ClassNull
  | ClassName (s : string)
  | ClassNames (l : list string).

(** The third argument of [make]: the properties the block asks for, in
    the order the object literal lists them.  [el[attrName] = value] runs
    the setter of the property of that name, and setters differ
    ([className] would replace the classes, [innerHTML] the children);
    these three store a text and touch nothing else.  [contentEditable]
    receives a boolean, which its setter reads as ["true"] or ["false"]. *)
Inductive attribute :=
  | contentEditable (v : bool)
  | target (v : string)
  | rel (v : string).

Definition attribute_name (a : attribute) : string :=
  match a with
  | contentEditable _ => "contentEditable"
  | target _ => "target"
  | rel _ => "rel"
  end.

Definition attribute_text (a : attribute) : string :=
  match a with
  | contentEditable v => if v then "true" else "false"
  | target v => v
  | rel v => v
  end.

(** [for (const attrName in attributes) el[attrName] = attributes[attrName]]. *)
Definition set_attributes (attributes : list attribute) : gmap string string :=
  fold_left (fun m a => <[attribute_name a := attribute_text a]> m) attributes ∅.

(** [make(tagName, classNames, attributes)]. *)
Definition make (tg : tag) (cls : classNames) (attributes : list attribute)
  : exn + Element :=
  let added :=
    match cls with
    | ClassNames l =>
        match check_tokens l with
        | Some e => inl e
        | None => inr (add_tokens l [])
        end
    | ClassName s =>
        if truthy (VStr s)
        then match check_tokens [s] with
             | Some e => inl e
             | None => inr (add_tokens [s] [])
             end
        else inr []
    | ClassNull => inr []
    end in
  match added with
  | inl e => inl e
  | inr l =>
      inr {| el_localName := tag_name tg; el_classList := l;
             el_props := set_attributes attributes |}
  end.

(** [this.nodes.n = el] for a freshly made element: it has no parent, no
    children, no text and no listeners. *)
Definition dom_assign (n : node) (el : Element) (d : Dom) : Dom :=
  let d := detach n d in
  {| created := <[n := true]> (created d);
     localName := <[n := el_localName el]> (localName d);
     classList := <[n := el_classList el]> (classList d);
     childNodes := <[n := []]> (childNodes d);
     textContent := <[n := ""]> (textContent d);
     props := <[n := el_props el]> (props d);
     listeners := <[n := []]> (listeners d) |}.

Definition assign (n : node) (el : Element) : M unit :=
  modify (with_nodes (dom_assign n el)).

(** The class names of the [CSS] getter that do not come from the API. *)
Module CSS.
Definition container := "link-tool".
Definition containerLoading := "link-tool--loading".
Definition containerLoaded := "link-tool--loaded".
Definition containerEdit := "link-tool--edit".
Definition containerView := "link-tool--view".
Definition containerError := "link-tool--error".
Definition inputEl := "link-tool__input".
Definition inputHolder := "link-tool__input-holder".
Definition inputError := "link-tool__input-holder--error".
Definition linkContent := "link-tool__content".
Definition linkContentRendered := "link-tool__content--rendered".
Definition linkImage := "link-tool__image".
Definition linkTitle := "link-tool__title".
Definition linkDescription := "link-tool__description".
Definition linkText := "link-tool__anchor".
Definition button := "link-tool__button".
Definition progress := "link-tool__progress".
Definition progressLoading := "link-tool__progress--loading".
Definition progressLoaded := "link-tool__progress--loaded".
End CSS.

(** ** The methods of [LinkTool] *)

Section Methods.
Context `{RT : Runtime}.

(** [this.api.i18n.t(s)]. *)
Definition t_ (s : string) : M string := gets (fun t => i18n_t (api t) s).

(** [set data(data)]: each field falls back to the stored one when the
    input's is falsy. *)
Definition set_data (data : obj) : M unit :=
  modify (fun t =>
    with_data {| link := js_or (field data "link") (link (_data t));
                 meta := js_or (field data "meta") (meta (_data t)) |} t).

(** [get data()]. *)
Definition get_data : M LinkToolData := gets _data.

(** [this.nodes] as the constructor leaves it: every element is [null]. *)
Definition null_nodes : Dom :=
  {| created := fun _ => false; localName := fun _ => ""; classList := fun _ => [];
     childNodes := fun _ => []; textContent := fun _ => "";
     props := fun _ => ∅; listeners := fun _ => [] |}.

(** [constructor({ data, config, api, readOnly })]. *)
Definition constructor (data config : obj) (api : Api) (readOnly : bool) : LinkTool :=
  exec (set_data data)
    {| api := api; readOnly := readOnly;
       config := {| endpoint := js_or (field config "endpoint") (VStr "");
                    headers := js_or (field config "headers") (VObj ∅) |};
       nodes := null_nodes; state := EDIT;
       _data := {| link := VStr ""; meta := VObj ∅ |};
       notifier := []; ajax := []; timers := [] |}.

(** [showInputHolder()]. *)
Definition showInputHolder : M unit :=
  modify (with_state EDIT) ;;
  appendChild container inputHolder ;;
  classList_remove container CSS.containerLoaded ;;
  classList_remove progress CSS.progressLoaded ;;
  classList_remove container CSS.containerView ;;
  classList_add container [CSS.containerEdit].

(** [hideInputHolder()]. *)
Definition hideInputHolder : M unit := removeChild container inputHolder.

(** [hideLinkPreview()]. *)
Definition hideLinkPreview : M unit := removeChild container linkContent.

(** The text a DOM setter stores for a nullable string attribute such as
    [textContent]. *)
Definition to_text (v : value) : string :=
  match v with
  | VUndef | VNull => ""
  | _ => ToString v
  end.

(** [new URL(v).hostname]. *)
Definition new_URL_hostname (v : value) : M string :=
  match URL_hostname (ToString v) with
  | Some h => ret h
  | None => throw TypeError
  end.

(** The three optional parts of the preview card, in the order
    [showLinkPreview] fills them in. *)

(** [this.nodes.n.style.backgroundImage = text]: the CSS parser of the
    runtime decides; a text it rejects changes nothing. *)
Definition put_backgroundImage (n : node) (text : string) : M unit :=
  match CSS_backgroundImage text with
  | Some css => put_prop n "style.backgroundImage" css
  | None => deref n
  end.

(** [if (image && image.url) { ... }]. *)
Definition show_image (image : value) : M unit :=
  has_image ← (if truthy image
               then (url ← lift (get_prop image "url") ; ret (truthy url))
               else ret false) ;
  if has_image
  then (url ← lift (get_prop image "url") ;
        put_backgroundImage linkImage ("url(" +:+ ToString url +:+ ")") ;;
        appendChild linkContent linkImage)
  else ret tt.

(** [if (title) { ... }]. *)
Definition show_title (title : value) : M unit :=
  if truthy title
  then (put_textContent linkTitle (to_text title) ;;
        appendChild linkContent linkTitle)
  else ret tt.

(** [if (description) { ... }]. *)
Definition show_description (description : value) : M unit :=
  if truthy description
  then (put_textContent linkDescription (to_text description) ;;
        appendChild linkContent linkDescription)
  else ret tt.

(** [showLinkPreview({ image, title, description })]. *)
Definition showLinkPreview (meta : value) : M unit :=
  image ← lift (get_prop meta "image") ;
  title ← lift (get_prop meta "title") ;
  description ← lift (get_prop meta "description") ;
  modify (with_state VIEW) ;;
  appendChild container linkContent ;;
  classList_add container [CSS.containerView] ;;
  classList_remove container CSS.containerEdit ;;
  show_image image ;;
  show_title title ;;
  show_description description ;;
  classList_add linkContent [CSS.linkContentRendered] ;;
  href ← gets (fun t => link (_data t)) ;
  put_prop linkContent "href" (ToString href) ;;
  appendChild linkContent linkText ;;
  try_catch
    (deref linkText ;;
     l ← gets (fun t => link (_data t)) ;
     h ← new_URL_hostname l ;
     put_textContent linkText h)
    (fun _ =>
     l ← gets (fun t => link (_data t)) ;
     put_textContent linkText (to_text l)).

(** [showProgress()]. *)
Definition showProgress : M unit :=
  classList_add container [CSS.containerLoading] ;;
  classList_add progress [CSS.progressLoading].

(** [hideProgress().then(then_)]: the promise's executor runs at once and
    arms the timer that resolves it; an exception in the executor rejects
    the promise, and [then_] is never run. *)
Definition hideProgress (then_ : callback) : M unit :=
  try_catch
    (classList_remove container CSS.containerLoading ;;
     classList_remove progress CSS.progressLoading ;;
     classList_add container [CSS.containerLoaded] ;;
     classList_add progress [CSS.progressLoaded] ;;
     modify (fun t => with_timers (timers t ++ [then_]) t))
    (fun _ => ret tt).

(** [applyErrorStyle()]. *)
Definition applyErrorStyle : M unit :=
  classList_add container [CSS.containerError] ;;
  classList_remove container CSS.containerLoading ;;
  classList_add inputHolder [CSS.inputError] ;;
  remove progress.

(** [removeErrorStyle()]. *)
Definition removeErrorStyle : M unit :=
  classList_remove container CSS.containerError ;;
  classList_remove inputHolder CSS.inputError ;;
  insertBefore inputHolder progress input.

(** [fetchingFailed(errorMessage)]. *)
Definition fetchingFailed (errorMessage : string) : M unit :=
  modify (fun t =>
    with_notifier (notifier t ++ [{| message := errorMessage; style := "error" |}]) t) ;;
  applyErrorStyle.

(** [onFetch(response)]. *)
Definition onFetch (response : value) : M unit :=
  failed ← (if negb (truthy response) then ret true
            else (success ← lift (get_prop response "success") ;
                  ret (negb (truthy success)))) ;
  if failed
  then (msg ← t_ "Couldn't get this link data, try the other one" ;
        fetchingFailed msg)
  else
    metaData ← lift (get_prop response "meta") ;
    response_link ← lift (get_prop response "link") ;
    current ← gets (fun t => link (_data t)) ;
    let link := js_or response_link current in
    set_data {[ "meta" := metaData; "link" := link ]} ;;
    if negb (truthy metaData)
    then (msg ← t_ "Wrong response format from the server" ;
          fetchingFailed msg)
    else hideProgress (ThenShowPreview metaData).

(** [fetchLinkData(url)] up to its [await]: the request is handed to the
    transport. *)
Definition fetchLinkData (url : string) : M unit :=
  showProgress ;;
  set_data {[ "link" := VStr url ]} ;;
  modify (fun t =>
    with_ajax (ajax t ++ [{| req_url := endpoint (config t);
                             req_headers := headers (config t);
                             req_data_url := url |}]) t).

(** [fetchLinkData] from its [await] on: [Some body] when the request
    resolved with [{ body }], [None] when it was rejected. *)
Definition fetchLinkData_resume (settled : option value) : M unit :=
  try_catch
    (match settled with
     | Some body => onFetch body
     | None => throw NetworkError
     end)
    (fun _ => msg ← t_ "Couldn't fetch the link data" ; fetchingFailed msg).

(** The event argument of [startFetching]; only a paste event carries
    clipboard text, and [NoEvent] is the default [{}]. *)
Inductive DomEvent :=
  | NoEvent
  | MouseEvent
  | KeyboardEvent
  | PasteEvent (text : string).

(** [startFetching(event = {})]. *)
Definition startFetching (event : DomEvent) : M unit :=
  text ← get_textContent input ;
  let url := match event with PasteEvent clip => clip | _ => text end in
  removeErrorStyle ;;
  async (fetchLinkData url).

(** [changeState(state)]. *)
Definition changeState (s : STATE) : M unit :=
  match s with
  | EDIT => hideLinkPreview ;; showInputHolder
  | VIEW => startFetching NoEvent
  end.

(** The entry of [renderSettings()], without its icon. *)
Record Setting := {
  name : string;
  label : string;
  toggle : string;
  isActive : bool;
}.

(** [renderSettings()]. *)
Definition renderSettings : M (list Setting) :=
  s ← gets state ;
  ret [{| name := "edit-url"; label := "Edit URL"; toggle := "edit";
          isActive := bool_decide (s = EDIT) |}].

(** The [onActivate] of that entry. *)
Definition onActivate : M unit :=
  s ← gets state ;
  changeState (if decide (s = EDIT) then VIEW else EDIT).

(** [save()]. *)
Definition save : M LinkToolData := get_data.

(** [validate()]: [trim] exists on strings only. *)
Definition validate : M bool :=
  d ← get_data ;
  match link d with
  | VStr s => ret (negb (String.eqb (trim s) ""))
  | _ => throw TypeError
  end.

(** [makeInputHolder()]; the holder it returns is the one [render] stores
    in [this.nodes.inputHolder]. *)
Definition makeInputHolder : M unit :=
  el ← lift (make tag_div (ClassName CSS.inputHolder) []) ;
  assign inputHolder el ;;
  el ← lift (make tag_label (ClassName CSS.progress) []) ;
  assign progress el ;;
  ro ← gets readOnly ;
  css_input ← gets (fun t => styles_input (api t)) ;
  el ← lift (make tag_div (ClassNames [css_input; CSS.inputEl])
               [contentEditable (negb ro)]) ;
  assign input el ;;
  el ← lift (make tag_button (ClassName CSS.button) []) ;
  assign button el ;;
  txt ← t_ "Add weblink" ;
  put_prop button "innerHTML" txt ;;
  txt ← t_ "Paste or type URL and press enter to add it" ;
  put_prop input "dataset.placeholder" txt ;;
  (if ro then ret tt
   else (addEventListener button "click" ;;
         addEventListener input "paste" ;;
         addEventListener input "keydown")) ;;
  appendChild inputHolder progress ;;
  appendChild inputHolder input ;;
  appendChild inputHolder button.

(** [prepareLinkPreview()]; the holder it returns is the one [render]
    stores in [this.nodes.linkContent]. *)
Definition prepareLinkPreview : M unit :=
  el ← lift (make tag_a (ClassName CSS.linkContent)
               [target "_blank"; rel "nofollow noindex noreferrer"]) ;
  assign linkContent el ;;
  el ← lift (make tag_div (ClassName CSS.linkImage) []) ;
  assign linkImage el ;;
  el ← lift (make tag_div (ClassName CSS.linkTitle) []) ;
  assign linkTitle el ;;
  el ← lift (make tag_p (ClassName CSS.linkDescription) []) ;
  assign linkDescription el ;;
  el ← lift (make tag_span (ClassName CSS.linkText) []) ;
  assign linkText el.

(** [render()]. *)
Definition render : M node :=
  block ← gets (fun t => styles_block (api t)) ;
  el ← lift (make tag_div (ClassName block) []) ;
  assign wrapper el ;;
  el ← lift (make tag_div (ClassName CSS.container) []) ;
  assign container el ;;
  makeInputHolder ;;
  prepareLinkPreview ;;
  m ← gets (fun t => meta (_data t)) ;
  n ← lift (Object_keys_length m) ;
  (if (n =? 0)%nat
   then showInputHolder
   else (appendChild container linkContent ;;
         m ← gets (fun t => meta (_data t)) ;
         showLinkPreview m)) ;;
  appendChild wrapper container ;;
  ret wrapper.

(** The [keydown] handler of the input: ENTER starts a fetch; CTRL/CMD+A
    only moves the window's selection, which is not part of the
    instance. *)
Definition on_keydown (keyCode : Z) : M unit :=
  if (keyCode =? 13)%Z then startFetching KeyboardEvent else ret tt.

(** The body of the function passed to [hideProgress().then]. *)
Definition run_callback (cb : callback) : M unit :=
  match cb with
  | ThenShowPreview metaData => hideInputHolder ;; showLinkPreview metaData
  end.

(** ** The block in its environment

    What can happen to a rendered block: the user edits the input, clicks
    the button, pastes or presses a key in the input, the host activates
    the settings entry, an outstanding request settles, or the oldest
    timer fires.  A handler that throws leaves the instance as it was at
    the throw. *)

Inductive event :=
  | Typed (text : string)
  | Click
  | Paste (text : string)
  | Keydown (keyCode : Z)
  | Activate
  | Settled (i : nat) (r : option value)
  | Timeout.

(** An element takes user events while it sits under the container. *)
Definition in_holder (n : node) (t : LinkTool) : bool :=
  bool_decide (n ∈ childNodes (nodes t) inputHolder)
  && bool_decide (inputHolder ∈ childNodes (nodes t) container).

Definition listens (n : node) (type : string) (t : LinkTool) : bool :=
  bool_decide (type ∈ listeners (nodes t) n) && in_holder n t.

Definition step (e : event) (t : LinkTool) : LinkTool :=
  match e with
  | Typed text =>
      if negb (readOnly t) && in_holder input t
      then exec (put_textContent input text) t else t
  | Click =>
      if listens button "click" t then exec (startFetching MouseEvent) t else t
  | Paste text =>
      if listens input "paste" t then exec (startFetching (PasteEvent text)) t else t
  | Keydown k =>
      if listens input "keydown" t then exec (on_keydown k) t else t
  | Activate => exec onActivate t
  | Settled i r =>
      match ajax t !! i with
      | Some _ => exec (fetchLinkData_resume r) (with_ajax (delete i (ajax t)) t)
      | None => t
      end
  | Timeout =>
      match timers t with
      | cb :: rest => exec (run_callback cb) (with_timers rest t)
      | [] => t
      end
  end.

Definition run (es : list event) (t : LinkTool) : LinkTool :=
  fold_left (fun t e => step e t) es t.

(** The host constructs the block and renders it before anything else. *)
Definition mount (data config : obj) (api : Api) (readOnly : bool) : LinkTool :=
  exec render (constructor data config api readOnly).

Inductive reachable : LinkTool -> Prop :=
  | reachable_mount data config api readOnly :
      reachable (mount data config api readOnly)
  | reachable_step e t :
      reachable t -> reachable (step e t).

End Methods.

(** ** What holds of a mounted block *)

(** Every element of [this.nodes] exists. *)
Definition all_created (t : LinkTool) : Prop := ∀ n, created (nodes t) n = true.

(** The metadata a pending callback closes over passed the [!metaData]
    test of [onFetch]. *)
Definition callback_ok (cb : callback) : Prop :=
  match cb with
  | ThenShowPreview metaData => truthy metaData = true
  end.

(** The shape [render] gives the block and every handler keeps: all the
    elements exist, the input sits in its holder, the stored metadata is
    truthy, and the container holds the input holder in [EDIT] and the
    preview in [VIEW], never both. *)
Definition mounted (t : LinkTool) : Prop :=
  all_created t ∧
  input ∈ childNodes (nodes t) inputHolder ∧
  truthy (meta (_data t)) = true ∧
  Forall callback_ok (timers t) ∧
  match state t with
  | EDIT => inputHolder ∈ childNodes (nodes t) container ∧
            linkContent ∉ childNodes (nodes t) container
  | VIEW => linkContent ∈ childNodes (nodes t) container ∧
            inputHolder ∉ childNodes (nodes t) container
  end.

(** What filling in a part of the preview card leaves alone: everything
    but the card's own elements. *)
Record card_only (t t' : LinkTool) : Prop := {
  card_created : all_created t';
  card_state : state t' = state t;
  card_data : _data t' = _data t;
  card_preview : linkContent ∈ childNodes (nodes t') container ↔
                 linkContent ∈ childNodes (nodes t) container;
  card_holder : inputHolder ∈ childNodes (nodes t') container ↔
                inputHolder ∈ childNodes (nodes t) container;
  card_input : input ∈ childNodes (nodes t') inputHolder ↔
               input ∈ childNodes (nodes t) inputHolder;
  card_class_container : classList (nodes t') container = classList (nodes t) container;
  card_class_holder : classList (nodes t') inputHolder = classList (nodes t) inputHolder;
  card_class_progress : classList (nodes t') progress = classList (nodes t) progress;
  card_text_input : textContent (nodes t') input = textContent (nodes t) input;
  card_text_label : textContent (nodes t') linkText = textContent (nodes t) linkText;
  card_notifier : notifier t' = notifier t;
  card_ajax : ajax t' = ajax t;
  card_timers : timers t' = timers t;
  card_api : api t' = api t;
  card_readOnly : readOnly t' = readOnly t;
  card_config : config t' = config t;
}.

(** What a handler that does not switch between input and preview leaves
    alone. *)
Record same_shape (t t' : LinkTool) : Prop := {
  shape_state : state t' = state t;
  shape_preview : linkContent ∈ childNodes (nodes t') container ↔
                  linkContent ∈ childNodes (nodes t) container;
  shape_holder : inputHolder ∈ childNodes (nodes t') container ↔
                 inputHolder ∈ childNodes (nodes t) container;
  shape_input : input ∈ childNodes (nodes t') inputHolder ↔
                input ∈ childNodes (nodes t) inputHolder;
}.

(** [Object.keys(v).length] is truthy: [v] has at least one key. *)
Definition has_keys (v : value) : bool :=
  match Object_keys_length v with
  | inr (S _) => true
  | _ => false
  end.

(** The text [showLinkPreview] puts under the card for a stored link. *)
Definition shown_label `{RT : Runtime} (l : value) : string :=
  match URL_hostname (ToString l) with
  | Some h => h
  | None => to_text l
  end.

(** The error marker of the block: the container and the input holder
    both carry their error class. *)
Definition error_shown (t : LinkTool) : Prop :=
  CSS.containerError ∈ classList (nodes t) container ∧
  CSS.inputError ∈ classList (nodes t) inputHolder.

(** Every character of [s] is white space. *)
Fixpoint all_white_space (s : string) : bool :=
  match s with
  | EmptyString => true
  | String a r => is_white_space a && all_white_space r
  end.

(** The instance after [onFetch] has stored an accepted body [o]: the
    link falls back to the stored one, twice, as the response's link does
    in [onFetch] and then in the setter. *)
Definition fetched (o : obj) (t : LinkTool) : LinkTool :=
  with_data {| link := js_or (js_or (field o "link") (link (_data t))) (link (_data t));
               meta := js_or (field o "meta") (meta (_data t)) |} t.

(** What every event keeps: the block stays mounted and a truthy stored
    link stays truthy. *)
Definition advances (t t' : LinkTool) : Prop :=
  mounted t' ∧ (truthy (link (_data t)) = true → truthy (link (_data t')) = true).

(** The three ways a settled request counts as failed: the transport
    rejected, the body or its [success] is falsy, or [success] is truthy
    and [meta] is not. *)
Inductive failure : option value → Prop :=
  | failure_transport : failure None
  | failure_refused body :
      truthy body = false ∨
      (∃ s, get_prop body "success" = inr s ∧ truthy s = false) →
      failure (Some body)
  | failure_malformed o :
      truthy (field o "success") = true → truthy (field o "meta") = false →
      failure (Some (VObj o)).

(** The message each failure is reported with, and the instance the
    failure path runs on. *)
Definition failure_message (a : Api) (r : option value) : string :=
  match r with
  | None => i18n_t a "Couldn't fetch the link data"
  | Some (VObj o) =>
      if truthy (field o "success")
      then i18n_t a "Wrong response format from the server"
      else i18n_t a "Couldn't get this link data, try the other one"
  | Some _ => i18n_t a "Couldn't get this link data, try the other one"
  end.

Definition failure_data (r : option value) (t : LinkTool) : LinkToolData :=
  match r with
  | Some (VObj o) => if truthy (field o "success") then _data (fetched o t) else _data t
  | _ => _data t
  end.

(** ** What the methods leave alone *)

(** What the constructor and [render] set up once: the host's API, the
    read-only flag, the configuration and the registered listeners. *)
Definition setup (t : LinkTool) : Api * bool * Config * (node → list string) :=
  (api t, readOnly t, config t, listeners (nodes t)).

(** A method that leaves an observation of the instance as it was,
    however it ends. *)
Definition unchanged_by {A B} (p : LinkTool → B) (m : M A) : Prop :=
  ∀ t, p (exec m t) = p t.

(** The events that come from the user's hands on the input holder. *)
Definition user_event (e : event) : bool :=
  match e with
  | Typed _ | Click | Paste _ | Keydown _ => true
  | Activate | Settled _ _ | Timeout => false
  end.

(** A method that keeps a property of the instance, however it ends. *)
Definition preserved_by {A} (I : LinkTool → Prop) (m : M A) : Prop :=
  ∀ t, I t → I (exec m t).

(** Every outstanding request is addressed as the configuration says. *)
Definition addressed (c : Config) (t : LinkTool) : Prop :=
  config t = c ∧
  Forall (λ r, req_url r = endpoint c ∧ req_headers r = headers c) (ajax t).

(** The attributes [makeInputHolder] and [prepareLinkPreview] give the
    input and the preview anchor. *)
Definition fittings (t : LinkTool)
  : gmap string string * option string * option string :=
  (props (nodes t) input,
   props (nodes t) linkContent !! "target",
   props (nodes t) linkContent !! "rel").

(** The listeners [makeInputHolder] registers. *)
Definition registered (ro : bool) (n : node) : list string :=
  if ro then []
  else match n with
       | button => ["click"]
       | input => ["paste"; "keydown"]
       | _ => []
       end.

(** What the data setter keeps of the stored data: the metadata is
    truthy, and the link is truthy or still the empty string. *)
Definition stored_ok (t : LinkTool) : Prop :=
  truthy (meta (_data t)) = true ∧
  (truthy (link (_data t)) = true ∨ link (_data t) = VStr "").

(** The data [save()] returned, as the host hands it to a constructor. *)
Definition saved_as (d : LinkToolData) : obj :=
  {[ "link" := link d; "meta" := meta d ]}.

(** The events by which the browser itself changes the text of the
    input: typing and pasting. *)
Definition typing (e : event) : bool :=
  match e with
  | Typed _ | Paste _ => true
  | _ => false
  end.

(** [image.url] for the [image] of the metadata, [undefined] when
    [image] is not there to read it from. *)
Definition image_url (image : value) : value :=
  match get_prop image "url" with
  | inr url => url
  | inl _ => VUndef
  end.

(** What [style.backgroundImage] of an element reads after
    [url(<url>)] was assigned to it, from what it read before: the
    parser's reading of the new text, or the old value when the parser
    rejects the new text. *)
Definition background_after `{RT : Runtime} (url : value) (before : option string)
  : option string :=
  match CSS_backgroundImage ("url(" +:+ ToString url +:+ ")") with
  | Some css => Some css
  | None => before
  end.

(** ** A runtime to evaluate examples with

    A plain [ToString], a reader of the host part of
    [scheme://host/...] URLs and a CSS parser that knows [url(...)] with
    an unquoted body stand in for the browser's; they serve the concrete
    examples only. *)
Module Sample.

Fixpoint to_string (v : value) : string :=
  match v with
  | VUndef => "undefined"
  | VNull => "null"
  | VBool true => "true"
  | VBool false => "false"
  | VNum n => pretty n
  | VStr s => s
  | VArr l =>
      (fix join (l : list value) : string :=
         let item x := match x with VUndef | VNull => "" | _ => to_string x end in
         match l with
         | [] => ""
         | [x] => item x
         | x :: r => item x +:+ "," +:+ join r
         end) l
  | VObj _ => "[object Object]"
  end.

Definition is_letter (a : ascii) : bool :=
  let n := Ascii.nat_of_ascii a in
  (((65 <=? n) && (n <=? 90)) || ((97 <=? n) && (n <=? 122)))%nat.

(** The text after [scheme://], when the string starts with a scheme. *)
Fixpoint after_scheme (s : string) : option string :=
  match s with
  | String ":" (String "/" (String "/" r)) => Some r
  | String a r => if is_letter a then after_scheme r else None
  | EmptyString => None
  end.

Fixpoint host_part (s : string) : string :=
  match s with
  | EmptyString => EmptyString
  | String a r =>
      if bool_decide (a ∈ ["/"; "?"; "#"; ":"]%char) then EmptyString
      else String a (host_part r)
  end.

Definition hostname (s : string) : option string :=
  match s with
  | String a _ =>
      if is_letter a then host_part <$> after_scheme s else None
  | EmptyString => None
  end.

(** A character of an unquoted [url(...)] body: printable, and no
    quote, parenthesis or backslash. *)
Definition is_plain (a : ascii) : bool :=
  let n := Ascii.nat_of_ascii a in
  ((33 <=? n) && (n <=? 126))%nat &&
  negb (bool_decide (a ∈ ["034"; "'"; "("; ")"; "\"]%char)).

(** The body of [body)], when it is plain up to the closing parenthesis
    that ends the text. *)
Fixpoint url_body (s : string) : option string :=
  match s with
  | String ")" EmptyString => Some EmptyString
  | String a r => if is_plain a then String a <$> url_body r else None
  | EmptyString => None
  end.

(** [url(body)] reads back with the body in double quotes. *)
Definition background_image (s : string) : option string :=
  match s with
  | String "u" (String "r" (String "l" (String "(" r))) =>
      (fun body => "url(" +:+ String "034" (body +:+ String "034" ")")) <$> url_body r
  | _ => None
  end.

Definition runtime : Runtime :=
  {| ToString := to_string;
     ToString_VStr := fun s => eq_refl;
     URL_hostname := hostname;
     CSS_backgroundImage := background_image |}.

Definition editor : Api :=
  {| styles_block := "cdx-block";
     styles_input := "cdx-input";
     i18n_t := fun s => s;
     styles_block_ok := eq_refl;
     styles_input_ok := eq_refl |}.

(** A block rendered without saved data, one rendered from saved data,
    and the latter after its settings entry was activated. *)
Definition blank : LinkTool := mount (RT := runtime) ∅ ∅ editor false.

Definition saved : LinkTool :=
  mount (RT := runtime)
    {[ "link" := VStr "http://e.com"; "meta" := VObj {[ "title" := VStr "T" ]} ]}
    ∅ editor false.

Definition reopened : LinkTool := step (RT := runtime) Activate saved.

(** Response bodies. *)
Definition accepted : obj :=
  {[ "success" := VNum 1; "meta" := VObj {[ "title" := VStr "T" ]} ]}.

Definition refused : obj := {[ "success" := VNum 0 ]}.

Definition malformed : obj := {[ "success" := VNum 1 ]}.

(** A second request is started while the timer of a first, accepted one
    is pending, and the timer fires before the second request settles. *)
Definition racing : LinkTool :=
  run (RT := runtime)
    [Typed "https://example.com/a/b"; Keydown 13;
     Settled 0 (Some (VObj accepted)); Keydown 13; Timeout] blank.

(** More response bodies: one whose metadata has a description and no
    title, one whose link is a number, one whose metadata is empty. *)
Definition described : obj :=
  {[ "success" := VNum 1; "meta" := VObj {[ "description" := VStr "D" ]} ]}.

Definition numbered : obj :=
  {[ "success" := VNum 1; "meta" := VObj {[ "title" := VStr "T" ]}; "link" := VNum 5 ]}.

Definition bare : obj := {[ "success" := VNum 1; "meta" := VObj ∅ ]}.

(** Metadata with an image whose address the sample parser reads, and
    metadata with an image whose address has a space in it, which the
    sample parser rejects. *)
Definition pictured : obj :=
  {[ "title" := VStr "T"; "image" := VObj {[ "url" := VStr "http://e.com/i.png" ]} ]}.

Definition smudged : obj :=
  {[ "description" := VStr "D"; "image" := VObj {[ "url" := VStr "a b" ]} ]}.

End Sample.

(** * Running a method symbolically *)

Section Running.

Lemma bind_bind {A B C} (m : M A) (f : A → M B) (g : B → M C) t :
  bind (bind m f) g t = bind m (fun a => bind (f a) g) t.
Proof. unfold bind. destruct (m t) as [[e|a] t']; reflexivity. Qed.

Lemma bind_ret {A B} (a : A) (f : A → M B) t : bind (ret a) f t = f a t.
Proof. reflexivity. Qed.

Lemma bind_gets {A B} (g : LinkTool → A) (f : A → M B) t :
  bind (gets g) f t = f (g t) t.
Proof. reflexivity. Qed.

Lemma bind_modify {B} (g : LinkTool → LinkTool) (f : unit → M B) t :
  bind (modify g) f t = f tt (g t).
Proof. reflexivity. Qed.

Lemma bind_lift {A B} (a : A) (f : A → M B) t : bind (lift (inr a)) f t = f a t.
Proof. reflexivity. Qed.

Lemma bind_throw {A B} (e : exn) (f : A → M B) t : bind (throw e) f t = (inl e, t).
Proof. reflexivity. Qed.

Lemma bind_run {A B} (m : M A) (f : A → M B) t a t' :
  m t = (inr a, t') → bind m f t = f a t'.
Proof. unfold bind. intros ->. reflexivity. Qed.

Lemma bind_raise {A B} (m : M A) (f : A → M B) t e t' :
  m t = (inl e, t') → bind m f t = (inl e, t').
Proof. unfold bind. intros ->. reflexivity. Qed.

Lemma try_catch_run {A} (m : M A) h t a t' :
  m t = (inr a, t') → try_catch m h t = (inr a, t').
Proof. unfold try_catch. intros ->. reflexivity. Qed.

Lemma try_catch_raise {A} (m : M A) h t e t' :
  m t = (inl e, t') → try_catch m h t = h e t'.
Proof. unfold try_catch. intros ->. reflexivity. Qed.

Lemma async_run (m : M unit) t r t' : m t = (r, t') → async m t = (inr tt, t').
Proof. unfold async. intros ->. reflexivity. Qed.

Lemma run_deref n t : created (nodes t) n = true → deref n t = (inr tt, t).
Proof. intros H. unfold deref. rewrite H. reflexivity. Qed.

Lemma run_classList_add n tokens t :
  created (nodes t) n = true → check_tokens tokens = None →
  classList_add n tokens t = (inr tt, with_nodes (dom_classList_add n tokens) t).
Proof.
  intros H Ht. unfold classList_add.
  rewrite (bind_run _ _ _ _ _ (run_deref n t H)), Ht. reflexivity.
Qed.

Lemma run_classList_remove n tok t :
  created (nodes t) n = true → check_tokens [tok] = None →
  classList_remove n tok t = (inr tt, with_nodes (dom_classList_remove n tok) t).
Proof.
  intros H Ht. unfold classList_remove.
  rewrite (bind_run _ _ _ _ _ (run_deref n t H)), Ht. reflexivity.
Qed.

Lemma run_appendChild p c t :
  created (nodes t) p = true → created (nodes t) c = true →
  appendChild p c t = (inr tt, with_nodes (dom_appendChild p c) t).
Proof.
  intros Hp Hc. unfold appendChild.
  rewrite (bind_run _ _ _ _ _ (run_deref _ t Hp)), (bind_run _ _ _ _ _ (run_deref _ t Hc)).
  reflexivity.
Qed.

Lemma run_removeChild p c t :
  created (nodes t) p = true → created (nodes t) c = true →
  c ∈ childNodes (nodes t) p →
  removeChild p c t = (inr tt, with_nodes (dom_removeChild p c) t).
Proof.
  intros Hp Hc Hin. unfold removeChild.
  rewrite (bind_run _ _ _ _ _ (run_deref _ t Hp)), (bind_run _ _ _ _ _ (run_deref _ t Hc)).
  rewrite bind_gets, decide_True by assumption. reflexivity.
Qed.

Lemma run_removeChild_missing p c t :
  created (nodes t) p = true → created (nodes t) c = true →
  c ∉ childNodes (nodes t) p →
  removeChild p c t = (inl NotFoundError, t).
Proof.
  intros Hp Hc Hin. unfold removeChild.
  rewrite (bind_run _ _ _ _ _ (run_deref _ t Hp)), (bind_run _ _ _ _ _ (run_deref _ t Hc)).
  rewrite bind_gets, decide_False by assumption. reflexivity.
Qed.

Lemma run_remove c t :
  created (nodes t) c = true → remove c t = (inr tt, with_nodes (detach c) t).
Proof.
  intros Hc. unfold remove.
  rewrite (bind_run _ _ _ _ _ (run_deref _ t Hc)). reflexivity.
Qed.

Lemma run_insertBefore p new ref t :
  created (nodes t) p = true → created (nodes t) new = true →
  created (nodes t) ref = true → ref ∈ childNodes (nodes t) p →
  insertBefore p new ref t = (inr tt, with_nodes (dom_insertBefore p new ref) t).
Proof.
  intros Hp Hn Hr Hin. unfold insertBefore.
  rewrite (bind_run _ _ _ _ _ (run_deref _ t Hp)), (bind_run _ _ _ _ _ (run_deref _ t Hn)),
    (bind_run _ _ _ _ _ (run_deref _ t Hr)).
  rewrite bind_gets, decide_True by assumption. reflexivity.
Qed.

Lemma run_get_textContent n t :
  created (nodes t) n = true →
  get_textContent n t = (inr (textContent (nodes t) n), t).
Proof.
  intros H. unfold get_textContent.
  rewrite (bind_run _ _ _ _ _ (run_deref _ t H)). reflexivity.
Qed.

Lemma run_put_textContent n s t :
  created (nodes t) n = true →
  put_textContent n s t = (inr tt, with_nodes (dom_put_textContent n s) t).
Proof.
  intros H. unfold put_textContent.
  rewrite (bind_run _ _ _ _ _ (run_deref _ t H)). reflexivity.
Qed.

Lemma run_put_prop n k v t :
  created (nodes t) n = true →
  put_prop n k v t = (inr tt, with_nodes (dom_put_prop n k v) t).
Proof.
  intros H. unfold put_prop.
  rewrite (bind_run _ _ _ _ _ (run_deref _ t H)). reflexivity.
Qed.

Lemma run_addEventListener n ty t :
  created (nodes t) n = true →
  addEventListener n ty t = (inr tt, with_nodes (dom_addEventListener n ty) t).
Proof.
  intros H. unfold addEventListener.
  rewrite (bind_run _ _ _ _ _ (run_deref _ t H)). reflexivity.
Qed.

Lemma created_of_all t n : all_created t → created (nodes t) n = true.
Proof. intros H. apply H. Qed.

(** None of the operations above turns an element back into [null]. *)
Lemma all_created_with_nodes f t :
  (∀ d, created (f d) = created d) → all_created t → all_created (with_nodes f t).
Proof. intros Hf H n. cbn. rewrite Hf. apply H. Qed.

Lemma all_created_with_state s t : all_created t → all_created (with_state s t).
Proof. exact id. Qed.
Lemma all_created_with_data d t : all_created t → all_created (with_data d t).
Proof. exact id. Qed.
Lemma all_created_with_notifier l t : all_created t → all_created (with_notifier l t).
Proof. exact id. Qed.
Lemma all_created_with_ajax l t : all_created t → all_created (with_ajax l t).
Proof. exact id. Qed.
Lemma all_created_with_timers l t : all_created t → all_created (with_timers l t).
Proof. exact id. Qed.

End Running.

Create HintDb created discriminated.
#[export] Hint Resolve all_created_with_state all_created_with_data
  all_created_with_notifier all_created_with_ajax all_created_with_timers : created.
#[export] Hint Extern 1 (all_created (with_nodes _ _)) =>
  apply all_created_with_nodes; [ intros; reflexivity | ] : created.

(** The side conditions of a step: the elements it touches exist, its
    class names are tokens. *)
Ltac run_side :=
  lazymatch goal with
  | |- created _ _ = true =>
      first [ apply created_of_all; solve [ auto 50 with created ]
            | vm_compute; reflexivity ]
  | |- check_tokens _ = None => vm_compute; reflexivity
  | |- _ ∈ _ => assumption
  | |- _ ∉ _ => assumption
  end.

(** The outcome of the operation at the head of a method. *)
Ltac run_head :=
  lazymatch goal with
  | |- deref _ _ = _ => apply run_deref
  | |- classList_add _ _ _ = _ => apply run_classList_add
  | |- classList_remove _ _ _ = _ => apply run_classList_remove
  | |- appendChild _ _ _ = _ => apply run_appendChild
  | |- removeChild _ _ _ = _ => apply run_removeChild
  | |- remove _ _ = _ => apply run_remove
  | |- insertBefore _ _ _ _ = _ => apply run_insertBefore
  | |- get_textContent _ _ = _ => apply run_get_textContent
  | |- put_textContent _ _ _ = _ => apply run_put_textContent
  | |- put_prop _ _ _ _ = _ => apply run_put_prop
  | |- addEventListener _ _ _ = _ => apply run_addEventListener
  end; run_side.

(** Rewrite with what is known about the values in play. *)
Ltac use_hyps :=
  repeat match goal with
  | H : get_prop _ _ = _ |- _ => rewrite H
  | H : URL_hostname _ = _ |- _ => rewrite H
  | H : CSS_backgroundImage _ = _ |- _ => rewrite H
  | H : truthy _ = _ |- _ => rewrite H
  | H : Object_keys_length _ = _ |- _ => rewrite H
  | H : make _ _ _ = _ |- _ => rewrite H
  | H : _data _ = _ |- _ => rewrite H
  | H : state _ = _ |- _ => rewrite H
  end.

(** A field of the instance read through an update of another field, and
    through an update of itself. *)
Lemma field_through {A} (p : LinkTool → A) (u : LinkTool → LinkTool) t :
  (∀ t0, p (u t0) = p t0) → p (u t) = p t.
Proof. intros H. apply H. Qed.

Lemma nodes_with_nodes f t : nodes (with_nodes f t) = f (nodes t).
Proof. reflexivity. Qed.
Lemma state_with_state s t : state (with_state s t) = s.
Proof. reflexivity. Qed.
Lemma data_with_data d t : _data (with_data d t) = d.
Proof. reflexivity. Qed.
Lemma notifier_with_notifier l t : notifier (with_notifier l t) = l.
Proof. reflexivity. Qed.
Lemma ajax_with_ajax l t : ajax (with_ajax l t) = l.
Proof. reflexivity. Qed.
Lemma timers_with_timers l t : timers (with_timers l t) = l.
Proof. reflexivity. Qed.

Ltac is_update w :=
  lazymatch w with
  | with_nodes => idtac | with_state => idtac | with_data => idtac
  | with_notifier => idtac | with_ajax => idtac | with_timers => idtac
  end.

(** Read the fields of the instance through the updates made so far. *)
Ltac read_through p w x t :=
  is_update w; rewrite (field_through p (w x) t (fun t0 => eq_refl)).
Ltac read_fields :=
  repeat match goal with
  | |- context [nodes (with_nodes ?f ?t)] => rewrite (nodes_with_nodes f t)
  | |- context [state (with_state ?s ?t)] => rewrite (state_with_state s t)
  | |- context [_data (with_data ?d ?t)] => rewrite (data_with_data d t)
  | |- context [notifier (with_notifier ?l ?t)] => rewrite (notifier_with_notifier l t)
  | |- context [ajax (with_ajax ?l ?t)] => rewrite (ajax_with_ajax l t)
  | |- context [timers (with_timers ?l ?t)] => rewrite (timers_with_timers l t)
  | |- context [api (?w ?x ?t)] => read_through api w x t
  | |- context [readOnly (?w ?x ?t)] => read_through readOnly w x t
  | |- context [config (?w ?x ?t)] => read_through config w x t
  | |- context [nodes (?w ?x ?t)] => read_through nodes w x t
  | |- context [state (?w ?x ?t)] => read_through state w x t
  | |- context [_data (?w ?x ?t)] => read_through _data w x t
  | |- context [notifier (?w ?x ?t)] => read_through notifier w x t
  | |- context [ajax (?w ?x ?t)] => read_through ajax w x t
  | |- context [timers (?w ?x ?t)] => read_through timers w x t
  end.

(** Run the method applied to an instance in the goal, one operation at
    a time: the head of a sequence first, then a last operation. *)
Ltac run_step :=
  first
    [ rewrite bind_bind
    | rewrite bind_ret
    | rewrite bind_gets
    | rewrite bind_modify
    | rewrite bind_lift
    | rewrite bind_throw
    | erewrite bind_run by run_head
    | erewrite try_catch_run by (repeat run_step; run_last)
    | erewrite try_catch_raise by (repeat run_step; run_last)
    | erewrite async_run by (repeat run_step; run_last)
    | erewrite run_classList_add by run_side
    | erewrite run_classList_remove by run_side
    | erewrite run_appendChild by run_side
    | erewrite run_removeChild by run_side
    | erewrite run_remove by run_side
    | erewrite run_insertBefore by run_side
    | erewrite run_put_textContent by run_side
    | erewrite run_put_prop by run_side
    | progress use_hyps
    | progress unfold put_backgroundImage
    | progress read_fields
    | progress cbn [api readOnly config nodes state _data notifier ajax timers
                    link meta endpoint headers fst snd negb] ];
  cbv beta iota
with run_last := first [ run_head | reflexivity ].

Ltac run := repeat run_step; try run_last.

(** Name the outcome [r] and the final instance [t'] of the method the
    goal is about, and put their defining equation in front of it. *)
Ltac run_as m t r t' :=
  let E := fresh "E" in
  destruct (m t) as [r t'] eqn:E; revert E.

(** After [run]: the equation now gives [r] and [t'] explicitly. *)
Ltac ran := intros [= <- <-].

(** ** Reading the elements through the operations performed *)

Section Lookups.
Implicit Types (d : Dom) (p q c x : node).

Lemma elem_of_detach x c d q :
  x ∈ childNodes (detach c d) q ↔ x ≠ c ∧ x ∈ childNodes d q.
Proof. cbn. rewrite list_elem_of_filter. tauto. Qed.

Lemma elem_of_appendChild x p c d q :
  x ∈ childNodes (dom_appendChild p c d) q ↔
  (x = c ∧ p = q) ∨ (x ≠ c ∧ x ∈ childNodes d q).
Proof.
  cbn. unfold insert, fn_insert. destruct (decide (p = q)) as [->|Hne].
  - rewrite elem_of_app, list_elem_of_filter, list_elem_of_singleton.
    destruct (decide (x = c)); tauto.
  - rewrite list_elem_of_filter. tauto.
Qed.

Lemma elem_of_removeChild x p c d q :
  x ∈ childNodes (dom_removeChild p c d) q ↔
  x ∈ childNodes d q ∧ ¬ (p = q ∧ x = c).
Proof.
  cbn. unfold insert, fn_insert. destruct (decide (p = q)) as [->|Hne].
  - rewrite list_elem_of_filter. tauto.
  - tauto.
Qed.

Lemma elem_of_appendChild_ne x p c d q :
  x ≠ c → x ∈ childNodes (dom_appendChild p c d) q ↔ x ∈ childNodes d q.
Proof. rewrite elem_of_appendChild. tauto. Qed.

Lemma elem_of_appendChild_eq p c d q :
  c ∈ childNodes (dom_appendChild p c d) q ↔ p = q.
Proof. rewrite elem_of_appendChild. tauto. Qed.

Lemma elem_of_removeChild_ne x p c d q :
  x ≠ c → x ∈ childNodes (dom_removeChild p c d) q ↔ x ∈ childNodes d q.
Proof. rewrite elem_of_removeChild. tauto. Qed.

Lemma elem_of_removeChild_eq p c d :
  c ∈ childNodes (dom_removeChild p c d) p ↔ False.
Proof. rewrite elem_of_removeChild. tauto. Qed.

Lemma elem_of_detach_ne x c d q :
  x ≠ c → x ∈ childNodes (detach c d) q ↔ x ∈ childNodes d q.
Proof. rewrite elem_of_detach. tauto. Qed.

Lemma elem_of_detach_eq c d q : c ∈ childNodes (detach c d) q ↔ False.
Proof. rewrite elem_of_detach. tauto. Qed.

Lemma elem_of_insert_before x new ref (l : list node) :
  x ≠ new → x ∈ insert_before new ref l ↔ x ∈ l.
Proof.
  intros Hx. induction l as [|y l IH]; cbn; [tauto|].
  destruct (decide (y = ref)).
  - rewrite !elem_of_cons. tauto.
  - rewrite !elem_of_cons, IH. tauto.
Qed.

Lemma elem_of_insertBefore x p new ref d q :
  x ≠ new →
  x ∈ childNodes (dom_insertBefore p new ref d) q ↔ x ∈ childNodes d q.
Proof.
  intros Hx. cbn. unfold insert, fn_insert. destruct (decide (p = q)) as [->|Hne].
  - rewrite elem_of_insert_before, list_elem_of_filter by assumption. tauto.
  - rewrite list_elem_of_filter. tauto.
Qed.

Lemma classList_add_eq n tokens d :
  classList (dom_classList_add n tokens d) n = add_tokens tokens (classList d n).
Proof. cbn. apply fn_lookup_insert. Qed.

Lemma classList_add_ne n m tokens d :
  n ≠ m → classList (dom_classList_add n tokens d) m = classList d m.
Proof. intros. cbn. by apply fn_lookup_insert_ne. Qed.

Lemma classList_remove_eq n tok d :
  classList (dom_classList_remove n tok d) n = remove_token tok (classList d n).
Proof. cbn. apply fn_lookup_insert. Qed.

Lemma classList_remove_ne n m tok d :
  n ≠ m → classList (dom_classList_remove n tok d) m = classList d m.
Proof. intros. cbn. by apply fn_lookup_insert_ne. Qed.

Lemma textContent_put_eq n s d : textContent (dom_put_textContent n s d) n = s.
Proof. cbn. apply fn_lookup_insert. Qed.

Lemma textContent_put_ne n m s d :
  n ≠ m → textContent (dom_put_textContent n s d) m = textContent d m.
Proof. intros. cbn. by apply fn_lookup_insert_ne. Qed.

Lemma elem_of_add_token (tok tok' : string) (l : list string) :
  tok ∈ add_tokens [tok'] l ↔ tok = tok' ∨ tok ∈ l.
Proof.
  unfold add_tokens, add_token. cbn. destruct (decide (tok' ∈ l)).
  - split; [tauto|]. intros [->|]; assumption.
  - rewrite elem_of_app, list_elem_of_singleton. tauto.
Qed.

Lemma elem_of_remove_token (tok tok' : string) (l : list string) :
  tok ∈ remove_token tok' l ↔ tok ≠ tok' ∧ tok ∈ l.
Proof. unfold remove_token. rewrite list_elem_of_filter. tauto. Qed.

End Lookups.

(** A field of [Dom] read through an operation that leaves it alone. *)
Lemma dom_through {A} (p : Dom → A) (u : Dom → Dom) d :
  (∀ d0, p (u d0) = p d0) → p (u d) = p d.
Proof. intros H. apply H. Qed.

Ltac is_dom_update u :=
  lazymatch u with
  | dom_classList_add => idtac | dom_classList_remove => idtac | detach => idtac
  | dom_appendChild => idtac | dom_removeChild => idtac | dom_insertBefore => idtac
  | dom_put_textContent => idtac | dom_put_prop => idtac
  | dom_addEventListener => idtac | dom_assign => idtac
  end.
Ltac read_past p u d :=
  rewrite (dom_through p u d (fun d0 => eq_refl)).
Ltac read_frame :=
  repeat match goal with
  | |- context [created (?u ?a ?d)] => is_dom_update u; read_past created (u a) d
  | |- context [created (?u ?a ?b ?d)] => is_dom_update u; read_past created (u a b) d
  | |- context [created (?u ?a ?b ?c ?d)] => is_dom_update u; read_past created (u a b c) d
  | |- context [localName (?u ?a ?d)] => is_dom_update u; read_past localName (u a) d
  | |- context [localName (?u ?a ?b ?d)] => is_dom_update u; read_past localName (u a b) d
  | |- context [localName (?u ?a ?b ?c ?d)] => is_dom_update u; read_past localName (u a b c) d
  | |- context [classList (?u ?a ?d)] => is_dom_update u; read_past classList (u a) d
  | |- context [classList (?u ?a ?b ?d)] => is_dom_update u; read_past classList (u a b) d
  | |- context [classList (?u ?a ?b ?c ?d)] => is_dom_update u; read_past classList (u a b c) d
  | |- context [childNodes (?u ?a ?d)] => is_dom_update u; read_past childNodes (u a) d
  | |- context [childNodes (?u ?a ?b ?d)] => is_dom_update u; read_past childNodes (u a b) d
  | |- context [childNodes (?u ?a ?b ?c ?d)] => is_dom_update u; read_past childNodes (u a b c) d
  | |- context [textContent (?u ?a ?d)] => is_dom_update u; read_past textContent (u a) d
  | |- context [textContent (?u ?a ?b ?d)] => is_dom_update u; read_past textContent (u a b) d
  | |- context [textContent (?u ?a ?b ?c ?d)] => is_dom_update u; read_past textContent (u a b c) d
  | |- context [props (?u ?a ?d)] => is_dom_update u; read_past props (u a) d
  | |- context [props (?u ?a ?b ?d)] => is_dom_update u; read_past props (u a b) d
  | |- context [props (?u ?a ?b ?c ?d)] => is_dom_update u; read_past props (u a b c) d
  | |- context [listeners (?u ?a ?d)] => is_dom_update u; read_past listeners (u a) d
  | |- context [listeners (?u ?a ?b ?d)] => is_dom_update u; read_past listeners (u a b) d
  | |- context [listeners (?u ?a ?b ?c ?d)] => is_dom_update u; read_past listeners (u a b c) d
  end.

(** Read the children, class lists and text of the elements through the
    operations performed. *)
Ltac read_dom :=
  repeat first
    [ progress read_fields
    | progress read_frame
    | rewrite classList_add_eq
    | rewrite classList_remove_eq
    | rewrite classList_add_ne by discriminate
    | rewrite classList_remove_ne by discriminate
    | rewrite textContent_put_eq
    | rewrite textContent_put_ne by discriminate ].

(** Decide whether a node is among the children of another, through the
    operations performed. *)
Ltac read_children :=
  repeat first
    [ progress read_dom
    | rewrite elem_of_appendChild_ne by discriminate
    | rewrite elem_of_appendChild_eq
    | rewrite elem_of_removeChild_ne by discriminate
    | rewrite elem_of_removeChild_eq
    | rewrite elem_of_detach_ne by discriminate
    | rewrite elem_of_detach_eq
    | rewrite elem_of_insertBefore by discriminate ].
Ltac children := read_children; intuition (discriminate || congruence).

(** ** What a method leaves alone, and what it keeps

    Two ways of following an observation of the instance through a
    method without running it: the observation is the same afterwards,
    or a property of the instance still holds afterwards, whether the
    method returns or throws.  Both go through [bind], [try_catch] and
    [async], so a method is settled by its updates of the instance. *)

Section Steady.
Context `{RT : Runtime}.

Lemma unchanged_ret {A B} (p : LinkTool → B) (a : A) : unchanged_by p (ret a).
Proof. intros t. reflexivity. Qed.

Lemma unchanged_throw {A B} (p : LinkTool → B) e : unchanged_by p (throw (A := A) e).
Proof. intros t. reflexivity. Qed.

Lemma unchanged_gets {A B} (p : LinkTool → B) (f : LinkTool → A) : unchanged_by p (gets f).
Proof. intros t. reflexivity. Qed.

Lemma unchanged_lift {A B} (p : LinkTool → B) (r : exn + A) : unchanged_by p (lift r).
Proof. intros t. reflexivity. Qed.

Lemma unchanged_deref {B} (p : LinkTool → B) n : unchanged_by p (deref n).
Proof. intros t. unfold exec, deref. by destruct (created (nodes t) n). Qed.

Lemma unchanged_modify {B} (p : LinkTool → B) f :
  (∀ t, p (f t) = p t) → unchanged_by p (modify f).
Proof. intros H t. apply H. Qed.

Lemma unchanged_bind {A B C} (p : LinkTool → C) (m : M A) (f : A → M B) :
  unchanged_by p m → (∀ a, unchanged_by p (f a)) → unchanged_by p (bind m f).
Proof.
  intros Hm Hf t. specialize (Hm t). unfold exec, bind in *.
  destruct (m t) as [[e|a] t']; cbn in *; [exact Hm|].
  rewrite <- Hm. apply Hf.
Qed.

Lemma unchanged_try_catch {A C} (p : LinkTool → C) (m : M A) h :
  unchanged_by p m → (∀ e, unchanged_by p (h e)) → unchanged_by p (try_catch m h).
Proof.
  intros Hm Hh t. specialize (Hm t). unfold exec, try_catch in *.
  destruct (m t) as [[e|a] t']; cbn in *; [|exact Hm].
  rewrite <- Hm. apply Hh.
Qed.

Lemma unchanged_async {C} (p : LinkTool → C) m :
  unchanged_by p m → unchanged_by p (async m).
Proof. intros Hm t. apply Hm. Qed.

(** Every event leaves an observation as it was when the handlers do. *)
Lemma unchanged_step {B} (p : LinkTool → B) :
  (∀ l t, p (with_ajax l t) = p t) → (∀ l t, p (with_timers l t) = p t) →
  (∀ text, unchanged_by p (put_textContent input text)) →
  (∀ event, unchanged_by p (startFetching event)) →
  unchanged_by p onActivate →
  (∀ r, unchanged_by p (fetchLinkData_resume r)) →
  (∀ cb, unchanged_by p (run_callback cb)) →
  ∀ e t, p (step e t) = p t.
Proof.
  intros Ha Ht Htyped Hstart Hact Hres Hcb e t.
  destruct e as [text| |text|k| |i r| ]; unfold step.
  - destruct (negb (readOnly t) && in_holder input t); [apply Htyped | reflexivity].
  - destruct (listens button "click" t); [apply Hstart | reflexivity].
  - destruct (listens input "paste" t); [apply Hstart | reflexivity].
  - destruct (listens input "keydown" t); [|reflexivity].
    unfold on_keydown. destruct (k =? 13)%Z; [apply Hstart | reflexivity].
  - apply Hact.
  - destruct (ajax t !! i); [|reflexivity].
    rewrite (Hres r (with_ajax _ t)). apply Ha.
  - destruct (timers t) as [|cb rest]; [reflexivity|].
    rewrite (Hcb cb (with_timers rest t)). apply Ht.
Qed.

Lemma unchanged_run {B} (p : LinkTool → B) :
  (∀ e t, p (step e t) = p t) → ∀ es t, p (run es t) = p t.
Proof.
  intros H es. induction es as [|e es IH]; intros t; [reflexivity|].
  change (run (e :: es) t) with (run es (step e t)).
  rewrite IH. apply H.
Qed.

Lemma preserved_ret {A} I (a : A) : preserved_by I (ret a).
Proof. intros t H. exact H. Qed.

Lemma preserved_throw {A} I e : preserved_by I (throw (A := A) e).
Proof. intros t H. exact H. Qed.

Lemma preserved_gets {A} I (f : LinkTool → A) : preserved_by I (gets f).
Proof. intros t H. exact H. Qed.

Lemma preserved_lift {A} I (r : exn + A) : preserved_by I (lift r).
Proof. intros t H. exact H. Qed.

Lemma preserved_deref I n : preserved_by I (deref n).
Proof. intros t H. unfold exec, deref. by destruct (created (nodes t) n). Qed.

Lemma preserved_modify I f : (∀ t, I t → I (f t)) → preserved_by I (modify f).
Proof. intros H t. apply H. Qed.

Lemma preserved_bind {A B} I (m : M A) (f : A → M B) :
  preserved_by I m → (∀ a, preserved_by I (f a)) → preserved_by I (bind m f).
Proof.
  intros Hm Hf t Ht. specialize (Hm t Ht). unfold exec, bind in *.
  destruct (m t) as [[e|a] t']; cbn in *; [exact Hm|]. by apply Hf.
Qed.

Lemma preserved_try_catch {A} I (m : M A) h :
  preserved_by I m → (∀ e, preserved_by I (h e)) → preserved_by I (try_catch m h).
Proof.
  intros Hm Hh t Ht. specialize (Hm t Ht). unfold exec, try_catch in *.
  destruct (m t) as [[e|a] t']; cbn in *; [|exact Hm]. by apply Hh.
Qed.

Lemma preserved_async I m : preserved_by I m → preserved_by I (async m).
Proof. intros Hm t. apply Hm. Qed.

Lemma preserved_step I :
  (∀ l t, I t → ajax t !! l ≠ None → I (with_ajax (delete l (ajax t)) t)) →
  (∀ cb l t, I t → timers t = cb :: l → I (with_timers l t)) →
  (∀ text, preserved_by I (put_textContent input text)) →
  (∀ event, preserved_by I (startFetching event)) →
  preserved_by I onActivate →
  (∀ r, preserved_by I (fetchLinkData_resume r)) →
  (∀ cb, preserved_by I (run_callback cb)) →
  ∀ e t, I t → I (step e t).
Proof.
  intros Ha Ht Htyped Hstart Hact Hres Hcb e t H.
  destruct e as [text| |text|k| |i r| ]; unfold step.
  - destruct (negb (readOnly t) && in_holder input t); [by apply Htyped | exact H].
  - destruct (listens button "click" t); [by apply Hstart | exact H].
  - destruct (listens input "paste" t); [by apply Hstart | exact H].
  - destruct (listens input "keydown" t); [|exact H].
    unfold on_keydown. destruct (k =? 13)%Z; [by apply Hstart | exact H].
  - by apply Hact.
  - destruct (ajax t !! i) eqn:Hi; [|exact H].
    apply Hres, Ha; [exact H | congruence].
  - destruct (timers t) as [|cb rest] eqn:Hr; [exact H|].
    apply Hcb, (Ht cb); assumption.
Qed.

Lemma preserved_run I :
  (∀ e t, I t → I (step e t)) → ∀ es t, I t → I (run es t).
Proof.
  intros H es. induction es as [|e es IH]; intros t Ht; [exact Ht|].
  change (run (e :: es) t) with (run es (step e t)). apply IH, H, Ht.
Qed.

(** The attributes of the input and of the anchor, past the one
    attribute [showLinkPreview] writes. *)
Lemma fittings_put_href v :
  unchanged_by fittings (modify (with_nodes (dom_put_prop linkContent "href" v))).
Proof.
  apply unchanged_modify. intros t. unfold fittings. cbn.
  rewrite fn_lookup_insert_ne by discriminate.
  rewrite !fn_lookup_insert, !lookup_insert_ne by done. reflexivity.
Qed.

Lemma fittings_exec {A} (m : M A) t :
  unchanged_by fittings m →
  props (nodes (exec m t)) input = props (nodes t) input ∧
  props (nodes (exec m t)) linkContent !! "target" = props (nodes t) linkContent !! "target" ∧
  props (nodes (exec m t)) linkContent !! "rel" = props (nodes t) linkContent !! "rel".
Proof. intros U. specialize (U t). unfold fittings in U. by injection U. Qed.

(** The attributes of an element through [put_prop]. *)
Lemma props_put_eq n k v d : props (dom_put_prop n k v d) n !! k = Some v.
Proof. cbn. rewrite fn_lookup_insert. apply lookup_insert_eq. Qed.

Lemma props_put_other n k k' v d :
  k ≠ k' → props (dom_put_prop n k v d) n !! k' = props d n !! k'.
Proof. intros. cbn. rewrite fn_lookup_insert. by apply lookup_insert_ne. Qed.

Lemma props_put_ne n m k v d : n ≠ m → props (dom_put_prop n k v d) m = props d m.
Proof. intros. cbn. by apply fn_lookup_insert_ne. Qed.

End Steady.

(** Break a method into its operations, down to the updates of the
    instance; an update leaves the observation as it was by computation,
    or the goal stays. *)
Ltac head_of m :=
  lazymatch m with
  | ?f _ => head_of f
  | _ => m
  end.
Ltac unchanged :=
  repeat lazymatch goal with
  | |- unchanged_by _ (ret _) => apply unchanged_ret
  | |- unchanged_by _ (throw _) => apply unchanged_throw
  | |- unchanged_by _ (gets _) => apply unchanged_gets
  | |- unchanged_by _ (lift _) => apply unchanged_lift
  | |- unchanged_by _ (deref _) => apply unchanged_deref
  | |- unchanged_by _ (async _) => apply unchanged_async
  | |- unchanged_by _ (bind _ _) => apply unchanged_bind; [|intros ?]
  | |- unchanged_by _ (try_catch _ _) => apply unchanged_try_catch; [|intros ?]
  | |- unchanged_by _ (modify _) => apply unchanged_modify; intros ?; reflexivity
  | |- unchanged_by _ (if ?b then _ else _) => destruct b
  | |- unchanged_by _ (match ?x with _ => _ end) => destruct x
  | |- unchanged_by _ (let _ := _ in _) => cbv zeta
  | |- unchanged_by _ ?m => let h := head_of m in unfold h
  end.

(** As [unchanged]: an update that keeps the property by computation is
    discharged, any other is left. *)
Ltac preserved :=
  repeat lazymatch goal with
  | |- preserved_by _ (ret _) => apply preserved_ret
  | |- preserved_by _ (throw _) => apply preserved_throw
  | |- preserved_by _ (gets _) => apply preserved_gets
  | |- preserved_by _ (lift _) => apply preserved_lift
  | |- preserved_by _ (deref _) => apply preserved_deref
  | |- preserved_by _ (async _) => apply preserved_async
  | |- preserved_by _ (bind _ _) => apply preserved_bind; [|intros ?]
  | |- preserved_by _ (try_catch _ _) => apply preserved_try_catch; [|intros ?]
  | |- preserved_by _ (modify _) =>
      apply preserved_modify; let t := fresh "t" in let H := fresh "H" in
      intros t H; exact H
  | |- preserved_by _ (if ?b then _ else _) => destruct b
  | |- preserved_by _ (match ?x with _ => _ end) => destruct x
  | |- preserved_by _ (let _ := _ in _) => cbv zeta
  | |- preserved_by _ ?m => let h := head_of m in unfold h
  end.

Ltac fitted := unchanged; try apply fittings_put_href.

(** An element that stays where it is: a child of a node that no
    operation of the block moves. *)
Ltac stays :=
  preserved;
  try (apply preserved_modify; intros ? ?; read_children; assumption).

Ltac read_props :=
  repeat first
    [ progress read_dom
    | rewrite props_put_eq
    | rewrite props_put_ne by discriminate
    | rewrite props_put_other by discriminate ].

(** ** The methods on a mounted block *)

Section Facts.
Context `{RT : Runtime}.

Lemma get_prop_truthy v k : truthy v = true → ∃ w, get_prop v k = inr w.
Proof. destruct v; try discriminate; intros _; eexists; reflexivity. Qed.

Lemma card_only_refl t : all_created t → card_only t t.
Proof. intros H. split; auto; reflexivity. Qed.

Lemma card_only_trans t1 t2 t3 : card_only t1 t2 → card_only t2 t3 → card_only t1 t3.
Proof.
  intros [] []. split; try congruence; etransitivity; eassumption.
Qed.

(** Appending one of the card's own elements to the card. *)
Ltac card :=
  split; read_dom;
  first [ solve [ auto 50 with created ] | reflexivity | children ].

Lemma show_title_card title t :
  all_created t → ∃ t', show_title title t = (inr tt, t') ∧ card_only t t'.
Proof.
  intros H. unfold show_title. destruct (truthy title).
  - eexists. split; [run|]. card.
  - eexists. split; [reflexivity|]. apply card_only_refl, H.
Qed.

Lemma show_description_card description t :
  all_created t → ∃ t', show_description description t = (inr tt, t') ∧ card_only t t'.
Proof.
  intros H. unfold show_description. destruct (truthy description).
  - eexists. split; [run|]. card.
  - eexists. split; [reflexivity|]. apply card_only_refl, H.
Qed.

Lemma show_image_card image t :
  all_created t → ∃ t', show_image image t = (inr tt, t') ∧ card_only t t'.
Proof.
  intros H. unfold show_image. destruct (truthy image) eqn:Hi.
  - destruct (get_prop_truthy image "url" Hi) as [url Hu].
    destruct (truthy url) eqn:Hurl.
    + destruct (CSS_backgroundImage ("url(" +:+ ToString url +:+ ")")) eqn:Hcss;
        (eexists; split; [run|]; card).
    + eexists. split; [run; reflexivity|]. apply card_only_refl, H.
  - eexists. split; [run; reflexivity|]. apply card_only_refl, H.
Qed.

(** Run one of the card's parts, whose outcome a lemma gives. *)
Ltac run_part lemma :=
  lazymatch goal with
  | |- context [bind (?part ?v) ?k ?t1] =>
      let t2 := fresh "t" in
      let E := fresh "E" in
      let F := fresh "F" in
      destruct (lemma v t1) as (t2 & E & F);
      [ first [ solve [ auto 50 with created ]
              | eapply card_created; eassumption ]
      | rewrite (bind_run _ _ _ _ _ E); cbv beta ]
  end.

Lemma showLinkPreview_spec m t :
  all_created t → truthy m = true →
  ∃ t', showLinkPreview m t = (inr tt, t') ∧
    all_created t' ∧
    state t' = VIEW ∧
    _data t' = _data t ∧
    linkContent ∈ childNodes (nodes t') container ∧
    (inputHolder ∈ childNodes (nodes t') container ↔
     inputHolder ∈ childNodes (nodes t) container) ∧
    (input ∈ childNodes (nodes t') inputHolder ↔ input ∈ childNodes (nodes t) inputHolder) ∧
    classList (nodes t') container =
      remove_token CSS.containerEdit
        (add_tokens [CSS.containerView] (classList (nodes t) container)) ∧
    classList (nodes t') inputHolder = classList (nodes t) inputHolder ∧
    classList (nodes t') progress = classList (nodes t) progress ∧
    textContent (nodes t') linkText = shown_label (link (_data t)) ∧
    textContent (nodes t') input = textContent (nodes t) input ∧
    notifier t' = notifier t ∧ ajax t' = ajax t ∧ timers t' = timers t ∧
    api t' = api t ∧ readOnly t' = readOnly t ∧ config t' = config t.
Proof.
  intros H Hm.
  destruct (get_prop_truthy m "image" Hm) as [image Himage].
  destruct (get_prop_truthy m "title" Hm) as [title Htitle].
  destruct (get_prop_truthy m "description" Hm) as [description Hdescription].
  run_as (showLinkPreview m) t r t'.
  unfold showLinkPreview, new_URL_hostname, shown_label. run.
  run_part show_image_card. run_part show_title_card. run_part show_description_card.
  pose proof (card_only_trans _ _ _ (card_only_trans _ _ _ F F0) F1)
    as [Hc Hs Hd Hp Hh Hi Lc Lh Lp Ti Tl Nn Na Nt Pa Pr Pc].
  clear F F0 F1 E E0 E1.
  destruct (URL_hostname (ToString (link (_data t)))) as [h|] eqn:Hh'; run.
  all: ran; eexists; (split; [reflexivity|]).
  all: split_and!; read_children; rewrite ?Hp, ?Hh, ?Hi, ?Lc, ?Lh, ?Lp, ?Ti, ?Nn, ?Na, ?Nt, ?Pa, ?Pr, ?Pc.
  all: first [ solve [ auto 50 with created ] | reflexivity | children ].
Qed.

(** ** The parts of the preview *)

(** The label is written whether or not the link parses. *)
Lemma label_written t :
  all_created t →
  ∃ s, try_catch
         (deref linkText ;;
          l ← gets (fun t => link (_data t)) ;
          h ← new_URL_hostname l ;
          put_textContent linkText h)
         (fun _ =>
          l ← gets (fun t => link (_data t)) ;
          put_textContent linkText (to_text l)) t =
       (inr tt, with_nodes (dom_put_textContent linkText s) t).
Proof.
  intros Hc. unfold new_URL_hostname.
  destruct (URL_hostname (ToString (link (_data t)))) as [h|] eqn:Hh; eexists; run.
Qed.

Lemma showLinkPreview_parts o t :
  all_created t →
  let t' := exec (showLinkPreview (VObj o)) t in
  let title := field o "title" in
  let description := field o "description" in
  let image := field o "image" in
  linkText ∈ childNodes (nodes t') linkContent ∧
  props (nodes t') linkContent !! "href" = Some (ToString (link (_data t))) ∧
  (if truthy title
   then linkTitle ∈ childNodes (nodes t') linkContent ∧
        textContent (nodes t') linkTitle = to_text title
   else (linkTitle ∈ childNodes (nodes t') linkContent ↔
         linkTitle ∈ childNodes (nodes t) linkContent) ∧
        textContent (nodes t') linkTitle = textContent (nodes t) linkTitle) ∧
  (if truthy description
   then linkDescription ∈ childNodes (nodes t') linkContent ∧
        textContent (nodes t') linkDescription = to_text description
   else (linkDescription ∈ childNodes (nodes t') linkContent ↔
         linkDescription ∈ childNodes (nodes t) linkContent) ∧
        textContent (nodes t') linkDescription = textContent (nodes t) linkDescription) ∧
  (if truthy image && truthy (image_url image)
   then linkImage ∈ childNodes (nodes t') linkContent ∧
        props (nodes t') linkImage !! "style.backgroundImage" =
          background_after (image_url image)
            (props (nodes t) linkImage !! "style.backgroundImage")
   else (linkImage ∈ childNodes (nodes t') linkContent ↔
         linkImage ∈ childNodes (nodes t) linkContent) ∧
        props (nodes t') linkImage = props (nodes t) linkImage).
Proof.
  intros Hc. cbv zeta. unfold exec, image_url, background_after.
  run_as (showLinkPreview (VObj o)) t r t'.
  unfold showLinkPreview, show_image, show_title, show_description.
  cbn [get_prop lift].
  destruct (truthy (field o "title")) eqn:Htitle;
    destruct (truthy (field o "description")) eqn:Hdescription;
    (destruct (truthy (field o "image")) eqn:Himage;
       [ destruct (get_prop_truthy (field o "image") "url" Himage) as [url Hurl];
         rewrite Hurl; destruct (truthy url) eqn:Hu;
         [ destruct (CSS_backgroundImage ("url(" +:+ ToString url +:+ ")")) eqn:Hcss | ]
       | ]);
    cbn [andb]; run.
  all: lazymatch goal with
       | |- try_catch _ _ ?t1 = _ → _ =>
           let s := fresh "s" in
           destruct (label_written t1) as [s ->]; [solve [ auto 50 with created ]|]
       end.
  all: ran; cbn [snd].
  all: split_and!; read_props; first [ reflexivity | children ].
Qed.

End Facts.

Section Mounting.
Context `{RT : Runtime}.

Lemma js_or_truthy a b : truthy b = true → truthy (js_or a b) = true.
Proof. unfold js_or. destruct (truthy a) eqn:E; auto. Qed.

Lemma Object_keys_length_truthy v :
  truthy v = true → ∃ n, Object_keys_length v = inr n.
Proof. destruct v; try discriminate; intros _; eexists; reflexivity. Qed.

Lemma make_ClassName tg s attrs :
  is_token s = true →
  make tg (ClassName s) attrs =
  inr {| el_localName := tag_name tg; el_classList := add_tokens [s] [];
         el_props := set_attributes attrs |}.
Proof.
  unfold make, is_token, truthy, check_tokens.
  destruct (String.eqb s ""); [discriminate|]. cbn.
  destruct (has_space s); [discriminate|]. reflexivity.
Qed.

Lemma make_ClassNames2 tg s1 s2 attrs :
  is_token s1 = true → is_token s2 = true →
  make tg (ClassNames [s1; s2]) attrs =
  inr {| el_localName := tag_name tg; el_classList := add_tokens [s1; s2] [];
         el_props := set_attributes attrs |}.
Proof.
  unfold make, is_token, check_tokens.
  destruct (String.eqb s1 ""); [discriminate|]. cbn.
  destruct (has_space s1); [discriminate|].
  destruct (String.eqb s2 ""); [discriminate|]. cbn.
  destruct (has_space s2); [discriminate|]. reflexivity.
Qed.

Ltac token :=
  lazymatch goal with
  | |- is_token (styles_block _) = true => apply styles_block_ok
  | |- is_token (styles_input _) = true => apply styles_input_ok
  | |- _ => vm_compute; reflexivity
  end.
Ltac run_make :=
  repeat match goal with
  | |- context [make ?tg (ClassName ?s) ?attrs] =>
      rewrite (make_ClassName tg s attrs) by token
  | |- context [make ?tg (ClassNames [?s1; ?s2]) ?attrs] =>
      rewrite (make_ClassNames2 tg s1 s2 attrs) by token
  end.

(** Facts about a freshly built tree are decided by evaluation. *)
Ltac built :=
  lazymatch goal with
  | |- all_created _ => let n := fresh "n" in intros n; destruct n; vm_compute; reflexivity
  | |- _ ∈ _ => apply (bool_decide_eq_true_1 _); vm_compute; reflexivity
  | |- _ ∉ _ => apply (bool_decide_eq_false_1 _); vm_compute; reflexivity
  | |- ¬ _ ∈ _ => apply (bool_decide_eq_false_1 _); vm_compute; reflexivity
  end.

Ltac settle :=
  lazymatch goal with
  | |- _ = _ => first [ reflexivity | assumption ]
  | |- all_created _ => first [ solve [ auto 50 with created ] | built ]
  | |- Forall _ _ => assumption
  | |- _ ∈ _ => first [ assumption | built ]
  | |- _ ∉ _ => first [ assumption | built ]
  | |- _ => idtac
  end.

(** [render] returns the wrapper of a mounted block, in [VIEW] when the
    stored metadata has a key and in [EDIT] when it has none, and leaves
    the data and the collaborators as they were. *)
Lemma render_spec t0 :
  truthy (meta (_data t0)) = true → Forall callback_ok (timers t0) →
  ∃ t', render t0 = (inr wrapper, t') ∧
    mounted t' ∧
    _data t' = _data t0 ∧
    state t' = (if has_keys (meta (_data t0)) then VIEW else EDIT) ∧
    notifier t' = notifier t0 ∧ ajax t' = ajax t0 ∧ timers t' = timers t0 ∧
    api t' = api t0 ∧ readOnly t' = readOnly t0 ∧ config t' = config t0.
Proof.
  intros Hm Ht.
  destruct (Object_keys_length_truthy _ Hm) as [n Hn].
  unfold has_keys. rewrite Hn.
  run_as render t0 r t'.
  unfold render, makeInputHolder, prepareLinkPreview, assign, t_.
  repeat first [ run_step | progress run_make ].
  destruct (readOnly t0) eqn:Hro; run.
  all: lazymatch goal with
       | |- context [bind _ _ ?tree] =>
           assert (all_created tree) as Hc by built;
           assert (input ∈ childNodes (nodes tree) inputHolder) as Hi by built;
           assert (inputHolder ∉ childNodes (nodes tree) container) as Hh by built;
           assert (linkContent ∉ childNodes (nodes tree) container) as Hp by built;
           assert (_data tree = _data t0) as Hd by (vm_compute; reflexivity);
           assert (notifier tree = notifier t0) as Nn by (vm_compute; reflexivity);
           assert (ajax tree = ajax t0) as Na by (vm_compute; reflexivity);
           assert (timers tree = timers t0) as Nt by (vm_compute; reflexivity);
           assert (api tree = api t0) as Pa by (vm_compute; reflexivity);
           assert (readOnly tree = readOnly t0) as Pr by (vm_compute; reflexivity);
           assert (config tree = config t0) as Pc by (vm_compute; reflexivity);
           revert Hc Hi Hh Hp Hd Nn Na Nt Pa Pr Pc; generalize tree;
           let t1 := fresh "t" in intros t1 Hc Hi Hh Hp Hd Nn Na Nt Pa Pr Pc
       end.
  all: destruct n as [|n]; cbn [Nat.eqb]; cbv iota.
  1,3: unfold showInputHolder; run; ran; eexists; (split; [reflexivity|]).
  1,2: unfold mounted; read_children; rewrite ?Hd, ?Nn, ?Na, ?Nt, ?Pa, ?Pr, ?Pc; split_and!; settle.
  all: run.
  all: lazymatch goal with
       | |- context [bind (showLinkPreview ?m) ?k ?t1] =>
           destruct (showLinkPreview_spec m t1)
             as (t2 & E2 & Hc2 & Hs2 & Hd2 & Hp2 & Hh2 & Hi2 & _ & _ & _ & _ & _
                 & Nn2 & Na2 & Nt2 & Pa2 & Pr2 & Pc2);
           [ auto 50 with created | assumption | rewrite (bind_run _ _ _ _ _ E2); cbv beta ]
       end.
  all: run; ran; eexists; (split; [reflexivity|]).
  all: unfold mounted; read_children;
    rewrite ?Hs2, ?Hd2, ?Hi2, ?Hh2, ?Nn2, ?Na2, ?Nt2, ?Pa2, ?Pr2, ?Pc2; read_children;
    rewrite ?Hd, ?Nn, ?Na, ?Nt, ?Pa, ?Pr, ?Pc.
  all: split_and!; read_children; rewrite ?Hi2, ?Hh2; read_children; settle.
Qed.

(** What [render] builds, whatever the instance it is called on. *)
Lemma render_built t0 :
  let t := exec render t0 in
  (∀ n, listeners (nodes t) n = registered (readOnly t0) n) ∧
  button ∈ childNodes (nodes t) inputHolder ∧
  textContent (nodes t) input = "" ∧
  props (nodes t) input !! "contentEditable" =
    Some (if readOnly t0 then "false" else "true") ∧
  props (nodes t) linkContent !! "target" = Some "_blank" ∧
  props (nodes t) linkContent !! "rel" = Some "nofollow noindex noreferrer".
Proof.
  cbv zeta. unfold exec. run_as render t0 r t'.
  unfold render, makeInputHolder, prepareLinkPreview, assign, t_.
  repeat first [ run_step | progress run_make ].
  destruct (readOnly t0) eqn:Hro; run.
  all: lazymatch goal with
       | |- ?m ?tree = (_, ?t1) → _ =>
           let E := fresh "E" in
           intros E;
           assert (exec m tree = t1) as <- by (unfold exec; rewrite E; reflexivity);
           clear E;
           assert (unchanged_by (λ t, listeners (nodes t)) m) as Ul by unchanged;
           assert (unchanged_by (λ t, textContent (nodes t) input) m) as Ut by unchanged;
           assert (unchanged_by fittings m) as Uf by fitted;
           assert (preserved_by (λ t, button ∈ childNodes (nodes t) inputHolder) m)
             as Pb by stays;
           assert (button ∈ childNodes (nodes tree) inputHolder) as Hb by built;
           apply (Pb tree) in Hb; revert Hb; clear Pb;
           destruct (fittings_exec m tree Uf) as (U1 & U2 & U3);
           rewrite (Ul tree), (Ut tree), U1, U2, U3; clear U1 U2 U3;
           clear Ul Ut Uf
       end.
  all: intros Hb; split_and!;
    [ intros n; destruct n; vm_compute; reflexivity | exact Hb
    | vm_compute; reflexivity .. ].
Qed.

(** The preview [render] builds from loaded metadata with a key. *)
Lemma render_preview t0 o :
  meta (_data t0) = VObj o → o ≠ ∅ →
  let t := exec render t0 in
  let title := field o "title" in
  let description := field o "description" in
  let image := field o "image" in
  state t = VIEW ∧
  linkText ∈ childNodes (nodes t) linkContent ∧
  props (nodes t) linkContent !! "href" = Some (ToString (link (_data t0))) ∧
  (linkTitle ∈ childNodes (nodes t) linkContent ↔ truthy title = true) ∧
  (truthy title = true → textContent (nodes t) linkTitle = to_text title) ∧
  (linkDescription ∈ childNodes (nodes t) linkContent ↔ truthy description = true) ∧
  (truthy description = true →
     textContent (nodes t) linkDescription = to_text description) ∧
  (linkImage ∈ childNodes (nodes t) linkContent ↔
     truthy image && truthy (image_url image) = true) ∧
  (truthy image && truthy (image_url image) = true →
     props (nodes t) linkImage !! "style.backgroundImage" =
       CSS_backgroundImage ("url(" +:+ ToString (image_url image) +:+ ")")).
Proof.
  intros Hmeta Ho. cbv zeta.
  assert (∃ n, Object_keys_length (meta (_data t0)) = inr (S n)) as [n Hn].
  { rewrite Hmeta. cbn. destruct (size o) as [|n] eqn:E; [|eauto].
    by apply map_size_empty_iff in E. }
  unfold exec. run_as render t0 r t'.
  unfold render, makeInputHolder, prepareLinkPreview, assign, t_.
  repeat first [ run_step | progress run_make ].
  destruct (readOnly t0) eqn:Hro; run.
  all: cbn [Nat.eqb]; cbv iota; run; rewrite Hmeta.
  all: lazymatch goal with
       | |- context [bind (showLinkPreview _) _ ?t1] =>
           assert (all_created t1) as Hc by built;
           assert (linkTitle ∉ childNodes (nodes t1) linkContent) as H1 by built;
           assert (linkDescription ∉ childNodes (nodes t1) linkContent) as H2 by built;
           assert (linkImage ∉ childNodes (nodes t1) linkContent) as H3 by built;
           assert (props (nodes t1) linkImage !! "style.backgroundImage" = None)
             as H4 by (vm_compute; reflexivity);
           assert (link (_data t1) = link (_data t0)) as Hl by (vm_compute; reflexivity);
           revert Hc H1 H2 H3 H4 Hl; generalize t1;
           let t1 := fresh "t" in intros t1 Hc H1 H2 H3 H4 Hl;
           pose proof (showLinkPreview_parts o t1 Hc) as Hparts;
           destruct (showLinkPreview_spec (VObj o) t1 Hc eq_refl)
             as (t2 & E2 & Hc2 & Hs2 & _);
           cbv zeta in Hparts; unfold exec in Hparts; rewrite E2 in Hparts;
           cbn [snd] in Hparts; rewrite Hl in Hparts;
           rewrite (bind_run _ _ _ _ _ E2); cbv beta
       end.
  all: run; ran; cbn [snd].
  all: destruct Hparts as (P1 & P2 & P3 & P4 & P5).
  all: destruct (truthy (field o "title")); destruct (truthy (field o "description"));
    destruct (truthy (field o "image") && truthy (image_url (field o "image"))).
  all: destruct P3 as [P3 P3']; destruct P4 as [P4 P4']; destruct P5 as [P5 P5'].
  all: try (rewrite H4 in P5'; unfold background_after in P5';
            destruct (CSS_backgroundImage _)).
  all: split_and!; read_children; rewrite ?P3', ?P4', ?P5'.
  all: first [ reflexivity | assumption | tauto | intuition (discriminate || congruence) ].
Qed.

End Mounting.

(** * The handlers on a mounted block *)

Section Handlers.

Context `{RT : Runtime}.

Lemma mounted_same_shape t t' :
  mounted t → same_shape t t' → all_created t' →
  truthy (meta (_data t')) = true → Forall callback_ok (timers t') →
  mounted t'.
Proof.
  intros (_ & Hi & _ & _ & Hs) [Es Ep Eh Ei] Hc Hm Ht.
  unfold mounted. rewrite Es. destruct (state t); rewrite Ep, Eh, Ei; auto.
Qed.

Lemma same_shape_refl t : same_shape t t.
Proof. split; reflexivity. Qed.

Lemma same_shape_trans t1 t2 t3 : same_shape t1 t2 → same_shape t2 t3 → same_shape t1 t3.
Proof. intros [] []. split; try congruence; etransitivity; eassumption. Qed.

(** The object literals the data setter is called with. *)
Lemma field_link_only v : field {[ "link" := v ]} "link" = v.
Proof. reflexivity. Qed.

Lemma field_meta_of_link_only v : field {[ "link" := v ]} "meta" = VUndef.
Proof. reflexivity. Qed.

Lemma field_meta_of_both m l : field {[ "meta" := m; "link" := l ]} "meta" = m.
Proof. unfold field. by rewrite lookup_insert_eq. Qed.

Lemma field_link_of_both m l : field {[ "meta" := m; "link" := l ]} "link" = l.
Proof. unfold field. rewrite lookup_insert_ne by done. by rewrite lookup_singleton_eq. Qed.

Lemma js_or_undefined b : js_or VUndef b = b.
Proof. reflexivity. Qed.

Lemma js_or_truthy_l a b : truthy a = true → js_or a b = a.
Proof. unfold js_or. by intros ->. Qed.

Lemma js_or_falsy_l a b : truthy a = false → js_or a b = b.
Proof. unfold js_or. by intros ->. Qed.

Ltac read_data :=
  rewrite ?field_link_only, ?field_meta_of_link_only, ?field_meta_of_both,
    ?field_link_of_both, ?js_or_undefined.

(** Class-list membership through the operations performed. *)
Ltac classes :=
  intros; read_dom;
  repeat first
    [ rewrite elem_of_add_token
    | rewrite elem_of_remove_token ];
  intuition (discriminate || congruence).

(** Settle what is left after running a handler and reading the result. *)
Ltac settled :=
  lazymatch goal with
  | |- _ = _ => first [ reflexivity | assumption ]
  | |- all_created _ => solve [ auto 50 with created ]
  | |- Forall _ _ => first [ assumption | auto using Forall_app_2, Forall_cons_2 ]
  | |- same_shape _ _ => split; read_children; first [ reflexivity | tauto ]
  | |- _ ∈ childNodes _ _ => children
  | |- _ ∉ childNodes _ _ => children
  | |- _ ∈ childNodes _ _ ↔ _ => children
  | |- _ => classes
  end.

Ltac finish :=
  ran; eexists; (split; [reflexivity|]); unfold error_shown;
  read_dom; read_data; split_and!; settled.

Lemma fetchingFailed_spec msg t :
  all_created t →
  ∃ t', fetchingFailed msg t = (inr tt, t') ∧
    all_created t' ∧ same_shape t t' ∧ _data t' = _data t ∧
    error_shown t' ∧
    (CSS.containerLoading ∉ classList (nodes t') container) ∧
    (∀ tok, tok ≠ CSS.containerError → tok ≠ CSS.containerLoading →
            tok ∈ classList (nodes t') container ↔ tok ∈ classList (nodes t) container) ∧
    classList (nodes t') progress = classList (nodes t) progress ∧
    textContent (nodes t') input = textContent (nodes t) input ∧
    notifier t' = notifier t ++ [{| message := msg; style := "error" |}] ∧
    ajax t' = ajax t ∧ timers t' = timers t ∧
    api t' = api t ∧ readOnly t' = readOnly t ∧ config t' = config t.
Proof.
  intros Hc. run_as (fetchingFailed msg) t r t'.
  unfold fetchingFailed, applyErrorStyle. run. finish.
Qed.

Lemma fetchLinkData_spec url t :
  all_created t →
  ∃ t', fetchLinkData url t = (inr tt, t') ∧
    all_created t' ∧ same_shape t t' ∧
    _data t' = {| link := js_or (VStr url) (link (_data t)); meta := meta (_data t) |} ∧
    ajax t' = ajax t ++ [{| req_url := endpoint (config t);
                            req_headers := headers (config t);
                            req_data_url := url |}] ∧
    CSS.containerLoading ∈ classList (nodes t') container ∧
    (∀ tok, tok ≠ CSS.containerLoading →
            tok ∈ classList (nodes t') container ↔ tok ∈ classList (nodes t) container) ∧
    classList (nodes t') inputHolder = classList (nodes t) inputHolder ∧
    textContent (nodes t') input = textContent (nodes t) input ∧
    notifier t' = notifier t ∧ timers t' = timers t ∧
    api t' = api t ∧ readOnly t' = readOnly t ∧ config t' = config t.
Proof.
  intros Hc. run_as (fetchLinkData url) t r t'.
  unfold fetchLinkData, showProgress, set_data. run. finish.
Qed.

Lemma startFetching_spec event t :
  mounted t →
  let url := match event with
             | PasteEvent clip => clip
             | _ => textContent (nodes t) input
             end in
  ∃ t', startFetching event t = (inr tt, t') ∧
    all_created t' ∧ same_shape t t' ∧
    _data t' = {| link := js_or (VStr url) (link (_data t)); meta := meta (_data t) |} ∧
    ajax t' = ajax t ++ [{| req_url := endpoint (config t);
                            req_headers := headers (config t);
                            req_data_url := url |}] ∧
    (CSS.containerError ∉ classList (nodes t') container) ∧
    (CSS.inputError ∉ classList (nodes t') inputHolder) ∧
    CSS.containerLoading ∈ classList (nodes t') container ∧
    (∀ tok, tok ≠ CSS.containerLoading → tok ≠ CSS.containerError →
            tok ∈ classList (nodes t') container ↔ tok ∈ classList (nodes t) container) ∧
    textContent (nodes t') input = textContent (nodes t) input ∧
    notifier t' = notifier t ∧ timers t' = timers t ∧
    api t' = api t ∧ readOnly t' = readOnly t ∧ config t' = config t.
Proof.
  intros (Hc & Hi & _) url. run_as (startFetching event) t r t'.
  unfold startFetching, removeErrorStyle, fetchLinkData, showProgress, set_data.
  run. finish.
Qed.

(** A response whose [success] is truthy is an object. *)
Lemma success_truthy response :
  truthy response = true →
  (∃ s, get_prop response "success" = inr s ∧ truthy s = true) →
  ∃ o, response = VObj o.
Proof.
  intros Hr (s & Hs & Ht).
  destruct response; try discriminate; cbn in Hs; injection Hs as <-;
    try discriminate. eauto.
Qed.

(** The three ways [onFetch] can go. *)
Lemma onFetch_rejected response t :
  truthy response = false ∨
  (∃ s, get_prop response "success" = inr s ∧ truthy s = false) →
  onFetch response t =
  fetchingFailed (i18n_t (api t) "Couldn't get this link data, try the other one") t.
Proof.
  unfold onFetch, t_. intros [Hr|(s & Hs & Ht)].
  - rewrite Hr. cbn [negb]. run.
  - destruct (truthy response); cbn [negb]; run.
Qed.

Lemma onFetch_malformed o t :
  truthy (field o "success") = true → truthy (field o "meta") = false →
  onFetch (VObj o) t =
  fetchingFailed (i18n_t (api t) "Wrong response format from the server") (fetched o t).
Proof.
  intros Hs Hm. unfold onFetch, t_, set_data, fetched. cbn [truthy negb get_prop lift].
  repeat first [ run_step | progress read_data ]; try reflexivity.
Qed.

Lemma onFetch_accepted o t :
  truthy (field o "success") = true → truthy (field o "meta") = true →
  onFetch (VObj o) t = hideProgress (ThenShowPreview (field o "meta")) (fetched o t).
Proof.
  intros Hs Hm. unfold onFetch, t_, set_data, fetched. cbn [truthy negb get_prop lift].
  repeat first [ run_step | progress read_data ]; try reflexivity.
Qed.

Lemma hideProgress_spec cb t :
  all_created t →
  ∃ t', hideProgress cb t = (inr tt, t') ∧
    all_created t' ∧ same_shape t t' ∧ _data t' = _data t ∧
    timers t' = timers t ++ [cb] ∧
    (CSS.containerLoading ∉ classList (nodes t') container) ∧
    CSS.containerLoaded ∈ classList (nodes t') container ∧
    (∀ tok, tok ≠ CSS.containerLoading → tok ≠ CSS.containerLoaded →
            tok ∈ classList (nodes t') container ↔ tok ∈ classList (nodes t) container) ∧
    classList (nodes t') inputHolder = classList (nodes t) inputHolder ∧
    textContent (nodes t') input = textContent (nodes t) input ∧
    notifier t' = notifier t ∧ ajax t' = ajax t ∧
    api t' = api t ∧ readOnly t' = readOnly t ∧ config t' = config t.
Proof.
  intros Hc. run_as (hideProgress cb) t r t'.
  unfold hideProgress. run. finish.
Qed.

(** [fetchLinkData] resumes with what [onFetch] did when that did not
    throw, and with the failure path when the request was rejected. *)
Lemma fetchLinkData_resume_body body t t' :
  onFetch body t = (inr tt, t') → fetchLinkData_resume (Some body) t = (inr tt, t').
Proof. intros H. unfold fetchLinkData_resume. apply try_catch_run, H. Qed.

Lemma fetchLinkData_resume_rejected t :
  fetchLinkData_resume None t =
  fetchingFailed (i18n_t (api t) "Couldn't fetch the link data") t.
Proof. unfold fetchLinkData_resume, t_. run. Qed.

(** The settings entry activated in [VIEW]: [changeState(EDIT)]. *)
Lemma onActivate_in_view t :
  mounted t → state t = VIEW →
  ∃ t', onActivate t = (inr tt, t') ∧
    mounted t' ∧ state t' = EDIT ∧ _data t' = _data t ∧
    (linkContent ∉ childNodes (nodes t') container) ∧
    inputHolder ∈ childNodes (nodes t') container ∧
    (CSS.containerLoaded ∉ classList (nodes t') container) ∧
    (CSS.progressLoaded ∉ classList (nodes t') progress) ∧
    (CSS.containerLoading ∈ classList (nodes t') container ↔
     CSS.containerLoading ∈ classList (nodes t) container) ∧
    (CSS.progressLoading ∈ classList (nodes t') progress ↔
     CSS.progressLoading ∈ classList (nodes t) progress) ∧
    (CSS.containerError ∈ classList (nodes t') container ↔
     CSS.containerError ∈ classList (nodes t) container) ∧
    classList (nodes t') inputHolder = classList (nodes t) inputHolder ∧
    textContent (nodes t') input = textContent (nodes t) input ∧
    notifier t' = notifier t ∧ ajax t' = ajax t ∧ timers t' = timers t ∧
    api t' = api t ∧ readOnly t' = readOnly t ∧ config t' = config t.
Proof.
  intros (Hc & Hi & Hm & Ht & Hs) Hv. rewrite Hv in Hs. destruct Hs as [Hp Hh].
  run_as onActivate t r t'.
  unfold onActivate, changeState, hideLinkPreview, showInputHolder.
  run. rewrite decide_False by discriminate. cbv iota. run.
  ran; eexists; (split; [reflexivity|]); unfold mounted.
  read_children; read_data. split_and!; settled.
Qed.

(** The settings entry activated in [EDIT]: [changeState(VIEW)], which is
    [startFetching()] with no event. *)
Lemma onActivate_in_edit t :
  state t = EDIT → onActivate t = startFetching NoEvent t.
Proof.
  intros He. unfold onActivate, changeState. run.
Qed.

(** The callback of a successful fetch, run while the input is shown. *)
Lemma run_callback_in_edit metaData t :
  mounted t → state t = EDIT → truthy metaData = true →
  ∃ t', run_callback (ThenShowPreview metaData) t = (inr tt, t') ∧
    mounted t' ∧ state t' = VIEW ∧ _data t' = _data t ∧
    textContent (nodes t') linkText = shown_label (link (_data t)) ∧
    textContent (nodes t') input = textContent (nodes t) input ∧
    notifier t' = notifier t ∧ ajax t' = ajax t ∧ timers t' = timers t ∧
    api t' = api t ∧ readOnly t' = readOnly t ∧ config t' = config t.
Proof.
  intros (Hc & Hi & Hm & Ht & Hs) He Hmd. rewrite He in Hs. destruct Hs as [Hh Hp].
  run_as (run_callback (ThenShowPreview metaData)) t r t'.
  unfold run_callback, hideInputHolder. run.
  lazymatch goal with
  | |- context [showLinkPreview ?m ?t1] =>
      destruct (showLinkPreview_spec m t1)
        as (t2 & E2 & Hc2 & Hs2 & Hd2 & Hp2 & Hh2 & Hi2 & _ & _ & _ & Tl & Ti
            & Nn2 & Na2 & Nt2 & Pa2 & Pr2 & Pc2);
      [ auto 50 with created | assumption | rewrite E2 ]
  end.
  ran; eexists; (split; [reflexivity|]); unfold mounted.
  rewrite Hs2, Hd2, Hh2, Hi2, Tl, Ti, Nn2, Na2, Nt2, Pa2, Pr2, Pc2.
  read_children. split_and!; settled.
Qed.

(** The same callback once the preview is already shown (a second fetch
    was in flight): [hideInputHolder] throws and nothing changes. *)
Lemma run_callback_in_view cb t :
  mounted t → state t = VIEW → run_callback cb t = (inl NotFoundError, t).
Proof.
  intros (Hc & Hi & Hm & Ht & Hs) Hv. rewrite Hv in Hs. destruct Hs as [Hp Hh].
  destruct cb as [metaData]. unfold run_callback, hideInputHolder.
  apply bind_raise, run_removeChild_missing; auto.
Qed.

Lemma exec_run {A} (m : M A) t a t' : m t = (inr a, t') → exec m t = t'.
Proof. unfold exec. by intros ->. Qed.

Lemma exec_raise {A} (m : M A) t e t' : m t = (inl e, t') → exec m t = t'.
Proof. unfold exec. by intros ->. Qed.

(** What every handler preserves: the shape of a mounted block, and a
    stored link once there is one. *)
Lemma advances_refl t : mounted t → advances t t.
Proof. by split. Qed.

Lemma advances_trans t1 t2 t3 : advances t1 t2 → advances t2 t3 → advances t1 t3.
Proof. intros [? ?] [? ?]. split; auto. Qed.

Lemma mounted_with_ajax l t : mounted t → mounted (with_ajax l t).
Proof. exact id. Qed.

Lemma mounted_with_timers l t :
  mounted t → Forall callback_ok l → mounted (with_timers l t).
Proof. intros (? & ? & ? & _ & ?) Hl. repeat split; assumption. Qed.

Lemma put_textContent_advances text t :
  mounted t → advances t (exec (put_textContent input text) t).
Proof.
  intros Hm. pose proof Hm as (Hc & _).
  erewrite exec_run by (apply run_put_textContent; apply Hc).
  split; [|read_fields; auto].
  apply (mounted_same_shape t); auto; read_fields; try apply Hm;
    first [ solve [ auto 50 with created ] | split; read_children; reflexivity ].
Qed.

Lemma startFetching_advances event t :
  mounted t → advances t (exec (startFetching event) t).
Proof.
  intros Hm.
  destruct (startFetching_spec event t Hm)
    as (t' & E & Hc & Hs & Hd & _ & _ & _ & _ & _ & _ & _ & Ht & _).
  rewrite (exec_run _ _ _ _ E). split.
  - apply (mounted_same_shape t); auto; rewrite ?Hd, ?Ht; apply Hm.
  - intros Hl. rewrite Hd. by apply js_or_truthy.
Qed.

Lemma fetchingFailed_advances msg t :
  mounted t → advances t (exec (fetchingFailed msg) t).
Proof.
  intros Hm. pose proof Hm as (Hc & _).
  destruct (fetchingFailed_spec msg t Hc)
    as (t' & E & Hc' & Hs & Hd & _ & _ & _ & _ & _ & _ & _ & Ht & _).
  rewrite (exec_run _ _ _ _ E). split.
  - apply (mounted_same_shape t); auto; rewrite ?Hd, ?Ht; apply Hm.
  - by rewrite Hd.
Qed.

Lemma fetched_advances o t : mounted t → advances t (fetched o t).
Proof.
  intros Hm. split.
  - apply (mounted_same_shape t).
    + exact Hm.
    + split; reflexivity.
    + exact (proj1 Hm).
    + apply js_or_truthy, Hm.
    + apply Hm.
  - intros Hl. cbn. by apply js_or_truthy.
Qed.

Lemma onFetch_advances response t :
  mounted t →
  ∃ t', onFetch response t = (inr tt, t') ∧ advances t t'.
Proof.
  intros Hm. pose proof Hm as (Hc & _).
  assert (Hfail : ∀ msg t0, mounted t0 →
            ∃ t', fetchingFailed msg t0 = (inr tt, t') ∧ advances t0 t').
  { intros msg t0 Hm0. pose proof (fetchingFailed_advances msg t0 Hm0) as Ha.
    destruct (fetchingFailed_spec msg t0 (proj1 Hm0)) as (t' & E & _).
    rewrite (exec_run _ _ _ _ E) in Ha. eauto. }
  destruct (truthy response) eqn:Hr.
  - destruct (get_prop_truthy response "success" Hr) as [s Hs].
    destruct (truthy s) eqn:Hts.
    + destruct (success_truthy response Hr) as [o ->]; [eauto|].
      cbn in Hs. injection Hs as <-.
      destruct (truthy (field o "meta")) eqn:Hmeta.
      * rewrite (onFetch_accepted o t Hts Hmeta).
        pose proof (fetched_advances o t Hm) as Hf.
        destruct (hideProgress_spec (ThenShowPreview (field o "meta")) (fetched o t))
          as (t' & E & Hc' & Hsh & Hd & Ht & _); [apply Hf|].
        exists t'. split; [exact E|]. apply (advances_trans _ (fetched o t)); [exact Hf|].
        split; [|by rewrite Hd].
        apply (mounted_same_shape (fetched o t)); auto; rewrite ?Hd, ?Ht; try apply Hf.
        apply Forall_app_2; [apply Hf | by repeat constructor].
      * rewrite (onFetch_malformed o t Hts Hmeta).
        pose proof (fetched_advances o t Hm) as Hf.
        destruct (Hfail (i18n_t (api t) "Wrong response format from the server")
                        (fetched o t)) as (t' & E & Ha); [apply Hf|].
        exists t'. split; [exact E|]. by apply (advances_trans _ (fetched o t)).
    + rewrite onFetch_rejected by eauto. by apply Hfail.
  - rewrite onFetch_rejected by eauto. by apply Hfail.
Qed.

Lemma fetchLinkData_resume_advances r t :
  mounted t → advances t (exec (fetchLinkData_resume r) t).
Proof.
  intros Hm. destruct r as [body|].
  - destruct (onFetch_advances body t Hm) as (t' & E & Ha).
    by rewrite (exec_run _ _ _ _ (fetchLinkData_resume_body _ _ _ E)).
  - unfold exec. rewrite fetchLinkData_resume_rejected.
    by apply fetchingFailed_advances.
Qed.

Lemma onActivate_advances t : mounted t → advances t (exec onActivate t).
Proof.
  intros Hm. destruct (state t) eqn:Hs.
  - unfold exec. rewrite (onActivate_in_edit t Hs). by apply startFetching_advances.
  - destruct (onActivate_in_view t Hm Hs) as (t' & E & Hm' & _ & Hd & _).
    rewrite (exec_run _ _ _ _ E). split; [exact Hm'|by rewrite Hd].
Qed.

Lemma run_callback_advances cb t :
  mounted t → callback_ok cb → advances t (exec (run_callback cb) t).
Proof.
  intros Hm Hcb. destruct (state t) eqn:Hs.
  - destruct cb as [metaData].
    destruct (run_callback_in_edit metaData t Hm Hs Hcb) as (t' & E & Hm' & _ & Hd & _).
    rewrite (exec_run _ _ _ _ E). split; [exact Hm'|by rewrite Hd].
  - rewrite (exec_raise _ _ _ _ (run_callback_in_view cb t Hm Hs)).
    by apply advances_refl.
Qed.

(** Every event takes a mounted block to a mounted block, and never
    empties a stored link. *)
Lemma step_advances e t : mounted t → advances t (step e t).
Proof.
  intros Hm. destruct e as [text| |text|k| |i r| ]; unfold step.
  - destruct (negb (readOnly t) && in_holder input t);
      [by apply put_textContent_advances | by apply advances_refl].
  - destruct (listens button "click" t);
      [by apply startFetching_advances | by apply advances_refl].
  - destruct (listens input "paste" t);
      [by apply startFetching_advances | by apply advances_refl].
  - destruct (listens input "keydown" t); [|by apply advances_refl].
    unfold on_keydown. destruct (k =? 13)%Z;
      [by apply startFetching_advances | by apply advances_refl].
  - by apply onActivate_advances.
  - destruct (ajax t !! i); [|by apply advances_refl].
    apply (fetchLinkData_resume_advances r (with_ajax (delete i (ajax t)) t)), Hm.
  - destruct (timers t) as [|cb rest] eqn:Ht; [by apply advances_refl|].
    pose proof Hm as (_ & _ & _ & Hok & _). rewrite Ht in Hok.
    apply Forall_cons_1 in Hok as [Hcb Hrest].
    apply (run_callback_advances cb (with_timers rest t));
      [by apply mounted_with_timers | exact Hcb].
Qed.

Lemma mount_mounted data cfg a ro : mounted (mount data cfg a ro).
Proof.
  unfold mount.
  destruct (render_spec (constructor data cfg a ro)) as (t' & E & Hm & _).
  - apply js_or_truthy. reflexivity.
  - constructor.
  - by rewrite (exec_run _ _ _ _ E).
Qed.

Lemma reachable_mounted t : reachable t → mounted t.
Proof.
  induction 1 as [data cfg a ro|e t _ IH].
  - apply mount_mounted.
  - apply step_advances, IH.
Qed.

(** ** The data accessor *)


Lemma truthy_VStr s : truthy (VStr s) = true ↔ s ≠ "".
Proof.
  unfold truthy. destruct (String.eqb_spec s "") as [->|Hs]; cbn; split; intros; congruence.
Qed.

Lemma js_or_VStr u b : u ≠ "" → js_or (VStr u) b = VStr u.
Proof. intros Hu. apply js_or_truthy_l. by apply truthy_VStr. Qed.

Lemma set_data_link input t :
  link (_data (exec (set_data input) t)) = js_or (field input "link") (link (_data t)).
Proof. reflexivity. Qed.

Lemma set_data_meta input t :
  meta (_data (exec (set_data input) t)) = js_or (field input "meta") (meta (_data t)).
Proof. reflexivity. Qed.

(** C6: the data setter merges.  A field the input omits keeps its stored
    value, so setting [{link: "a"}] and then [{meta: {title: "t"}}] on any
    instance leaves [{link: "a", meta: {title: "t"}}]. *)
Theorem set_data_merges :
  (∀ (input : obj) t, input !! "link" = None →
     link (_data (exec (set_data input) t)) = link (_data t)) ∧
  (∀ (input : obj) t, input !! "meta" = None →
     meta (_data (exec (set_data input) t)) = meta (_data t)) ∧
  (∀ t, _data (exec (set_data {[ "meta" := VObj {[ "title" := VStr "t" ]} ]})
                 (exec (set_data {[ "link" := VStr "a" ]}) t)) =
        {| link := VStr "a"; meta := VObj {[ "title" := VStr "t" ]} |}).
Proof.
  split_and!.
  - intros input t H. rewrite set_data_link. unfold field. by rewrite H.
  - intros input t H. rewrite set_data_meta. unfold field. by rewrite H.
  - intros t. reflexivity.
Qed.

(** C10: a falsy [link] in the input leaves the stored link alone, so no
    call of the data setter empties a stored link, the optimistic update
    of a fetch started on empty input text included; and no event on a
    mounted block does either. *)
Theorem stored_link_stays :
  (∀ (input : obj) t, truthy (field input "link") = false →
     link (_data (exec (set_data input) t)) = link (_data t)) ∧
  (∀ (input : obj) t s, link (_data t) = VStr s → s ≠ "" →
     truthy (link (_data (exec (set_data input) t))) = true) ∧
  (∀ t, reachable t → link (_data (exec (fetchLinkData "") t)) = link (_data t)) ∧
  (∀ e t, reachable t → truthy (link (_data t)) = true →
     truthy (link (_data (step e t))) = true).
Proof.
  split_and!.
  - intros input t H. rewrite set_data_link. by apply js_or_falsy_l.
  - intros input t s Hl Hs. rewrite set_data_link. apply js_or_truthy.
    rewrite Hl. by apply truthy_VStr.
  - intros t Hr. pose proof (reachable_mounted t Hr) as (Hc & _).
    destruct (fetchLinkData_spec "" t Hc) as (t' & E & _ & _ & Hd & _).
    rewrite (exec_run _ _ _ _ E), Hd. reflexivity.
  - intros e t Hr. apply step_advances, reachable_mounted, Hr.
Qed.

(** ** Validation *)

Lemma trimEnd_empty s : trimEnd s = "" ↔ all_white_space s = true.
Proof.
  induction s as [|a s IH]; cbn; [done|].
  destruct (trimEnd s) eqn:E.
  - destruct (is_white_space a); cbn; [tauto|]. split; discriminate.
  - destruct (is_white_space a); cbn; [|split; discriminate].
    rewrite <- IH. split; discriminate.
Qed.

Lemma trimStart_empty s : trimStart s = "" ↔ all_white_space s = true.
Proof.
  induction s as [|a s IH]; cbn; [done|].
  destruct (is_white_space a); cbn; [exact IH|]. split; discriminate.
Qed.

Lemma trimStart_head s a r : trimStart s = String a r → is_white_space a = false.
Proof.
  induction s as [|c s IH]; cbn; [discriminate|].
  destruct (is_white_space c) eqn:Hc; [exact IH|]. by intros [= <- _].
Qed.

(** The trimmed string is empty exactly when every character is white
    space. *)
Lemma trim_empty s : trim s = "" ↔ all_white_space s = true.
Proof.
  unfold trim. rewrite <- trimStart_empty. split; [|by intros ->].
  destruct (trimStart s) as [|a r] eqn:E; [done|].
  rewrite trimEnd_empty. cbn. by rewrite (trimStart_head _ _ _ E).
Qed.

(** C5: [validate] answers whether the stored link, trimmed, is
    non-empty, whatever the stored metadata: false for [""] and ["  "],
    true for ["x"]. *)
Theorem validate_trimmed_link :
  (∀ t s m, let t' := with_data {| link := VStr s; meta := m |} t in
     outcome validate t' = inr (negb (String.eqb (trim s) "")) ∧
     (outcome validate t' = inr true ↔ trim s ≠ "") ∧
     exec validate t' = t') ∧
  (∀ t m, outcome validate (with_data {| link := VStr ""; meta := m |} t) = inr false) ∧
  (∀ t m, outcome validate (with_data {| link := VStr "  "; meta := m |} t) = inr false) ∧
  (∀ t m, outcome validate (with_data {| link := VStr "x"; meta := m |} t) = inr true).
Proof.
  split_and!; try (intros; reflexivity).
  intros t s m t'. split_and!; try reflexivity.
  unfold outcome, validate, get_data, bind, gets, ret; cbn.
  destruct (String.eqb_spec (trim s) ""); cbn; split; intros; congruence.
Qed.

(** ** A fetch, from its start to its settlement *)

Lemma fetchLinkData_mounted url t :
  mounted t →
  ∃ t', fetchLinkData url t = (inr tt, t') ∧ mounted t' ∧ same_shape t t' ∧
    _data t' = {| link := js_or (VStr url) (link (_data t)); meta := meta (_data t) |} ∧
    ajax t' = ajax t ++ [{| req_url := endpoint (config t);
                            req_headers := headers (config t);
                            req_data_url := url |}] ∧
    notifier t' = notifier t ∧ timers t' = timers t ∧ api t' = api t.
Proof.
  intros Hm.
  destruct (fetchLinkData_spec url t (proj1 Hm))
    as (t' & E & Hc & Hs & Hd & Ha & _ & _ & _ & _ & Hn & Ht & Hapi & _).
  exists t'. split_and!; try assumption.
  apply (mounted_same_shape t); try assumption.
  - rewrite Hd. apply Hm.
  - rewrite Ht. apply Hm.
Qed.

(** An accepted response stores link and metadata and leaves the
    switch to the preview to a timer. *)
Lemma fetchLinkData_resume_accepted o t :
  mounted t → truthy (field o "success") = true → truthy (field o "meta") = true →
  ∃ t', fetchLinkData_resume (Some (VObj o)) t = (inr tt, t') ∧ mounted t' ∧
    same_shape t t' ∧ _data t' = _data (fetched o t) ∧
    timers t' = timers t ++ [ThenShowPreview (field o "meta")] ∧
    notifier t' = notifier t ∧ ajax t' = ajax t.
Proof.
  intros Hm Hs Hmeta.
  destruct (fetched_advances o t Hm) as [Hm' _].
  destruct (hideProgress_spec (ThenShowPreview (field o "meta")) (fetched o t) (proj1 Hm'))
    as (t' & E & Hc & Hsh & Hd & Ht & _ & _ & _ & _ & _ & Hn & Ha & _).
  exists t'. split_and!; try assumption.
  - apply fetchLinkData_resume_body. by rewrite onFetch_accepted.
  - apply (mounted_same_shape (fetched o t)); try assumption.
    + rewrite Hd. apply Hm'.
    + rewrite Ht. apply Forall_app_2; [apply Hm|]. by apply Forall_cons_2.
  - apply (same_shape_trans _ (fetched o t)); [split; reflexivity | assumption].
Qed.

Lemma get_prop_VObj o k : get_prop (VObj o) k = inr (field o k).
Proof. reflexivity. Qed.

Lemma fetchLinkData_resume_failed r t :
  mounted t → failure r →
  ∃ t', fetchLinkData_resume r t = (inr tt, t') ∧ mounted t' ∧ same_shape t t' ∧
    _data t' = failure_data r t ∧
    error_shown t' ∧
    (CSS.containerLoading ∉ classList (nodes t') container) ∧
    notifier t' = notifier t ++ [{| message := failure_message (api t) r; style := "error" |}] ∧
    ajax t' = ajax t ∧ timers t' = timers t.
Proof.
  intros Hm Hf.
  assert (∃ msg t0, (∀ t', fetchingFailed msg t0 = (inr tt, t') →
                           fetchLinkData_resume r t = (inr tt, t')) ∧
            mounted t0 ∧ same_shape t t0 ∧ _data t0 = failure_data r t ∧
            msg = failure_message (api t) r ∧ notifier t0 = notifier t ∧
            ajax t0 = ajax t ∧ timers t0 = timers t) as (msg & t0 & Hrun & Hm0 & Hs0 & Hd0 & -> & Hn0 & Ha0 & Ht0).
  { destruct Hf as [|body Hb|o Hs Hmeta].
    - eexists _, t. rewrite fetchLinkData_resume_rejected.
      split_and!; try reflexivity; [tauto | assumption | apply same_shape_refl].
    - exists (i18n_t (api t) "Couldn't get this link data, try the other one"), t.
      split_and!; try reflexivity; try assumption.
      + intros t' E. apply fetchLinkData_resume_body. by rewrite onFetch_rejected.
      + apply same_shape_refl.
      + destruct body as [| | | | | |o]; try reflexivity. cbn.
        destruct Hb as [Hb|(s & Hg & Hs)]; [discriminate Hb|].
        rewrite get_prop_VObj in Hg. injection Hg as <-. by rewrite Hs.
      + destruct body as [| | | | | |o]; try reflexivity. cbn.
        destruct Hb as [Hb|(s & Hg & Hs)]; [discriminate Hb|].
        rewrite get_prop_VObj in Hg. injection Hg as <-. by rewrite Hs.
    - exists (i18n_t (api t) "Wrong response format from the server"), (fetched o t).
      split_and!; try reflexivity.
      + intros t' E. apply fetchLinkData_resume_body. by rewrite onFetch_malformed.
      + apply (fetched_advances o t Hm).
      + split; reflexivity.
      + cbn. by rewrite Hs.
      + cbn. by rewrite Hs. }
  destruct (fetchingFailed_spec (failure_message (api t) r) t0 (proj1 Hm0))
    as (t' & E & Hc & Hsh & Hd & He & Hl & _ & _ & _ & Hn & Ha & Ht & _).
  exists t'. split_and!; try assumption.
  - by apply Hrun.
  - apply (mounted_same_shape t0); try assumption.
    + rewrite Hd. apply Hm0.
    + rewrite Ht. apply Hm0.
  - by apply (same_shape_trans _ t0).
  - congruence.
  - congruence.
  - congruence.
  - congruence.
Qed.

(** A settled request is either accepted or failed. *)
Lemma settled_cases r :
  (∃ o, r = Some (VObj o) ∧
        truthy (field o "success") = true ∧ truthy (field o "meta") = true) ∨
  failure r.
Proof.
  destruct r as [body|]; [|right; constructor].
  destruct (truthy body) eqn:Hr; [|right; apply failure_refused; by left].
  destruct (get_prop_truthy body "success" Hr) as [s Hs].
  destruct (truthy s) eqn:Hts; [|right; apply failure_refused; right; eauto].
  destruct (success_truthy body Hr) as [o ->]; [eauto|].
  cbn in Hs. injection Hs as <-.
  destruct (truthy (field o "meta")) eqn:Hmeta.
  - left. eauto.
  - right. by apply failure_malformed.
Qed.

Lemma fetchLinkData_resume_ajax r t :
  mounted t → ajax (exec (fetchLinkData_resume r) t) = ajax t.
Proof.
  intros Hm. destruct (settled_cases r) as [(o & -> & Hs & Hmeta)|Hf].
  - destruct (fetchLinkData_resume_accepted o t Hm Hs Hmeta)
      as (t' & E & _ & _ & _ & _ & _ & Ha).
    by rewrite (exec_run _ _ _ _ E).
  - destruct (fetchLinkData_resume_failed r t Hm Hf)
      as (t' & E & _ & _ & _ & _ & _ & _ & Ha & _).
    by rewrite (exec_run _ _ _ _ E).
Qed.

Lemma in_holder_edit n t : mounted t → in_holder n t = true → state t = EDIT.
Proof.
  intros (_ & _ & _ & _ & Hm) [_ Hh%bool_decide_eq_true]%andb_true_iff.
  destruct (state t); [reflexivity | tauto].
Qed.

Lemma listens_edit n type t : mounted t → listens n type t = true → state t = EDIT.
Proof. intros Hm [_ Hh]%andb_true_iff. by apply (in_holder_edit n). Qed.

(** Only a block in [EDIT] starts a fetch: an event that leaves more
    requests outstanding than it found was handled in [EDIT]. *)
Lemma fetch_starts_in_edit e t :
  reachable t → length (ajax t) < length (ajax (step e t)) → state t = EDIT.
Proof.
  intros Hr. pose proof (reachable_mounted t Hr) as Hm.
  destruct e as [text| |text|k| |i r| ]; unfold step.
  - destruct (negb (readOnly t) && in_holder input t); [|lia].
    erewrite exec_run by (apply run_put_textContent; apply Hm).
    read_fields. lia.
  - destruct (listens button "click" t) eqn:Hl; [|lia].
    intros _. by apply (listens_edit button "click").
  - destruct (listens input "paste" t) eqn:Hl; [|lia].
    intros _. by apply (listens_edit input "paste").
  - destruct (listens input "keydown" t) eqn:Hl; [|lia].
    intros _. by apply (listens_edit input "keydown").
  - destruct (state t) eqn:Hs; [reflexivity|].
    destruct (onActivate_in_view t Hm Hs)
      as (t' & E & _ & _ & _ & _ & _ & _ & _ & _ & _ & _ & _ & _ & _ & Ha & _).
    rewrite (exec_run _ _ _ _ E), Ha. lia.
  - destruct (ajax t !! i) eqn:Hi; [|lia].
    rewrite (fetchLinkData_resume_ajax r _ (mounted_with_ajax _ t Hm)).
    cbn [ajax with_ajax]. rewrite length_delete by eauto. lia.
  - destruct (timers t) as [|cb rest] eqn:Ht; [lia|].
    destruct (state t) eqn:Hs; [reflexivity|].
    pose proof Hm as (_ & _ & _ & Hok & _). rewrite Ht in Hok.
    apply Forall_cons_1 in Hok as [Hcb Hrest].
    rewrite (exec_raise _ _ _ _
               (run_callback_in_view cb (with_timers rest t)
                  (mounted_with_timers rest t Hm Hrest) Hs)).
    cbn [ajax with_timers]. lia.
Qed.

Lemma has_keys_VObj (m : obj) : has_keys (VObj m) = true ↔ m ≠ ∅.
Proof.
  unfold has_keys, Object_keys_length.
  destruct (size m) as [|n] eqn:E.
  - apply map_size_empty_iff in E. split; [discriminate | congruence].
  - split; [|done]. intros _ ->. by rewrite map_size_empty in E.
Qed.

(** C4: [render] mounts [VIEW], the preview under the container and the
    input holder not, exactly when the loaded metadata has a key, and
    [EDIT], the input holder under the container, otherwise; an empty
    [meta] object therefore mounts [EDIT]. *)
Theorem render_mounts_by_meta :
  ∀ data cfg a ro,
    let t0 := constructor data cfg a ro in
    let t := mount data cfg a ro in
    outcome render t0 = inr wrapper ∧
    _data t = _data t0 ∧
    (state t = VIEW ↔ has_keys (meta (_data t0)) = true) ∧
    (state t = EDIT ↔ has_keys (meta (_data t0)) = false) ∧
    (state t = VIEW → linkContent ∈ childNodes (nodes t) container ∧
                      inputHolder ∉ childNodes (nodes t) container) ∧
    (state t = EDIT → inputHolder ∈ childNodes (nodes t) container ∧
                      input ∈ childNodes (nodes t) inputHolder ∧
                      linkContent ∉ childNodes (nodes t) container) ∧
    (∀ m, field data "meta" = VObj m → (state t = VIEW ↔ m ≠ ∅)) ∧
    (field data "meta" = VObj ∅ → state t = EDIT).
Proof.
  intros data cfg a ro t0 t.
  assert (truthy (meta (_data t0)) = true) as Hmeta by (by apply js_or_truthy).
  destruct (render_spec t0 Hmeta (Forall_nil_2 _)) as (t' & E & Hm & Hd & Hs & _).
  assert (t = t') as -> by apply (exec_run _ _ _ _ E).
  assert (∀ m, field data "meta" = VObj m → meta (_data t0) = VObj m) as Hobj.
  { intros m H. unfold t0, constructor. rewrite set_data_meta, H. reflexivity. }
  split_and!.
  - unfold outcome. by rewrite E.
  - exact Hd.
  - rewrite Hs. destruct (has_keys _); split; congruence.
  - rewrite Hs. destruct (has_keys _); split; congruence.
  - intros H. destruct Hm as (_ & _ & _ & _ & Hm). rewrite H in Hm. exact Hm.
  - intros H. destruct Hm as (_ & Hi & _ & _ & Hm). rewrite H in Hm. tauto.
  - intros m H. rewrite Hs, (Hobj m H), <- has_keys_VObj.
    destruct (has_keys (VObj m)); split; congruence.
  - intros H. rewrite Hs, (Hobj ∅ H). reflexivity.
Qed.

(** C7: the label under the preview is the host name of the stored link
    when the link parses as a URL and the link itself when it does not,
    and [showLinkPreview] returns normally either way. *)
Theorem label_is_hostname_or_link t m s :
  all_created t → truthy m = true → link (_data t) = VStr s →
  outcome (showLinkPreview m) t = inr tt ∧
  textContent (nodes (exec (showLinkPreview m) t)) linkText =
    match URL_hostname s with
    | Some hostname => hostname
    | None => s
    end.
Proof.
  intros Hc Hm Hl.
  destruct (showLinkPreview_spec m t Hc Hm)
    as (t' & E & _ & _ & _ & _ & _ & _ & _ & _ & _ & Ht & _).
  unfold outcome. rewrite (exec_run _ _ _ _ E), E. split; [reflexivity|].
  rewrite Ht, Hl. unfold shown_label, to_text. by rewrite ToString_VStr.
Qed.

(** C8: activated in [VIEW], the settings entry switches to [EDIT]: the
    preview leaves the container, the input holder, with the input in it,
    enters the container, the loaded classes are gone, no request is sent,
    and the stored link and metadata are as they were; activated in
    [EDIT], it is [startFetching] without an event, whose request carries
    the text of the input element. *)
Theorem onActivate_toggles t :
  reachable t →
  (state t = VIEW →
     outcome onActivate t = inr tt ∧
     state (exec onActivate t) = EDIT ∧
     _data (exec onActivate t) = _data t ∧
     (linkContent ∉ childNodes (nodes (exec onActivate t)) container) ∧
     inputHolder ∈ childNodes (nodes (exec onActivate t)) container ∧
     input ∈ childNodes (nodes (exec onActivate t)) inputHolder ∧
     (CSS.containerLoaded ∉ classList (nodes (exec onActivate t)) container) ∧
     (CSS.progressLoaded ∉ classList (nodes (exec onActivate t)) progress) ∧
     ajax (exec onActivate t) = ajax t) ∧
  (state t = EDIT →
     onActivate t = startFetching NoEvent t ∧
     outcome onActivate t = inr tt ∧
     ajax (exec onActivate t) =
       ajax t ++ [{| req_url := endpoint (config t);
                     req_headers := headers (config t);
                     req_data_url := textContent (nodes t) input |}] ∧
     link (_data (exec onActivate t)) =
       js_or (VStr (textContent (nodes t) input)) (link (_data t)) ∧
     meta (_data (exec onActivate t)) = meta (_data t)).
Proof.
  intros Hr. pose proof (reachable_mounted t Hr) as Hm. split; intros Hs.
  - destruct (onActivate_in_view t Hm Hs)
      as (t' & E & Hm' & Hs' & Hd & Hp & Hh & Hl & Hl' & _ & _ & _ & _ & _ & _ & Ha & _).
    destruct Hm' as (_ & Hi & _).
    unfold outcome. rewrite (exec_run _ _ _ _ E), E. by split_and!.
  - destruct (startFetching_spec NoEvent t Hm) as (t' & E & _ & _ & Hd & Ha & _).
    rewrite <- (onActivate_in_edit t Hs) in E.
    split; [by apply onActivate_in_edit|].
    unfold outcome. rewrite (exec_run _ _ _ _ E), E, Hd.
    split_and!; try reflexivity; assumption.
Qed.


(** C2, amended: a fetch of [u] started in [EDIT] and answered with a
    falsy [success] leaves the block in [EDIT] with the error marker set
    and the metadata as before the fetch; the stored link is [u] when [u]
    is not empty, and the link stored before the fetch when [u] is
    empty. *)
Theorem fetch_refused t u o :
  reachable t → state t = EDIT →
  truthy (field o "success") = false →
  let t1 := exec (fetchLinkData u) t in
  let t2 := exec (fetchLinkData_resume (Some (VObj o))) t1 in
  state t2 = EDIT ∧
  error_shown t2 ∧
  link (_data t1) = js_or (VStr u) (link (_data t)) ∧
  link (_data t2) = js_or (VStr u) (link (_data t)) ∧
  (u ≠ "" → link (_data t2) = VStr u) ∧
  (u = "" → link (_data t2) = link (_data t)) ∧
  meta (_data t2) = meta (_data t) ∧
  timers t2 = timers t.
Proof.
  intros Hr He Hs. cbv zeta.
  pose proof (reachable_mounted t Hr) as Hm.
  destruct (fetchLinkData_mounted u t Hm) as (t1 & E1 & Hm1 & Hs1 & Hd1 & _ & _ & Ht1 & _).
  rewrite (exec_run _ _ _ _ E1).
  assert (failure (Some (VObj o))) as Hf.
  { apply failure_refused. right. exists (field o "success"). by split. }
  destruct (fetchLinkData_resume_failed _ t1 Hm1 Hf)
    as (t2 & E2 & _ & Hs2 & Hd2 & Herr & _ & _ & _ & Ht2).
  rewrite (exec_run _ _ _ _ E2).
  cbn in Hd2. rewrite Hs in Hd2. rewrite Hd2, Hd1. cbn [link meta].
  split_and!; try reflexivity; try assumption.
  - rewrite (shape_state _ _ Hs2), (shape_state _ _ Hs1). exact He.
  - intros Hu. by apply js_or_VStr.
  - by intros ->.
  - congruence.
Qed.

(** C3, amended: a response with a truthy [success] and a falsy or
    missing [meta] is reported with the wrong-format message, leaves the
    block in [EDIT] with the error marker set and schedules nothing; the
    stored metadata is what it was before the fetch, hence the empty
    object only when it was empty before. *)
Theorem fetch_malformed t u o :
  reachable t → state t = EDIT →
  truthy (field o "success") = true → truthy (field o "meta") = false →
  let t1 := exec (fetchLinkData u) t in
  let t2 := exec (fetchLinkData_resume (Some (VObj o))) t1 in
  notifier t2 =
    notifier t ++ [{| message := i18n_t (api t) "Wrong response format from the server";
                      style := "error" |}] ∧
  state t2 = EDIT ∧
  error_shown t2 ∧
  meta (_data t2) = meta (_data t) ∧
  (meta (_data t) = VObj ∅ → meta (_data t2) = VObj ∅) ∧
  timers t2 = timers t.
Proof.
  intros Hr He Hs Hmeta. cbv zeta.
  pose proof (reachable_mounted t Hr) as Hm.
  destruct (fetchLinkData_mounted u t Hm)
    as (t1 & E1 & Hm1 & Hs1 & Hd1 & _ & Hn1 & Ht1 & Ha1).
  rewrite (exec_run _ _ _ _ E1).
  destruct (fetchLinkData_resume_failed _ t1 Hm1 (failure_malformed o Hs Hmeta))
    as (t2 & E2 & _ & Hs2 & Hd2 & Herr & _ & Hn2 & _ & Ht2).
  rewrite (exec_run _ _ _ _ E2).
  cbn in Hd2, Hn2. rewrite Hs in Hd2, Hn2.
  assert (meta (_data t2) = meta (_data t)) as Hd.
  { rewrite Hd2. unfold fetched. cbn [_data with_data meta].
    rewrite (js_or_falsy_l _ _ Hmeta), Hd1. reflexivity. }
  split_and!; try assumption.
  - rewrite Hn2, Hn1, Ha1. reflexivity.
  - rewrite (shape_state _ _ Hs2), (shape_state _ _ Hs1). exact He.
  - intros H. by rewrite Hd.
  - congruence.
Qed.

(** C9, amended: the toggle from [VIEW] detaches the preview, attaches
    the input holder and clears the loaded class of the container and of
    the progress bar, and leaves their loading class as it finds it; a
    fetch that fails while the block is in [VIEW] clears the loading
    class of the container and sets the error marker, and switches
    nothing: the block stays in [VIEW] with the preview attached. *)
Theorem view_to_edit t :
  reachable t → state t = VIEW →
  (let t' := exec onActivate t in
   state t' = EDIT ∧
   (linkContent ∉ childNodes (nodes t') container) ∧
   inputHolder ∈ childNodes (nodes t') container ∧
   (CSS.containerLoaded ∉ classList (nodes t') container) ∧
   (CSS.progressLoaded ∉ classList (nodes t') progress) ∧
   (CSS.containerLoading ∈ classList (nodes t') container ↔
    CSS.containerLoading ∈ classList (nodes t) container) ∧
   (CSS.progressLoading ∈ classList (nodes t') progress ↔
    CSS.progressLoading ∈ classList (nodes t) progress)) ∧
  (∀ i r, is_Some (ajax t !! i) → failure r →
     let t' := step (Settled i r) t in
     state t' = VIEW ∧
     linkContent ∈ childNodes (nodes t') container ∧
     (inputHolder ∉ childNodes (nodes t') container) ∧
     (CSS.containerLoading ∉ classList (nodes t') container) ∧
     error_shown t').
Proof.
  intros Hr Hs. pose proof (reachable_mounted t Hr) as Hm. split.
  - destruct (onActivate_in_view t Hm Hs)
      as (t' & E & _ & Hs' & _ & H1 & H2 & H3 & H4 & H5 & H6 & _).
    cbv zeta. rewrite (exec_run _ _ _ _ E). split_and!; assumption.
  - intros i r [q Hq] Hf. cbv zeta. unfold step. rewrite Hq.
    destruct (fetchLinkData_resume_failed r _ (mounted_with_ajax (delete i (ajax t)) t Hm) Hf)
      as (t' & E & Hm' & Hsh & _ & Herr & Hl & _).
    rewrite (exec_run _ _ _ _ E).
    assert (state t' = VIEW) as Hs' by (by rewrite (shape_state _ _ Hsh)).
    destruct Hm' as (_ & _ & _ & _ & Hm'). rewrite Hs' in Hm'.
    destruct Hm' as [Hp Hh]. split_and!; assumption.
Qed.

Lemma reachable_run es t : reachable t → reachable (run es t).
Proof.
  revert t. induction es as [|e es IH]; intros t H; [exact H|].
  apply IH. by apply reachable_step.
Qed.

(** * Further properties of the methods *)

(** ** What no event changes *)

Lemma setup_step e t : setup (step e t) = setup t.
Proof. revert e t. apply unchanged_step; try reflexivity; intros; unchanged. Qed.

Lemma setup_run es t : setup (run es t) = setup t.
Proof. revert es t. apply unchanged_run, setup_step. Qed.

(** X1: no event changes what the constructor and [render] set up: the
    API handle, the read-only flag, the configuration and the registered
    listeners are the same after any sequence of events on any instance,
    also when a handler throws half-way. *)
Theorem events_keep_setup :
  ∀ es t,
    api (run es t) = api t ∧ readOnly (run es t) = readOnly t ∧
    config (run es t) = config t ∧
    listeners (nodes (run es t)) = listeners (nodes t).
Proof.
  intros es t. pose proof (setup_run es t) as H. unfold setup in H.
  injection H as Ha Hr Hc Hl. by split_and!.
Qed.

(** ** Where the requests go *)

Lemma addressed_push c url t :
  addressed c t →
  addressed c (with_ajax (ajax t ++ [{| req_url := endpoint (config t);
                                        req_headers := headers (config t);
                                        req_data_url := url |}]) t).
Proof.
  intros [Hc Hr]. split; [exact Hc|]. cbn [ajax with_ajax].
  apply Forall_app_2; [exact Hr|]. apply Forall_cons_2; [|constructor].
  cbn. by rewrite Hc.
Qed.

Lemma addressed_step c e t : addressed c t → addressed c (step e t).
Proof.
  revert e t. apply preserved_step.
  - intros l t [Hc Hr] _. split; [exact Hc|]. cbn [ajax with_ajax].
    by apply Forall_delete.
  - intros cb l t H _. exact H.
  - intros. preserved.
  - intros. preserved. apply preserved_modify. intros t. apply addressed_push.
  - preserved. apply preserved_modify. intros t. apply addressed_push.
  - intros. preserved.
  - intros. preserved.
Qed.

Lemma addressed_mount data cfg a ro :
  addressed {| endpoint := js_or (field cfg "endpoint") (VStr "");
               headers := js_or (field cfg "headers") (VObj ∅) |}
            (mount data cfg a ro).
Proof.
  unfold mount.
  destruct (render_spec (constructor data cfg a ro))
    as (t' & E & _ & _ & _ & _ & Ha & _ & _ & _ & Hc).
  - apply js_or_truthy. reflexivity.
  - constructor.
  - rewrite (exec_run _ _ _ _ E). split; [by rewrite Hc|]. rewrite Ha. constructor.
Qed.

(** X2: every request the block ever issues goes to the endpoint and with
    the headers its configuration named when it was constructed, [''] and
    [{}] when the configuration named none. *)
Theorem requests_follow_config :
  ∀ data cfg a ro es,
    let t := run es (mount data cfg a ro) in
    config t = {| endpoint := js_or (field cfg "endpoint") (VStr "");
                  headers := js_or (field cfg "headers") (VObj ∅) |} ∧
    Forall (λ r, req_url r = js_or (field cfg "endpoint") (VStr "") ∧
                 req_headers r = js_or (field cfg "headers") (VObj ∅)) (ajax t).
Proof.
  intros data cfg a ro es.
  exact (preserved_run _ (addressed_step _) es _ (addressed_mount data cfg a ro)).
Qed.

(** ** What [render] sets up for good *)

Lemma fittings_step e t : fittings (step e t) = fittings t.
Proof. revert e t. apply unchanged_step; try reflexivity; intros; fitted. Qed.

Lemma readOnly_render : unchanged_by readOnly render.
Proof. unchanged. Qed.

(** The listeners and attributes of a block, whatever happened since it
    was rendered. *)
Lemma button_step e t :
  button ∈ childNodes (nodes t) inputHolder →
  button ∈ childNodes (nodes (step e t)) inputHolder.
Proof.
  revert e t.
  apply (preserved_step (λ t, button ∈ childNodes (nodes t) inputHolder));
    try (intros; assumption); intros; stays.
Qed.

Lemma run_built data cfg a ro es :
  let t := run es (mount data cfg a ro) in
  readOnly t = ro ∧
  (∀ n, listeners (nodes t) n = registered ro n) ∧
  button ∈ childNodes (nodes t) inputHolder ∧
  props (nodes t) input !! "contentEditable" = Some (if ro then "false" else "true") ∧
  props (nodes t) linkContent !! "target" = Some "_blank" ∧
  props (nodes t) linkContent !! "rel" = Some "nofollow noindex noreferrer".
Proof.
  cbv zeta.
  pose proof (setup_run es (mount data cfg a ro)) as Hs.
  pose proof (unchanged_run fittings fittings_step es (mount data cfg a ro)) as Hf.
  unfold setup, fittings in Hs, Hf. injection Hs as _ Hr _ Hl. injection Hf as Hi Ht Hrel.
  rewrite Hr, Hl, Hi, Ht, Hrel. unfold mount.
  destruct (render_built (constructor data cfg a ro)) as (Bl & Bb & _ & Bc & Bt & Br).
  rewrite readOnly_render. split_and!; try assumption; try reflexivity.
  by apply (preserved_run _ button_step).
Qed.

(** X3: a block rendered in read-only mode has no listeners and an input
    that cannot be edited, and stays so: typing, clicking, pasting and
    key presses leave it exactly as it is. *)
Theorem read_only_block_is_inert :
  ∀ data cfg a es,
    let t := run es (mount data cfg a true) in
    (∀ n, listeners (nodes t) n = []) ∧
    props (nodes t) input !! "contentEditable" = Some "false" ∧
    (∀ e, user_event e = true → step e t = t).
Proof.
  intros data cfg a es.
  destruct (run_built data cfg a true es) as (Hr & Hl & _ & Hc & _).
  cbv zeta. split_and!; [exact Hl | exact Hc |].
  intros e He. destruct e as [text| |text|k| |i r| ]; try discriminate; unfold step, listens.
  - by rewrite Hr.
  - by rewrite Hl.
  - by rewrite Hl.
  - by rewrite Hl.
Qed.

(** X4: the preview anchor opens in a new tab and carries [rel="nofollow
    noindex noreferrer"] from [render] on; no method removes or changes
    either attribute. *)
Theorem preview_anchor_attributes :
  ∀ data cfg a ro es,
    let t := run es (mount data cfg a ro) in
    props (nodes t) linkContent !! "target" = Some "_blank" ∧
    props (nodes t) linkContent !! "rel" = Some "nofollow noindex noreferrer".
Proof.
  intros data cfg a ro es.
  destruct (run_built data cfg a ro es) as (_ & _ & _ & _ & Ht & Hr). by split.
Qed.

(** ** Saving and loading *)

Lemma stored_ok_set_data (d : obj) t :
  stored_ok t →
  stored_ok (with_data {| link := js_or (field d "link") (link (_data t));
                          meta := js_or (field d "meta") (meta (_data t)) |} t).
Proof.
  intros [Hm Hl]. split; cbn [_data with_data link meta].
  - by apply js_or_truthy.
  - unfold js_or. destruct (truthy (field d "link")) eqn:E; [by left | exact Hl].
Qed.

Ltac stored :=
  preserved;
  try (apply preserved_modify; let t := fresh "t" in intros t; apply stored_ok_set_data).

Lemma stored_ok_step e t : stored_ok t → stored_ok (step e t).
Proof.
  revert e t. apply preserved_step; try (intros; assumption); intros; stored.
Qed.

Lemma data_render : unchanged_by _data render.
Proof. unchanged. Qed.

Lemma stored_ok_mount data cfg a ro : stored_ok (mount data cfg a ro).
Proof.
  unfold mount, stored_ok. rewrite data_render.
  apply (stored_ok_set_data data), (conj eq_refl). by right.
Qed.

Lemma field_link_saved d : field (saved_as d) "link" = link d.
Proof. unfold field, saved_as. by rewrite lookup_insert_eq. Qed.

Lemma field_meta_saved d : field (saved_as d) "meta" = meta d.
Proof.
  unfold field, saved_as. rewrite lookup_insert_ne by done.
  by rewrite lookup_singleton_eq.
Qed.

Lemma reachable_stored t : reachable t → stored_ok t.
Proof.
  induction 1 as [data cfg a ro|e t _ IH];
    [apply stored_ok_mount | by apply stored_ok_step].
Qed.

(** Loading what was saved. *)
Lemma load_saved d cfg a ro :
  truthy (meta d) = true → truthy (link d) = true ∨ link d = VStr "" →
  _data (mount (saved_as d) cfg a ro) = d ∧
  state (mount (saved_as d) cfg a ro) = (if has_keys (meta d) then VIEW else EDIT).
Proof.
  intros Hm Hl.
  assert (_data (constructor (saved_as d) cfg a ro) = d) as Hd.
  { unfold constructor.
    change (_data (exec (set_data ?x) ?t0)) with
      {| link := js_or (field x "link") (link (_data t0));
         meta := js_or (field x "meta") (meta (_data t0)) |}.
    rewrite field_link_saved, field_meta_saved, (js_or_truthy_l _ _ Hm).
    cbn [_data link meta]. destruct d as [l m]. cbn [link meta] in *. f_equal.
    destruct Hl as [Hl| ->]; [by apply js_or_truthy_l | reflexivity]. }
  unfold mount.
  destruct (render_spec (constructor (saved_as d) cfg a ro))
    as (t2 & E & _ & Hd2 & Hs & _).
  - by rewrite Hd.
  - constructor.
  - rewrite (exec_run _ _ _ _ E), Hd2, Hs, Hd. by split.
Qed.

(** X5: what [save()] returns loads back unchanged.  Whatever happened to
    a block, a block constructed from its saved data and rendered stores
    the same link and metadata, and is in [VIEW] exactly when the saved
    metadata has a key. *)
Theorem save_then_load :
  ∀ data cfg a ro es cfg' a' ro',
    let t := run es (mount data cfg a ro) in
    let t' := mount (saved_as (_data t)) cfg' a' ro' in
    outcome save t = inr (_data t) ∧
    exec save t = t ∧
    _data t' = _data t ∧
    (state t' = VIEW ↔ has_keys (meta (_data t)) = true).
Proof.
  intros data cfg a ro es cfg' a' ro'. cbv zeta.
  set (t := run es (mount data cfg a ro)).
  assert (stored_ok t) as [Hm Hl].
  { apply (preserved_run _ stored_ok_step), stored_ok_mount. }
  destruct (load_saved (_data t) cfg' a' ro' Hm Hl) as [Hd Hs].
  split_and!; try reflexivity; [exact Hd|].
  rewrite Hs. destruct (has_keys (meta (_data t))); split; congruence.
Qed.

(** ** The state and the elements *)

Lemma mounted_run data cfg a ro es : mounted (run es (mount data cfg a ro)).
Proof. apply reachable_mounted, reachable_run, reachable_mount. Qed.

(** X6: the state field and the elements agree, whatever happened to the
    block: the preview is under the container exactly in [VIEW], the
    input holder exactly in [EDIT], never both, the input never leaves
    its holder, and the settings entry is active exactly while the input
    holder is attached. *)
Theorem state_matches_elements :
  ∀ data cfg a ro es,
    let t := run es (mount data cfg a ro) in
    (state t = VIEW ↔ linkContent ∈ childNodes (nodes t) container) ∧
    (state t = EDIT ↔ inputHolder ∈ childNodes (nodes t) container) ∧
    ¬ (linkContent ∈ childNodes (nodes t) container ∧
       inputHolder ∈ childNodes (nodes t) container) ∧
    input ∈ childNodes (nodes t) inputHolder ∧
    outcome renderSettings t =
      inr [{| name := "edit-url"; label := "Edit URL"; toggle := "edit";
              isActive := bool_decide (inputHolder ∈ childNodes (nodes t) container) |}].
Proof.
  intros data cfg a ro es. cbv zeta.
  destruct (mounted_run data cfg a ro es) as (_ & Hi & _ & _ & Hs).
  set (t := run es (mount data cfg a ro)) in *.
  assert (state t = EDIT ↔ inputHolder ∈ childNodes (nodes t) container) as He.
  { destruct (state t); split; intros; try tauto; try discriminate. }
  split_and!; try assumption.
  - destruct (state t); split; intros; try tauto; try discriminate.
  - destruct (state t); tauto.
  - unfold outcome, renderSettings, bind, gets, ret; cbn.
    do 3 f_equal. by apply bool_decide_ext.
Qed.

(** X7: detaching what is not attached throws.  In [VIEW] the callback of
    an accepted response (and [hideInputHolder] on its own) throws
    [NotFoundError] and leaves the block as it is, so a second accepted
    response never re-renders the preview; in [EDIT] the same holds of
    [changeState(EDIT)] and [hideLinkPreview]. *)
Theorem detaching_the_detached_throws :
  ∀ data cfg a ro es,
    let t := run es (mount data cfg a ro) in
    (state t = VIEW →
       hideInputHolder t = (inl NotFoundError, t) ∧
       (∀ cb, run_callback cb t = (inl NotFoundError, t)) ∧
       (∀ cb rest, timers t = cb :: rest → step Timeout t = with_timers rest t)) ∧
    (state t = EDIT →
       hideLinkPreview t = (inl NotFoundError, t) ∧
       changeState EDIT t = (inl NotFoundError, t)).
Proof.
  intros data cfg a ro es. cbv zeta.
  pose proof (mounted_run data cfg a ro es) as Hm.
  set (t := run es (mount data cfg a ro)) in *.
  pose proof Hm as (Hc & _ & _ & Hok & Hs).
  split; intros Hv; rewrite Hv in Hs; destruct Hs as [Hin Hout].
  - split_and!.
    + apply run_removeChild_missing; auto.
    + intros cb. by apply run_callback_in_view.
    + intros cb rest Ht. unfold step. rewrite Ht.
      rewrite Ht in Hok. apply Forall_cons_1 in Hok as [_ Hrest].
      apply (exec_raise _ _ NotFoundError), run_callback_in_view; [|exact Hv].
      by apply mounted_with_timers.
  - assert (hideLinkPreview t = (inl NotFoundError, t)) as H.
    { apply run_removeChild_missing; auto. }
    split; [exact H|]. unfold changeState. by apply bind_raise.
Qed.

(** X8: before [render()] the elements are [null]: starting a fetch, the
    settings entry and [changeState] throw [TypeError] and leave the
    instance untouched, [fetchLinkData] issues no request and stores no
    link, and [showLinkPreview] throws after it has set the state to
    [VIEW]; [save()] works. *)
Theorem methods_before_render :
  ∀ data cfg a ro,
    let t := constructor data cfg a ro in
    (∀ event, startFetching event t = (inl TypeError, t)) ∧
    onActivate t = (inl TypeError, t) ∧
    changeState EDIT t = (inl TypeError, t) ∧
    (∀ url, fetchLinkData url t = (inl TypeError, t)) ∧
    (∀ m, truthy m = true → showLinkPreview m t = (inl TypeError, with_state VIEW t)) ∧
    outcome save t = inr (_data t).
Proof.
  intros data cfg a ro t. split_and!; try reflexivity.
  intros m Hm.
  destruct (get_prop_truthy m "image" Hm) as [image Himage].
  destruct (get_prop_truthy m "title" Hm) as [title Htitle].
  destruct (get_prop_truthy m "description" Hm) as [description Hdescription].
  unfold showLinkPreview. rewrite Himage, Htitle, Hdescription. reflexivity.
Qed.

(** X9: a block rendered for editing listens for a click on the button
    and for a paste and a key press in the input, once each and for
    good.  While the block is in [EDIT] each of them starts a fetch, the
    paste with the clipboard text and ENTER with the text of the input;
    while it is in [VIEW] the input holder is detached and none of them
    reaches the block. *)
Theorem editable_block_listens :
  ∀ data cfg a es,
    let t := run es (mount data cfg a false) in
    listeners (nodes t) button = ["click"] ∧
    listeners (nodes t) input = ["paste"; "keydown"] ∧
    props (nodes t) input !! "contentEditable" = Some "true" ∧
    (state t = EDIT →
       step Click t = exec (startFetching MouseEvent) t ∧
       (∀ clip, step (Paste clip) t = exec (startFetching (PasteEvent clip)) t) ∧
       step (Keydown 13) t = exec (startFetching KeyboardEvent) t ∧
       (∀ k, k ≠ 13%Z → step (Keydown k) t = t)) ∧
    (state t = VIEW → ∀ e, user_event e = true → step e t = t).
Proof.
  intros data cfg a es.
  destruct (run_built data cfg a false es) as (Hr & Hl & Hb & Hc & _).
  pose proof (mounted_run data cfg a false es) as (_ & Hi & _ & _ & Hs).
  cbv zeta. set (t := run es (mount data cfg a false)) in *.
  split_and!; [apply Hl | apply Hl | exact Hc | |].
  - intros He. rewrite He in Hs. destruct Hs as [Hh _].
    assert (∀ n, n ∈ childNodes (nodes t) inputHolder → in_holder n t = true) as Hin.
    { intros n Hn. unfold in_holder. by rewrite !bool_decide_eq_true_2. }
    unfold step, listens. rewrite !Hl, !Hin by assumption. cbn [registered].
    split_and!; try reflexivity.
    intros k Hk. rewrite bool_decide_eq_true_2 by (apply elem_of_list_here || set_solver).
    cbn [andb]. unfold on_keydown. by rewrite (proj2 (Z.eqb_neq k 13) Hk).
  - intros Hv e He. rewrite Hv in Hs. destruct Hs as [_ Hh].
    assert (∀ n, in_holder n t = false) as Hout.
    { intros n. unfold in_holder. rewrite (bool_decide_eq_false_2 (inputHolder ∈ _)) by done.
      apply andb_false_r. }
    destruct e as [text| |text|k| |i r| ]; try discriminate; unfold step, listens;
      rewrite !Hout, ?andb_false_r; reflexivity.
Qed.

(** ** Responses *)

(** X10: on a rendered block every settled request is handled without an
    exception, whatever the response: the container's loading class is
    cleared, the state and the outstanding requests stay, and either the
    response is a failure, reported by exactly one notification with the
    error marker set and no timer armed, or it is accepted, with no
    notification and exactly one timer armed for the preview. *)
Theorem every_response_is_handled :
  ∀ data cfg a ro es r,
    let t := run es (mount data cfg a ro) in
    let t' := exec (fetchLinkData_resume r) t in
    outcome (fetchLinkData_resume r) t = inr tt ∧
    (CSS.containerLoading ∉ classList (nodes t') container) ∧
    state t' = state t ∧ ajax t' = ajax t ∧
    ((failure r ∧
      notifier t' = notifier t ++ [{| message := failure_message (api t) r;
                                      style := "error" |}] ∧
      timers t' = timers t ∧ error_shown t') ∨
     (∃ o, r = Some (VObj o) ∧
           truthy (field o "success") = true ∧ truthy (field o "meta") = true ∧
           notifier t' = notifier t ∧
           timers t' = timers t ++ [ThenShowPreview (field o "meta")] ∧
           CSS.containerLoaded ∈ classList (nodes t') container)).
Proof.
  intros data cfg a ro es r. cbv zeta.
  pose proof (mounted_run data cfg a ro es) as Hm.
  set (t := run es (mount data cfg a ro)) in *.
  destruct (settled_cases r) as [(o & -> & Hs & Hmeta)|Hf].
  - destruct (fetched_advances o t Hm) as [Hm' _].
    destruct (hideProgress_spec (ThenShowPreview (field o "meta")) (fetched o t) (proj1 Hm'))
      as (t' & E & _ & Hsh & _ & Ht & Hl & Hd & _ & _ & _ & Hn & Ha & _).
    assert (fetchLinkData_resume (Some (VObj o)) t = (inr tt, t')) as E'.
    { apply fetchLinkData_resume_body. by rewrite onFetch_accepted. }
    unfold outcome. rewrite (exec_run _ _ _ _ E'), E'.
    split_and!; try reflexivity; try assumption.
    + apply (shape_state _ _ Hsh).
    + right. exists o. by split_and!.
  - destruct (fetchLinkData_resume_failed r t Hm Hf)
      as (t' & E & _ & Hsh & _ & Herr & Hl & Hn & Ha & Ht).
    unfold outcome. rewrite (exec_run _ _ _ _ E), E.
    split_and!; try reflexivity; try assumption.
    + apply (shape_state _ _ Hsh).
    + left. by split_and!.
Qed.

(** X11: a request the transport rejects is reported as
    ["Couldn't fetch the link data"], translated, and changes neither the
    stored data nor the state: the link stays the one stored when the
    fetch started. *)
Theorem rejected_request :
  ∀ data cfg a ro es,
    let t := run es (mount data cfg a ro) in
    let t' := exec (fetchLinkData_resume None) t in
    notifier t' = notifier t ++ [{| message := i18n_t (api t) "Couldn't fetch the link data";
                                    style := "error" |}] ∧
    _data t' = _data t ∧ state t' = state t ∧ error_shown t' ∧
    timers t' = timers t.
Proof.
  intros data cfg a ro es. cbv zeta.
  pose proof (mounted_run data cfg a ro es) as Hm.
  set (t := run es (mount data cfg a ro)) in *.
  destruct (fetchLinkData_resume_failed None t Hm failure_transport)
    as (t' & E & _ & Hsh & Hd & Herr & _ & Hn & _ & Ht).
  rewrite (exec_run _ _ _ _ E). split_and!; try assumption.
  apply (shape_state _ _ Hsh).
Qed.

(** X12: responses are not matched to requests.  When a second fetch is
    started before the first has settled, an accepted response without a
    [link] is stored under the address of the second fetch, whichever
    request it answers. *)
Theorem response_stored_under_latest_url t u1 u2 o :
  reachable t → u2 ≠ "" →
  truthy (field o "success") = true → truthy (field o "meta") = true →
  truthy (field o "link") = false →
  let t2 := exec (fetchLinkData u2) (exec (fetchLinkData u1) t) in
  let t3 := exec (fetchLinkData_resume (Some (VObj o))) t2 in
  req_data_url <$> ajax t2 = (req_data_url <$> ajax t) ++ [u1; u2] ∧
  _data t3 = {| link := VStr u2; meta := field o "meta" |}.
Proof.
  intros Hr Hu Hs Hmeta Hl. cbv zeta.
  pose proof (reachable_mounted t Hr) as Hm.
  destruct (fetchLinkData_mounted u1 t Hm) as (t1 & E1 & Hm1 & _ & Hd1 & Ha1 & _).
  rewrite (exec_run _ _ _ _ E1).
  destruct (fetchLinkData_mounted u2 t1 Hm1) as (t2 & E2 & Hm2 & _ & Hd2 & Ha2 & _).
  rewrite (exec_run _ _ _ _ E2).
  destruct (fetchLinkData_resume_accepted o t2 Hm2 Hs Hmeta) as (t3 & E3 & _ & _ & Hd3 & _).
  rewrite (exec_run _ _ _ _ E3). split.
  - rewrite Ha2, Ha1, !fmap_app, <- app_assoc. reflexivity.
  - rewrite Hd3. unfold fetched. cbn [_data with_data]. rewrite Hd2. cbn [link meta].
    rewrite (js_or_VStr u2) by exact Hu.
    rewrite (js_or_falsy_l _ _ Hl), (js_or_truthy_l _ _ Hmeta).
    by rewrite (js_or_VStr u2).
Qed.

(** X13: [validate] after a fetch has started.  Once a fetch of a
    non-empty [u] was started, [validate] answers whether [u] has a
    character that is not white space, before any response and after a
    rejected request or a refused response. *)
Theorem validate_after_fetch t u r :
  reachable t → u ≠ "" →
  r = None ∨ (∃ o, r = Some (VObj o) ∧ truthy (field o "success") = false) →
  let t1 := exec (fetchLinkData u) t in
  let t2 := exec (fetchLinkData_resume r) t1 in
  outcome validate t1 = inr (negb (all_white_space u)) ∧
  outcome validate t2 = inr (negb (all_white_space u)).
Proof.
  intros Hr Hu Hf. cbv zeta.
  pose proof (reachable_mounted t Hr) as Hm.
  destruct (fetchLinkData_mounted u t Hm) as (t1 & E1 & Hm1 & _ & Hd1 & _).
  rewrite (exec_run _ _ _ _ E1).
  assert (failure r ∧ failure_data r t1 = _data t1) as [Hf' Hfd].
  { destruct Hf as [->|(o & -> & Hs)]; [split; [constructor | reflexivity]|].
    split; [|cbn; by rewrite Hs].
    apply failure_refused. right. exists (field o "success"). by split. }
  destruct (fetchLinkData_resume_failed r t1 Hm1 Hf') as (t2 & E2 & _ & _ & Hd2 & _).
  rewrite (exec_run _ _ _ _ E2).
  assert (∀ s, link (_data s) = VStr u → outcome validate s = inr (negb (all_white_space u)))
    as Hv.
  { intros s Hs. unfold outcome, validate, get_data, bind, gets. cbn. rewrite Hs. cbn.
    do 2 f_equal. destruct (String.eqb_spec (trim u) "") as [E|E].
    - symmetry. by apply trim_empty.
    - destruct (all_white_space u) eqn:Hw; [|reflexivity].
      by apply trim_empty in Hw. }
  assert (link (_data t1) = VStr u) as Hl1.
  { rewrite Hd1. cbn [link]. by apply js_or_VStr. }
  split; apply Hv; [exact Hl1|]. by rewrite Hd2, Hfd.
Qed.

(** X14: [validate] throws on a stored link that is not a string, which is
    what an accepted response whose [link] is a truthy non-string
    leaves. *)
Theorem validate_throws_on_foreign_link t o l :
  reachable t →
  truthy (field o "success") = true → truthy (field o "meta") = true →
  field o "link" = l → truthy l = true → (∀ s, l ≠ VStr s) →
  let t' := exec (fetchLinkData_resume (Some (VObj o))) t in
  link (_data t') = l ∧ outcome validate t' = inl TypeError.
Proof.
  intros Hr Hs Hmeta Hl Ht Hns. cbv zeta.
  pose proof (reachable_mounted t Hr) as Hm.
  destruct (fetchLinkData_resume_accepted o t Hm Hs Hmeta) as (t' & E & _ & _ & Hd & _).
  rewrite (exec_run _ _ _ _ E).
  assert (link (_data t') = l) as Hl'.
  { rewrite Hd. unfold fetched. cbn [_data with_data link]. rewrite Hl.
    by rewrite !(js_or_truthy_l l). }
  split; [exact Hl'|].
  unfold outcome, validate, get_data, bind, gets. cbn. rewrite Hl'.
  destruct l; try reflexivity. by destruct (Hns s).
Qed.

(** X15: [startFetching] on a rendered block, in either state: it clears
    the error marker, sets the loading class, and hands the transport
    exactly one request, for the clipboard text on a paste and for the
    text of the input on any other event; it shows no notification and
    leaves the state and the metadata alone. *)
Theorem startFetching_sends_one_request :
  ∀ data cfg a ro es event,
    let t := run es (mount data cfg a ro) in
    let t' := exec (startFetching event) t in
    let url := match event with
               | PasteEvent clip => clip
               | _ => textContent (nodes t) input
               end in
    outcome (startFetching event) t = inr tt ∧
    ajax t' = ajax t ++ [{| req_url := endpoint (config t);
                            req_headers := headers (config t);
                            req_data_url := url |}] ∧
    (CSS.containerError ∉ classList (nodes t') container) ∧
    (CSS.inputError ∉ classList (nodes t') inputHolder) ∧
    CSS.containerLoading ∈ classList (nodes t') container ∧
    state t' = state t ∧ meta (_data t') = meta (_data t) ∧
    notifier t' = notifier t ∧ timers t' = timers t.
Proof.
  intros data cfg a ro es event. cbv zeta.
  pose proof (mounted_run data cfg a ro es) as Hm.
  set (t := run es (mount data cfg a ro)) in *.
  destruct (startFetching_spec event t Hm)
    as (t' & E & _ & Hsh & Hd & Ha & He1 & He2 & Hl & _ & _ & Hn & Ht & _).
  unfold outcome. rewrite (exec_run _ _ _ _ E), E, Hd.
  split_and!; try reflexivity; try assumption.
  apply (shape_state _ _ Hsh).
Qed.

(** ** The error marker and the progress bar *)

Lemma fetchingFailed_children msg t p :
  all_created t →
  childNodes (nodes (exec (fetchingFailed msg) t)) p =
  filter (λ x, x ≠ progress) (childNodes (nodes t) p).
Proof.
  intros Hc. unfold exec. run_as (fetchingFailed msg) t r t'.
  unfold fetchingFailed, applyErrorStyle. run. ran. cbn [snd]. read_dom. reflexivity.
Qed.

Lemma startFetching_children event t :
  mounted t →
  childNodes (nodes (exec (startFetching event) t)) inputHolder =
  insert_before progress input
    (filter (λ x, x ≠ progress) (childNodes (nodes t) inputHolder)).
Proof.
  intros (Hc & Hi & _). unfold exec. run_as (startFetching event) t r t'.
  unfold startFetching, removeErrorStyle, fetchLinkData, showProgress, set_data.
  run. ran. cbn [snd]. read_dom. cbn. apply fn_lookup_insert.
Qed.

Lemma insert_before_at (new ref : node) l :
  ref ∈ l → ∃ l1 l2, insert_before new ref l = l1 ++ new :: ref :: l2 ∧ l = l1 ++ ref :: l2.
Proof.
  induction l as [|x l IH]; [by intros ?%elem_of_nil|].
  intros Hin. cbn. destruct (decide (x = ref)) as [->|Hne].
  - by exists [], l.
  - apply elem_of_cons in Hin as [->|Hin]; [done|].
    destruct (IH Hin) as (l1 & l2 & -> & ->). by exists (x :: l1), l2.
Qed.

(** X16: the progress bar leaves and comes back.  A failed fetch sets the
    error marker and takes the progress bar out of the document; the
    next [startFetching] clears the marker and puts the bar back in the
    input holder, immediately before the input. *)
Theorem progress_bar_comes_back :
  ∀ data cfg a ro es msg event,
    let t := run es (mount data cfg a ro) in
    let t1 := exec (fetchingFailed msg) t in
    let t2 := exec (startFetching event) t1 in
    error_shown t1 ∧
    (∀ p, progress ∉ childNodes (nodes t1) p) ∧
    (CSS.containerError ∉ classList (nodes t2) container) ∧
    (CSS.inputError ∉ classList (nodes t2) inputHolder) ∧
    (∃ l1 l2, childNodes (nodes t2) inputHolder = l1 ++ progress :: input :: l2).
Proof.
  intros data cfg a ro es msg event. cbv zeta.
  pose proof (mounted_run data cfg a ro es) as Hm.
  set (t := run es (mount data cfg a ro)) in *.
  pose proof (fetchingFailed_advances msg t Hm) as [Hm1 _].
  pose proof (fetchingFailed_children msg t) as Hch.
  destruct (fetchingFailed_spec msg t (proj1 Hm)) as (t1 & E1 & _ & _ & _ & Herr & _).
  rewrite (exec_run _ _ _ _ E1) in *.
  pose proof (startFetching_children event t1 Hm1) as Hch2.
  destruct (startFetching_spec event t1 Hm1) as (t2 & E2 & _ & _ & _ & _ & He1 & He2 & _).
  rewrite (exec_run _ _ _ _ E2) in *.
  split_and!; try assumption.
  - intros p. rewrite Hch by apply Hm. rewrite list_elem_of_filter. tauto.
  - rewrite Hch2.
    destruct (insert_before_at progress input
                (filter (λ x, x ≠ progress) (childNodes (nodes t1) inputHolder)))
      as (l1 & l2 & -> & _); [|eauto].
    apply list_elem_of_filter. split; [discriminate | apply Hm1].
Qed.

(** ** The input's text *)

Lemma input_text_handlers :
  let p := λ t : LinkTool, textContent (nodes t) input in
  (∀ event, unchanged_by p (startFetching event)) ∧
  unchanged_by p onActivate ∧
  (∀ r, unchanged_by p (fetchLinkData_resume r)) ∧
  (∀ cb, unchanged_by p (run_callback cb)).
Proof. intros p. split_and!; intros; unchanged. Qed.

Lemma input_text_step e t :
  typing e = false →
  textContent (nodes (step e t)) input = textContent (nodes t) input.
Proof.
  destruct input_text_handlers as (Hstart & Hact & Hres & Hcb).
  intros He. destruct e as [text| |text|k| |i r| ]; try discriminate; unfold step.
  - destruct (listens button "click" t); [apply Hstart | reflexivity].
  - destruct (listens input "keydown" t); [|reflexivity].
    unfold on_keydown. destruct (k =? 13)%Z; [apply Hstart | reflexivity].
  - apply Hact.
  - destruct (ajax t !! i); [|reflexivity]. apply (Hres r (with_ajax _ t)).
  - destruct (timers t) as [|cb rest]; [reflexivity|].
    apply (Hcb cb (with_timers rest t)).
Qed.

(** X17: the block never writes the text of its input.  [render] leaves
    the input empty, also when the block is loaded with a saved link, and
    neither a fetch, nor the settings entry, nor a response, nor the
    timer changes the text; so the input of a block shows the empty
    string until the user has typed or pasted. *)
Theorem input_text_is_the_users :
  ∀ data cfg a ro,
    textContent (nodes (mount data cfg a ro)) input = "" ∧
    (∀ event t, textContent (nodes (exec (startFetching event) t)) input =
                textContent (nodes t) input) ∧
    (∀ t, textContent (nodes (exec onActivate t)) input = textContent (nodes t) input) ∧
    (∀ r t, textContent (nodes (exec (fetchLinkData_resume r) t)) input =
            textContent (nodes t) input) ∧
    (∀ cb t, textContent (nodes (exec (run_callback cb) t)) input =
             textContent (nodes t) input) ∧
    (∀ es, forallb (λ e, negb (typing e)) es = true →
           textContent (nodes (run es (mount data cfg a ro))) input = "").
Proof.
  intros data cfg a ro.
  destruct input_text_handlers as (Hstart & Hact & Hres & Hcb).
  destruct (render_built (constructor data cfg a ro)) as (_ & _ & Ht & _).
  split_and!; [exact Ht | exact Hstart | exact Hact | exact Hres | exact Hcb |].
  intros es. change (exec render (constructor data cfg a ro)) with (mount data cfg a ro) in Ht.
  revert Ht. generalize (mount data cfg a ro).
  induction es as [|e es IH]; intros t Ht Hes; [exact Ht|].
  cbn in Hes. apply andb_true_iff in Hes as [He%negb_true_iff Hes].
  change (run (e :: es) t) with (run es (step e t)).
  apply IH; [|exact Hes]. by rewrite input_text_step.
Qed.

(** X18: a response with an empty [meta] object is accepted, since [{}] is
    truthy: the block goes to [VIEW] and stores the empty metadata, yet
    the same block loaded again from what it saves renders in [EDIT]. *)
Theorem empty_meta_is_shown_once t u o :
  reachable t → state t = EDIT →
  truthy (field o "success") = true → field o "meta" = VObj ∅ →
  let t1 := exec (fetchLinkData u) t in
  let t2 := exec (fetchLinkData_resume (Some (VObj o))) t1 in
  let t3 := exec (run_callback (ThenShowPreview (VObj ∅))) t2 in
  state t3 = VIEW ∧ meta (_data t3) = VObj ∅ ∧
  ∀ cfg a ro, state (mount (saved_as (_data t3)) cfg a ro) = EDIT.
Proof.
  intros Hr He Hs Hmeta. cbv zeta.
  pose proof (reachable_mounted t Hr) as Hm.
  assert (stored_ok (exec (run_callback (ThenShowPreview (VObj ∅)))
                       (exec (fetchLinkData_resume (Some (VObj o)))
                          (exec (fetchLinkData u) t)))) as Hok.
  { assert (preserved_by stored_ok (run_callback (ThenShowPreview (VObj ∅)))) as P3 by stored.
    assert (preserved_by stored_ok (fetchLinkData_resume (Some (VObj o)))) as P2 by stored.
    assert (preserved_by stored_ok (fetchLinkData u)) as P1 by stored.
    by apply P3, P2, P1, reachable_stored. }
  revert Hok.
  destruct (fetchLinkData_mounted u t Hm) as (t1 & E1 & Hm1 & Hs1 & Hd1 & _).
  rewrite (exec_run _ _ _ _ E1).
  assert (truthy (field o "meta") = true) as Htr by (by rewrite Hmeta).
  destruct (fetchLinkData_resume_accepted o t1 Hm1 Hs Htr)
    as (t2 & E2 & Hm2 & Hs2 & Hd2 & _).
  rewrite (exec_run _ _ _ _ E2).
  assert (state t2 = EDIT) as He2.
  { rewrite (shape_state _ _ Hs2), (shape_state _ _ Hs1). exact He. }
  destruct (run_callback_in_edit (VObj ∅) t2 Hm2 He2 eq_refl)
    as (t3 & E3 & _ & Hs3 & Hd3 & _).
  rewrite (exec_run _ _ _ _ E3). intros [Hok1 Hok2].
  assert (meta (_data t3) = VObj ∅) as Hm3.
  { rewrite Hd3, Hd2. unfold fetched. cbn [_data with_data meta]. by rewrite Hmeta. }
  split_and!; [exact Hs3 | exact Hm3 |].
  intros cfg a ro. destruct (load_saved (_data t3) cfg a ro Hok1 Hok2) as [_ ->].
  by rewrite Hm3.
Qed.

(** ** Making elements *)

Lemma check_tokens_None l :
  check_tokens l = None ↔ Forall (λ s, is_token s = true) l.
Proof.
  induction l as [|s l IH]; cbn; [split; [constructor | done]|].
  rewrite Forall_cons, <- IH. unfold is_token.
  destruct (String.eqb s ""); cbn; [split; [discriminate | intros [[=] _]]|].
  destruct (has_space s); cbn; [split; [discriminate | intros [[=] _]] | tauto].
Qed.

Lemma check_tokens_Some l e :
  check_tokens l = Some e → ∃ s, s ∈ l ∧ is_token s = false.
Proof.
  induction l as [|s l IH]; cbn; [discriminate|].
  destruct (String.eqb s "") eqn:E1; cbn.
  - intros _. exists s. split; [by left | unfold is_token; by rewrite E1].
  - destruct (has_space s) eqn:E2; cbn.
    + intros _. exists s. split; [by left | unfold is_token; by rewrite E1, E2].
    + intros (s' & Hin & Hs')%IH. exists s'. split; [by right | exact Hs'].
Qed.

Lemma elem_of_add_tokens (x : string) l acc :
  x ∈ add_tokens l acc ↔ x ∈ l ∨ x ∈ acc.
Proof.
  revert acc. induction l as [|s l IH]; intros acc; cbn.
  - rewrite elem_of_nil. tauto.
  - change (fold_left add_token l (add_token acc s)) with (add_tokens l (add_token acc s)).
    rewrite IH, elem_of_cons. unfold add_token. destruct (decide (s ∈ acc)).
    + split; [tauto|]. intros [[->|?]|?]; auto.
    + rewrite elem_of_app, list_elem_of_singleton. tauto.
Qed.

Lemma NoDup_add_tokens (l acc : list string) : NoDup acc → NoDup (add_tokens l acc).
Proof.
  revert acc. induction l as [|s l IH]; intros acc Hacc; [exact Hacc|].
  apply IH. unfold add_token. destruct (decide (s ∈ acc)); [exact Hacc|].
  apply NoDup_app. split_and!; [exact Hacc | | apply NoDup_singleton].
  intros x Hx ->%list_elem_of_singleton. contradiction.
Qed.

(** X19: called with one of the element names and any of the attributes
    the block passes, [make] gives the element the name it was asked for
    and exactly the class names it was given, each once; [null] and the
    empty string give no class; and it throws exactly when a class name
    it has to add is empty or contains white space. *)
Theorem make_classes :
  ∀ tg cls attributes,
    match make tg cls attributes with
    | inr el =>
        el_localName el = tag_name tg ∧
        NoDup (el_classList el) ∧
        Forall (λ s, is_token s = true) (el_classList el) ∧
        (∀ x, x ∈ el_classList el ↔
              match cls with
              | ClassNull => False
              | ClassName s => x = s ∧ s ≠ ""
              | ClassNames l => x ∈ l
              end)
    | inl _ =>
        match cls with
        | ClassNull => False
        | ClassName s => s ≠ "" ∧ has_space s = true
        | ClassNames l => ∃ s, s ∈ l ∧ is_token s = false
        end
    end.
Proof.
  intros tg cls attributes. unfold make. destruct cls as [|s|l].
  - split_and!; [reflexivity | constructor | constructor |].
    intros x. cbn. by rewrite elem_of_nil.
  - unfold truthy. destruct (String.eqb_spec s "") as [->|Hs]; cbn [negb].
    + split_and!; [reflexivity | constructor | constructor |].
      intros x. cbn. rewrite elem_of_nil. tauto.
    + destruct (check_tokens [s]) as [e|] eqn:E.
      * apply check_tokens_Some in E as (s' & ->%list_elem_of_singleton & Hf).
        split; [exact Hs|]. unfold is_token in Hf.
        destruct (String.eqb_spec s ""); [contradiction|]. cbn in Hf.
        by destruct (has_space s).
      * apply check_tokens_None in E. cbn [el_localName el_classList].
        split_and!; [reflexivity | apply NoDup_add_tokens; constructor | |].
        -- apply Forall_forall. intros x Hx%elem_of_add_tokens.
           destruct Hx as [Hx|Hx%elem_of_nil]; [|done].
           by apply (proj1 (Forall_forall _ _) E).
        -- intros x. rewrite elem_of_add_tokens, list_elem_of_singleton, elem_of_nil.
           split; [intros [->|[]]; by split | tauto].
  - destruct (check_tokens l) as [e|] eqn:E.
    + by apply check_tokens_Some in E.
    + apply check_tokens_None in E. cbn [el_localName el_classList].
      split_and!; [reflexivity | apply NoDup_add_tokens; constructor | |].
      * apply Forall_forall. intros x Hx%elem_of_add_tokens.
        destruct Hx as [Hx|Hx%elem_of_nil]; [|done].
        by apply (proj1 (Forall_forall _ _) E).
      * intros x. rewrite elem_of_add_tokens, elem_of_nil. tauto.
Qed.

(** ** The parts of the preview, on a block *)

(** X20: the first preview shows exactly the parts the metadata has.  A
    block rendered from saved metadata with a key is in [VIEW]; the
    title, the description and the image are under the preview exactly
    when the metadata's [title], [description] and [image.url] are
    truthy; the title and the description then carry that text, and the
    image element the background the CSS parser reads from
    [url(<image.url>)], or none when the parser rejects that text; the
    label is always there, and the anchor points at the saved link. *)
Theorem first_preview_shows_what_is_there data cfg a ro o :
  field data "meta" = VObj o → o ≠ ∅ →
  let t := mount data cfg a ro in
  let title := field o "title" in
  let description := field o "description" in
  let image := field o "image" in
  state t = VIEW ∧
  linkText ∈ childNodes (nodes t) linkContent ∧
  props (nodes t) linkContent !! "href" =
    Some (ToString (js_or (field data "link") (VStr ""))) ∧
  (linkTitle ∈ childNodes (nodes t) linkContent ↔ truthy title = true) ∧
  (truthy title = true → textContent (nodes t) linkTitle = to_text title) ∧
  (linkDescription ∈ childNodes (nodes t) linkContent ↔ truthy description = true) ∧
  (truthy description = true →
     textContent (nodes t) linkDescription = to_text description) ∧
  (linkImage ∈ childNodes (nodes t) linkContent ↔
     truthy image && truthy (image_url image) = true) ∧
  (truthy image && truthy (image_url image) = true →
     props (nodes t) linkImage !! "style.backgroundImage" =
       CSS_backgroundImage ("url(" +:+ ToString (image_url image) +:+ ")")).
Proof.
  intros Hmeta Ho. unfold mount.
  change (js_or (field data "link") (VStr ""))
    with (link (_data (constructor data cfg a ro))).
  apply render_preview; [|exact Ho].
  unfold constructor. rewrite set_data_meta, Hmeta. reflexivity.
Qed.

(** X21: a later preview removes nothing.  When the timer of an accepted
    response fires in [EDIT], a title or description that is truthy is
    attached with the new text, and an image with a truthy [url] is
    attached with the background the CSS parser reads from
    [url(<image.url>)], or with the background it had when the parser
    rejects that text; a part whose field is missing or falsy is left as
    it was: still attached, with its old text or background, if an
    earlier preview attached it. *)
Theorem later_preview_keeps_old_parts t o :
  reachable t → state t = EDIT →
  let t' := exec (run_callback (ThenShowPreview (VObj o))) t in
  let title := field o "title" in
  let description := field o "description" in
  let image := field o "image" in
  state t' = VIEW ∧
  (if truthy title
   then linkTitle ∈ childNodes (nodes t') linkContent ∧
        textContent (nodes t') linkTitle = to_text title
   else (linkTitle ∈ childNodes (nodes t') linkContent ↔
         linkTitle ∈ childNodes (nodes t) linkContent) ∧
        textContent (nodes t') linkTitle = textContent (nodes t) linkTitle) ∧
  (if truthy description
   then linkDescription ∈ childNodes (nodes t') linkContent ∧
        textContent (nodes t') linkDescription = to_text description
   else (linkDescription ∈ childNodes (nodes t') linkContent ↔
         linkDescription ∈ childNodes (nodes t) linkContent) ∧
        textContent (nodes t') linkDescription = textContent (nodes t) linkDescription) ∧
  (if truthy image && truthy (image_url image)
   then linkImage ∈ childNodes (nodes t') linkContent ∧
        props (nodes t') linkImage !! "style.backgroundImage" =
          background_after (image_url image)
            (props (nodes t) linkImage !! "style.backgroundImage")
   else (linkImage ∈ childNodes (nodes t') linkContent ↔
         linkImage ∈ childNodes (nodes t) linkContent) ∧
        props (nodes t') linkImage = props (nodes t) linkImage).
Proof.
  intros Hr He. cbv zeta. pose proof (reachable_mounted t Hr) as Hm.
  destruct (run_callback_in_edit (VObj o) t Hm He eq_refl) as (t' & E & _ & Hs & _).
  rewrite (exec_run _ _ _ _ E). split; [exact Hs|].
  destruct Hm as (Hc & Hi & _ & _ & Hsh). rewrite He in Hsh. destruct Hsh as [Hh Hp].
  revert E. unfold run_callback, hideInputHolder. run.
  lazymatch goal with
  | |- showLinkPreview _ ?t1 = _ → _ =>
      let E := fresh "E" in
      intros E;
      assert (all_created t1) as Hc1 by auto 50 with created;
      pose proof (showLinkPreview_parts o t1 Hc1) as (_ & _ & P);
      rewrite (exec_run _ _ _ _ E) in P; clear E; revert P
  end.
  read_children. read_props. tauto.
Qed.

End Handlers.

(** * The properties on concrete blocks *)

Section Examples.

#[local] Existing Instance Sample.runtime.

Lemma reachable_blank : reachable Sample.blank.
Proof. apply reachable_mount. Qed.

Lemma reachable_saved : reachable Sample.saved.
Proof. apply reachable_mount. Qed.

Lemma reachable_reopened : reachable Sample.reopened.
Proof. apply reachable_step, reachable_saved. Qed.

Lemma reachable_racing : reachable Sample.racing.
Proof. apply reachable_run, reachable_blank. Qed.

(** Decide a closed membership by evaluation. *)
Ltac evaluate :=
  lazymatch goal with
  | |- _ ∈ _ => apply (bool_decide_unpack _); vm_compute; exact I
  | |- _ ∉ _ => apply (bool_decide_unpack _); vm_compute; exact I
  | |- _ ≠ _ => vm_compute; discriminate
  | |- _ => vm_compute; reflexivity
  end.



(** C2 on a fresh block: [{success: 0}] for a fetch of ["http://e.com"]. *)
Lemma fetch_refused_example :
  let t2 := exec (fetchLinkData_resume (Some (VObj Sample.refused)))
              (exec (fetchLinkData "http://e.com") Sample.blank) in
  state t2 = EDIT ∧ error_shown t2 ∧
  _data t2 = {| link := VStr "http://e.com"; meta := VObj ∅ |}.
Proof.
  assert (state Sample.blank = EDIT) as He by evaluate.
  assert (truthy (field Sample.refused "success") = false) as Hs by evaluate.
  destruct (fetch_refused Sample.blank "http://e.com" Sample.refused reachable_blank He Hs)
    as (Hst & Herr & _ & _ & _ & _ & _ & _).
  split_and!; [exact Hst | exact Herr | evaluate].
Defined.

(** C2 as first stated fails on the same fetch of the empty string when
    it is refused: the stored link is still the one the block had. *)
Lemma fetch_of_empty_text_refused :
  reachable Sample.reopened ∧ state Sample.reopened = EDIT ∧
  truthy (field Sample.refused "success") = false ∧
  link (_data (exec (fetchLinkData_resume (Some (VObj Sample.refused)))
                 (exec (fetchLinkData "") Sample.reopened))) = VStr "http://e.com" ∧
  VStr "http://e.com" ≠ VStr "" ∧
  req_data_url <$> ajax (step Activate Sample.reopened) = [""] ∧
  link (_data (run [Activate; Settled 0 (Some (VObj Sample.refused))] Sample.reopened)) =
    VStr "http://e.com".
Proof.
  split; [exact reachable_reopened|]. split_and!; evaluate.
Qed.

(** C3 on a fresh block: [{success: 1}] for a fetch of ["http://e.com"]. *)
Lemma fetch_malformed_example :
  let t2 := exec (fetchLinkData_resume (Some (VObj Sample.malformed)))
              (exec (fetchLinkData "http://e.com") Sample.blank) in
  notifier t2 = [{| message := "Wrong response format from the server"; style := "error" |}] ∧
  state t2 = EDIT ∧ error_shown t2 ∧ meta (_data t2) = VObj ∅.
Proof.
  assert (state Sample.blank = EDIT) as He by evaluate.
  assert (truthy (field Sample.malformed "success") = true) as Hs by evaluate.
  assert (truthy (field Sample.malformed "meta") = false) as Hm by evaluate.
  destruct (fetch_malformed Sample.blank "http://e.com" Sample.malformed reachable_blank He Hs Hm)
    as (Hn & Hst & Herr & _ & Hd & _).
  split_and!; [ rewrite Hn; evaluate | exact Hst | exact Herr | apply Hd; evaluate ].
Defined.

(** C3 as first stated fails on a block reopened for editing: the same
    response leaves the saved metadata, which is not the empty object. *)
Lemma malformed_response_keeps_meta :
  reachable Sample.reopened ∧ state Sample.reopened = EDIT ∧
  truthy (field Sample.malformed "success") = true ∧
  truthy (field Sample.malformed "meta") = false ∧
  meta (_data (exec (fetchLinkData_resume (Some (VObj Sample.malformed)))
                 (exec (fetchLinkData "http://e.com") Sample.reopened))) =
    VObj {[ "title" := VStr "T" ]} ∧
  VObj {[ "title" := VStr "T" ]} ≠ VObj ∅ ∧
  meta (_data (run [Typed "http://e.com"; Keydown 13;
                    Settled 0 (Some (VObj Sample.malformed))] Sample.reopened)) =
    VObj {[ "title" := VStr "T" ]}.
Proof.
  split; [exact reachable_reopened|]. split_and!; evaluate.
Qed.

(** C7 on the two links of the specification. *)
Lemma label_examples :
  let m := VObj {[ "title" := VStr "T" ]} in
  let t := with_data {| link := VStr "https://example.com/a/b"; meta := m |} Sample.saved in
  let t' := with_data {| link := VStr "not a url"; meta := m |} Sample.saved in
  (outcome (showLinkPreview m) t = inr tt ∧
   textContent (nodes (exec (showLinkPreview m) t)) linkText = "example.com") ∧
  (outcome (showLinkPreview m) t' = inr tt ∧
   textContent (nodes (exec (showLinkPreview m) t')) linkText = "not a url").
Proof.
  intros m t t'.
  assert (all_created Sample.saved) as Hc by apply mount_mounted.
  split.
  - exact (label_is_hostname_or_link t m _ (all_created_with_data _ _ Hc) eq_refl eq_refl).
  - exact (label_is_hostname_or_link t' m _ (all_created_with_data _ _ Hc) eq_refl eq_refl).
Defined.

(** C8 on a saved block, whose preview gives way to the input holder,
    and on the same block reopened with a new address typed in: the
    request carries the typed text, not the stored link. *)
Lemma onActivate_examples :
  (state (exec onActivate Sample.saved) = EDIT ∧
   _data (exec onActivate Sample.saved) = _data Sample.saved ∧
   linkContent ∈ childNodes (nodes Sample.saved) container ∧
   (linkContent ∉ childNodes (nodes (exec onActivate Sample.saved)) container) ∧
   inputHolder ∈ childNodes (nodes (exec onActivate Sample.saved)) container ∧
   input ∈ childNodes (nodes (exec onActivate Sample.saved)) inputHolder ∧
   ajax (exec onActivate Sample.saved) = []) ∧
  (let t := step (Typed "https://example.com/a/b") Sample.reopened in
   link (_data t) = VStr "http://e.com" ∧
   req_data_url <$> ajax (exec onActivate t) = ["https://example.com/a/b"]).
Proof.
  split.
  - destruct (onActivate_toggles Sample.saved reachable_saved) as [Hv _].
    destruct Hv as (_ & Hs & Hd & Hp & Hh & Hi & _ & _ & Ha); [evaluate|].
    split_and!; [exact Hs | exact Hd | evaluate | exact Hp | exact Hh | exact Hi |].
    rewrite Ha. evaluate.
  - intros t.
    destruct (onActivate_toggles t (reachable_step _ _ reachable_reopened)) as [_ He].
    destruct He as (_ & _ & Ha & _); [evaluate|].
    split; [evaluate|]. rewrite Ha. evaluate.
Defined.

(** C9 as first stated fails on a block that reaches [VIEW] while a
    second request is outstanding: it carries the loading class, and the
    toggle to [EDIT] leaves that class on the container; the failure of
    the request in [VIEW] leaves the block in [VIEW] with the preview
    attached. *)
Lemma loading_class_outlives_toggle :
  reachable Sample.racing ∧ state Sample.racing = VIEW ∧
  CSS.containerLoading ∈ classList (nodes Sample.racing) container ∧
  state (step Activate Sample.racing) = EDIT ∧
  CSS.containerLoading ∈ classList (nodes (step Activate Sample.racing)) container ∧
  state (step (Settled 0 (Some (VObj Sample.refused))) Sample.racing) = VIEW ∧
  linkContent ∈ childNodes (nodes (step (Settled 0 (Some (VObj Sample.refused))) Sample.racing))
                  container ∧
  (inputHolder ∉ childNodes (nodes (step (Settled 0 (Some (VObj Sample.refused))) Sample.racing))
                   container).
Proof.
  split; [exact reachable_racing|]. split_and!; evaluate.
Qed.

(** C9, amended, on that block. *)
Lemma view_to_edit_example :
  (state (exec onActivate Sample.racing) = EDIT ∧
   (linkContent ∉ childNodes (nodes (exec onActivate Sample.racing)) container) ∧
   inputHolder ∈ childNodes (nodes (exec onActivate Sample.racing)) container ∧
   (CSS.containerLoaded ∉ classList (nodes (exec onActivate Sample.racing)) container)) ∧
  (state (step (Settled 0 (Some (VObj Sample.refused))) Sample.racing) = VIEW ∧
   error_shown (step (Settled 0 (Some (VObj Sample.refused))) Sample.racing)).
Proof.
  assert (state Sample.racing = VIEW) as Hs by evaluate.
  destruct (view_to_edit Sample.racing reachable_racing Hs) as [Ht Hf].
  split.
  - destruct Ht as (H1 & H2 & H3 & H4 & _). by split_and!.
  - assert (is_Some (ajax Sample.racing !! 0%nat)) as Hi by (vm_compute; eauto).
    assert (failure (Some (VObj Sample.refused))) as Hr.
    { apply failure_refused. right. exists (VNum 0). split; evaluate. }
    destruct (Hf 0%nat _ Hi Hr) as (H1 & _ & _ & _ & H5). by split.
Defined.

(** X12 on two fetches on a fresh block, then one accepted response: the
    metadata is stored under the second address. *)
Lemma response_stored_under_latest_url_example :
  let t2 := exec (fetchLinkData "http://b.com") (exec (fetchLinkData "http://a.com") Sample.blank) in
  req_data_url <$> ajax t2 = ["http://a.com"; "http://b.com"] ∧
  _data (exec (fetchLinkData_resume (Some (VObj Sample.accepted))) t2) =
    {| link := VStr "http://b.com"; meta := VObj {[ "title" := VStr "T" ]} |}.
Proof.
  assert ("http://b.com" ≠ "") as Hu by discriminate.
  assert (truthy (field Sample.accepted "success") = true) as Hs by evaluate.
  assert (truthy (field Sample.accepted "meta") = true) as Hm by evaluate.
  assert (truthy (field Sample.accepted "link") = false) as Hl by evaluate.
  destruct (response_stored_under_latest_url Sample.blank "http://a.com" "http://b.com"
              Sample.accepted reachable_blank Hu Hs Hm Hl) as [Ha Hd].
  split; [rewrite Ha; evaluate | rewrite Hd; evaluate].
Defined.

(** X13: a refused fetch of an address leaves a block the host keeps. *)
Lemma validate_after_fetch_example :
  outcome validate
    (exec (fetchLinkData_resume (Some (VObj Sample.refused)))
       (exec (fetchLinkData "http://e.com") Sample.blank)) = inr true.
Proof.
  assert ("http://e.com" ≠ "") as Hu by discriminate.
  assert (Some (VObj Sample.refused) = None ∨
          ∃ o, Some (VObj Sample.refused) = Some (VObj o) ∧
               truthy (field o "success") = false) as Hr.
  { right. exists Sample.refused. split; [reflexivity | evaluate]. }
  destruct (validate_after_fetch Sample.blank "http://e.com" _ reachable_blank Hu Hr)
    as [_ H].
  rewrite H. evaluate.
Defined.

(** X14 on a response whose link is the number 5. *)
Lemma validate_throws_on_foreign_link_example :
  link (_data (exec (fetchLinkData_resume (Some (VObj Sample.numbered))) Sample.blank)) =
    VNum 5 ∧
  outcome validate (exec (fetchLinkData_resume (Some (VObj Sample.numbered))) Sample.blank) =
    inl TypeError.
Proof.
  assert (truthy (field Sample.numbered "success") = true) as Hs by evaluate.
  assert (truthy (field Sample.numbered "meta") = true) as Hm by evaluate.
  assert (field Sample.numbered "link" = VNum 5) as Hl by evaluate.
  assert (∀ s, VNum 5 ≠ VStr s) as Hn by (intros s; discriminate).
  exact (validate_throws_on_foreign_link Sample.blank Sample.numbered (VNum 5)
           reachable_blank Hs Hm Hl eq_refl Hn).
Defined.

(** X18 on [{success: 1, meta: {}}] for a fresh block. *)
Lemma empty_meta_is_shown_once_example :
  let t3 := exec (run_callback (ThenShowPreview (VObj ∅)))
              (exec (fetchLinkData_resume (Some (VObj Sample.bare)))
                 (exec (fetchLinkData "http://e.com") Sample.blank)) in
  state t3 = VIEW ∧
  state (mount (saved_as (_data t3)) ∅ Sample.editor false) = EDIT.
Proof.
  assert (state Sample.blank = EDIT) as He by evaluate.
  assert (truthy (field Sample.bare "success") = true) as Hs by evaluate.
  assert (field Sample.bare "meta" = VObj ∅) as Hm by evaluate.
  destruct (empty_meta_is_shown_once Sample.blank "http://e.com" Sample.bare
              reachable_blank He Hs Hm) as (Hv & _ & Hl).
  split; [exact Hv | apply Hl].
Defined.

(** X20 on a block saved with a title and an image: both are shown, the
    image with the background the sample parser reads, and no
    description. *)
Lemma first_preview_shows_what_is_there_example :
  let t := mount {[ "link" := VStr "http://e.com"; "meta" := VObj Sample.pictured ]}
             ∅ Sample.editor false in
  state t = VIEW ∧
  linkTitle ∈ childNodes (nodes t) linkContent ∧
  textContent (nodes t) linkTitle = "T" ∧
  (linkDescription ∉ childNodes (nodes t) linkContent) ∧
  linkImage ∈ childNodes (nodes t) linkContent ∧
  props (nodes t) linkImage !! "style.backgroundImage" =
    Some ("url(" +:+ String "034" ("http://e.com/i.png" +:+ String "034" ")")) ∧
  props (nodes t) linkContent !! "href" = Some "http://e.com".
Proof.
  assert (field ({[ "link" := VStr "http://e.com";
                    "meta" := VObj Sample.pictured ]} : obj) "meta" =
          VObj Sample.pictured) as Hm by evaluate.
  assert (Sample.pictured ≠ ∅) as Ho by evaluate.
  destruct (first_preview_shows_what_is_there _ ∅ Sample.editor false _ Hm Ho)
    as (Hs & _ & Hh & Ht & Ht' & Hd & _ & Hi & Hb).
  cbv zeta. split_and!.
  - exact Hs.
  - apply Ht. evaluate.
  - rewrite Ht' by evaluate. evaluate.
  - intros H%Hd. revert H. vm_compute. discriminate.
  - apply Hi. evaluate.
  - rewrite Hb by evaluate. evaluate.
  - rewrite Hh. evaluate.
Defined.

(** X21 on the saved block reopened for editing, then a response with a
    description, no title, and an image whose address the sample parser
    rejects: the old title stays under the preview, the description is
    new, and the image is attached without a background. *)
Lemma later_preview_keeps_old_parts_example :
  let t' := exec (run_callback (ThenShowPreview (VObj Sample.smudged))) Sample.reopened in
  state t' = VIEW ∧
  linkTitle ∈ childNodes (nodes t') linkContent ∧
  textContent (nodes t') linkTitle = "T" ∧
  linkDescription ∈ childNodes (nodes t') linkContent ∧
  textContent (nodes t') linkDescription = "D" ∧
  linkImage ∈ childNodes (nodes t') linkContent ∧
  props (nodes t') linkImage !! "style.backgroundImage" = None.
Proof.
  assert (state Sample.reopened = EDIT) as He by evaluate.
  destruct (later_preview_keeps_old_parts Sample.reopened Sample.smudged
              reachable_reopened He) as (Hs & Ht & Hd & Hi).
  change (truthy (field Sample.smudged "title")) with false in Ht.
  change (truthy (field Sample.smudged "description")) with true in Hd.
  change (truthy (field Sample.smudged "image") &&
          truthy (image_url (field Sample.smudged "image"))) with true in Hi.
  cbv iota in Ht, Hd, Hi.
  destruct Ht as [Ht Ht']. destruct Hd as [Hd Hd']. destruct Hi as [Hi Hi'].
  split_and!.
  - exact Hs.
  - apply Ht. evaluate.
  - rewrite Ht'. evaluate.
  - exact Hd.
  - rewrite Hd'. evaluate.
  - exact Hi.
  - rewrite Hi'. evaluate.
Defined.

End Examples.
